(** * Layer mounting for Windows containers: hcsshim/containerex_wcow.go

    A shallow embedding of the storage-layer part of
    [vendor/github.com/Microsoft/hcsshim/containerex_wcow.go]:
    [removeVSMB], [removeVSMBOnFailure], [removeSCSI], [removeSCSIOnFailure],
    [Mount] and [Unmount], with the two tables a utility VM owns (the
    ref-counted VSMB share map and the SCSI location table), their mutexes,
    and the modify requests sent to the compute service.

    Conventions.
    - A Go [int] is a [Z] kept in the signed 64-bit range by [wrap_int];
      [uint8(lun)] is [uint8]; [UnmountOperation] is an unsigned [Z].
    - A Go [error] is [option string]: [None] is [nil], [Some s] an error
      whose [Error()] text is [s].
    - [map[string]int] is a [gmap string Z].  A nil map reads as the empty
      map, and both [Mount] and [Unmount] [make] it before the first write,
      so nil and empty are the same value here.
    - Everything outside this file that has an effect (the compute service
      behind [Container.Modify], the layer driver) is reached through one
      oracle, [respond], which sees the calls made so far.  Every call is
      appended to [history].
    - [logrus.Warnf], [logrus.Errorf] and [logrus.Debugln] of an error value
      are recorded in [logs]; the [Debugf] and [Debugln] progress messages
      are not.
    - A [sync.Mutex] is a boolean.  [Lock] on a held mutex never returns
      ([Blocked]); a run-time panic is [Panic].  A deferred call runs when
      the function returns and on the way out of a panic ([defer]). *)

From Stdlib Require Import ZArith Lia.
From stdpp Require Import base gmap strings list pretty.

Open Scope Z_scope.

(** ** Machine integers *)

Definition wrap_int (z : Z) : Z := (z + 2 ^ 63) mod 2 ^ 64 - 2 ^ 63.
Definition max_int : Z := 2 ^ 63 - 1.
Definition uint8 (z : Z) : Z := z mod 256.

(** ** Modify requests *)

Inductive ResourceType :=
  | ResourceTypeVSmbShare
  | ResourceTypeMappedVirtualDisk
  | ResourceTypeCombinedLayers.

Inductive RequestType := RequestTypeAdd | RequestTypeRemove.

Record ContainersResourcesLayerV2 := { Id : string; Path : string }.

Record CombinedLayersV2 := {
  ContainerRootPath : string;
  Layers : list ContainersResourcesLayerV2 }.

(** [Settings] and [HostedSettings] are [interface{}] in the source; these
    are the values the file stores in them. *)
Inductive SettingsV2 :=
  | NoSettings
  | VSmbShareV2 (Name : string) (Flags : Z) (SharePath : string)
  | StorageAttachmentV2 (AttachmentPath : string) (AttachmentType : string)
  | MappedDirectoryV2 (ContainerPath : string) (Lun : Z)
  | CombinedLayers (cl : CombinedLayersV2).

Record ModifySettingsRequestV2 := {
  ResourceType_ : ResourceType;
  RequestType_ : RequestType;
  Settings : SettingsV2;
  ResourceUri : string;
  HostedSettings : SettingsV2 }.

Record DriverInfo := { HomeDir : string }.

(** ** The outside world *)

Inductive Call :=
  | CallModify (r : ModifySettingsRequestV2)
  | CallActivateLayer (di : DriverInfo) (id : string)
  | CallPrepareLayer (di : DriverInfo) (id : string) (parents : list string)
  | CallGetLayerMountPath (di : DriverInfo) (id : string)
  | CallUnprepareLayer (di : DriverInfo) (id : string)
  | CallDeactivateLayer (di : DriverInfo) (id : string).

Inductive Reply := Done (v : string) | Failed (err : string).

Definition reply_error (r : Reply) : option string :=
  match r with Done _ => None | Failed e => Some e end.

(** What the file uses and does not define: the schema-version methods,
    [NameToGuid] (which returns both a GUID and an error; the first
    component is [guid.ToString()]), [path/filepath], the VSMB flag
    constants, how [fmt] prints a request with [%s], what [fmt] makes of
    a format string that has no operands, [errors.Wrapf], and the answers
    of the compute service and the layer driver. *)
Class Platform := {
  SchemaVersion : Type;
  isSupported : SchemaVersion → option string;
  IsV10 : SchemaVersion → bool;
  IsV20 : SchemaVersion → bool;
  NameToGuid : string → string * option string;
  filepath_Base : string → string;
  filepath_Dir : string → string;
  filepath_Split : string → string * string;
  filepath_Join : string → string → string;
  VsmbFlagReadOnly : Z;
  VsmbFlagPseudoOplocks : Z;
  VsmbFlagTakeBackupPrivilege : Z;
  VsmbFlagCacheIO : Z;
  VsmbFlagShareRead : Z;
  sprint_request : ModifySettingsRequestV2 → string;
  fmt_Sprintf : string → string;
  errors_Wrapf : string → string → string;
  respond : list Call → Call → Reply }.

(** ** The utility VM and the state *)

Record container := {
  container_id : string;
  vsmbShares_locked : bool;
  vsmbShares_guids : gmap string Z;
  scsiLocations_locked : bool;
  scsiLocations_hostPath : list (list string) }.

(** A [Container] interface value: nil, or the pointer to the one utility
    VM of the state. *)
Inductive Container := nil_Container | uvm_Container.

Inductive Level := DebugLevel | WarnLevel | ErrorLevel.

Record World := {
  uvm : container;
  history : list Call;
  logs : list (Level * string) }.

Definition with_guids (g : gmap string Z) (c : container) : container :=
  {| container_id := container_id c;
     vsmbShares_locked := vsmbShares_locked c;
     vsmbShares_guids := g;
     scsiLocations_locked := scsiLocations_locked c;
     scsiLocations_hostPath := scsiLocations_hostPath c |}.

Definition with_vsmb_lock (b : bool) (c : container) : container :=
  {| container_id := container_id c;
     vsmbShares_locked := b;
     vsmbShares_guids := vsmbShares_guids c;
     scsiLocations_locked := scsiLocations_locked c;
     scsiLocations_hostPath := scsiLocations_hostPath c |}.

Definition with_scsi_lock (b : bool) (c : container) : container :=
  {| container_id := container_id c;
     vsmbShares_locked := vsmbShares_locked c;
     vsmbShares_guids := vsmbShares_guids c;
     scsiLocations_locked := b;
     scsiLocations_hostPath := scsiLocations_hostPath c |}.

Definition with_hostPath (t : list (list string)) (c : container) : container :=
  {| container_id := container_id c;
     vsmbShares_locked := vsmbShares_locked c;
     vsmbShares_guids := vsmbShares_guids c;
     scsiLocations_locked := scsiLocations_locked c;
     scsiLocations_hostPath := t |}.

Definition with_uvm (c : container) (w : World) : World :=
  {| uvm := c; history := history w; logs := logs w |}.

(** ** The monad: state, panic and a goroutine blocked for ever *)

Inductive outcome (A : Type) :=
  | Ret (a : A) (w : World)
  | Panic (w : World)
  | Blocked (w : World).
Arguments Ret {A} a w.
Arguments Panic {A} w.
Arguments Blocked {A} w.

Definition M (A : Type) : Type := World → outcome A.

#[global] Instance M_ret : MRet M := λ A a w, Ret a w.
#[global] Instance M_bind : MBind M := λ A B f m w,
  match m w with
  | Ret a w' => f a w'
  | Panic w' => Panic w'
  | Blocked w' => Blocked w'
  end.

Definition panic {A} : M A := λ w, Panic w.

(** [defer deferred()] followed by [body]: the deferred call runs after the
    body, whether the body returns or panics; a body that never returns
    never reaches it. *)
Definition defer {A} (deferred : M unit) (body : M A) : M A := λ w,
  match body w with
  | Ret a w' => (deferred;; mret a) w'
  | Panic w' =>
      match deferred w' with
      | Ret _ w'' => Panic w''
      | Panic w'' => Panic w''
      | Blocked w'' => Blocked w''
      end
  | Blocked w' => Blocked w'
  end.

Definition get_container : M container := λ w, Ret (uvm w) w.
Definition put_container (c : container) : M unit := λ w, Ret tt (with_uvm c w).

Definition logf (l : Level) (msg : string) : M unit := λ w,
  Ret tt {| uvm := uvm w; history := history w; logs := logs w ++ [(l, msg)] |}.

(** The type assertion of [c] to a container pointer, and method calls on
    [c]: a nil interface panics. *)
Definition deref (c : Container) : M unit :=
  match c with nil_Container => panic | uvm_Container => mret tt end.

Definition vsmbShares_Lock : M unit := λ w,
  if vsmbShares_locked (uvm w) then Blocked w
  else Ret tt (with_uvm (with_vsmb_lock true (uvm w)) w).

Definition vsmbShares_Unlock : M unit := λ w,
  if vsmbShares_locked (uvm w)
  then Ret tt (with_uvm (with_vsmb_lock false (uvm w)) w)
  else Panic w.

Definition scsiLocations_Lock : M unit := λ w,
  if scsiLocations_locked (uvm w) then Blocked w
  else Ret tt (with_uvm (with_scsi_lock true (uvm w)) w).

Definition scsiLocations_Unlock : M unit := λ w,
  if scsiLocations_locked (uvm w)
  then Ret tt (with_uvm (with_scsi_lock false (uvm w)) w)
  else Panic w.

Definition get_guids : M (gmap string Z) := c ← get_container; mret (vsmbShares_guids c).
Definition put_guids (g : gmap string Z) : M unit :=
  c ← get_container; put_container (with_guids g c).

(** [hostPath[controller][lun] = v], with Go's bounds check. *)
Definition table_set (t : list (list string)) (controller lun : Z) (v : string)
  : option (list (list string)) :=
  if (0 <=? controller) && (0 <=? lun) then
    match t !! Z.to_nat controller with
    | Some luns =>
        if (lun <? Z.of_nat (length luns))
        then Some (<[Z.to_nat controller := <[Z.to_nat lun := v]> luns]> t)
        else None
    | None => None
    end
  else None.

Definition table_get (t : list (list string)) (controller lun : Z) : option string :=
  if (0 <=? controller) && (0 <=? lun) then
    luns ← t !! Z.to_nat controller; luns !! Z.to_nat lun
  else None.

Definition store_hostPath (controller lun : Z) (v : string) : M unit :=
  c ← get_container;
  match table_set (scsiLocations_hostPath c) controller lun v with
  | Some t => put_container (with_hostPath t c)
  | None => panic
  end.

(** First slot, in ascending (controller, lun) order, that satisfies [P]. *)
Fixpoint first_slot (P : string → Prop) `{!∀ s, Decision (P s)}
    (t : list (list string)) (controller : nat) : option (nat * nat) :=
  match t with
  | [] => None
  | luns :: rest =>
      match list_find P luns with
      | Some (lun, _) => Some (controller, lun)
      | None => first_slot P rest (S controller)
      end
  end.

Section Program.
Context `{P : Platform}.

Definition call (c : Call) : M Reply := λ w,
  Ret (respond (history w) c)
      {| uvm := uvm w; history := history w ++ [c]; logs := logs w |}.

(** [c.Modify(request)] *)
Definition Modify (c : Container) (r : ModifySettingsRequestV2) : M (option string) :=
  deref c;; reply ← call (CallModify r); mret (reply_error reply).

Definition ActivateLayer (di : DriverInfo) (id : string) : M (option string) :=
  reply ← call (CallActivateLayer di id); mret (reply_error reply).
Definition PrepareLayer (di : DriverInfo) (id : string) (parents : list string)
  : M (option string) :=
  reply ← call (CallPrepareLayer di id parents); mret (reply_error reply).
Definition UnprepareLayer (di : DriverInfo) (id : string) : M (option string) :=
  reply ← call (CallUnprepareLayer di id); mret (reply_error reply).
Definition DeactivateLayer (di : DriverInfo) (id : string) : M (option string) :=
  reply ← call (CallDeactivateLayer di id); mret (reply_error reply).
Definition GetLayerMountPath (di : DriverInfo) (id : string)
  : M (string * option string) :=
  reply ← call (CallGetLayerMountPath di id);
  mret (match reply with Done v => (v, None) | Failed e => ("", Some e) end).

Definition layer_share_flags : Z :=
  Z.lor (Z.lor (Z.lor (Z.lor VsmbFlagReadOnly VsmbFlagPseudoOplocks)
                      VsmbFlagTakeBackupPrivilege) VsmbFlagCacheIO) VsmbFlagShareRead.

(** ** removeVSMB, removeVSMBOnFailure *)

Definition vsmb_remove_request (id : string) : ModifySettingsRequestV2 :=
  {| ResourceType_ := ResourceTypeVSmbShare;
     RequestType_ := RequestTypeRemove;
     Settings := VSmbShareV2 id 0 "";
     ResourceUri := "virtualmachine/devices/virtualsmbshares/" +:+ id;
     HostedSettings := NoSettings |}.

Definition removeVSMB (c : Container) (id : string) : M (option string) :=
  deref c;;
  cont ← get_container;
  match vsmbShares_guids cont !! id with
  | None =>
      mret (Some ("failed to remove vsmbShare " +:+ id +:+
                  " as it is not in utility VM " +:+ container_id cont))
  | Some n =>
      let n' := wrap_int (n - 1) in
      put_guids (<[id := n']> (vsmbShares_guids cont));;
      if n' =? 0 then
        put_guids (delete id (<[id := n']> (vsmbShares_guids cont)));;
        err ← Modify c (vsmb_remove_request id);
        match err with
        | Some e =>
            mret (Some ("failed to remove vsmbShare " +:+ id +:+
                        " from utility VM " +:+ container_id cont +:+
                        " after refcount dropped to zero: " +:+ e))
        | None => mret None
        end
      else mret None
  end.

Fixpoint removeVSMB_each (c : Container) (toRemove : list string) : M unit :=
  match toRemove with
  | [] => mret tt
  | vsmbShare :: rest =>
      err ← removeVSMB c vsmbShare;
      match err with
      | Some e => logf WarnLevel ("Possibly leaked vsmbshare on error removal path: " +:+ e)
      | None => mret tt
      end;;
      removeVSMB_each c rest
  end.

Definition removeVSMBOnFailure (c : Container) (toRemove : list string) : M unit :=
  if decide (length toRemove = 0%nat) then mret tt
  else
    deref c;;
    vsmbShares_Lock;;
    defer vsmbShares_Unlock (removeVSMB_each c toRemove).

(** ** removeSCSI, removeSCSIOnFailure *)

Definition scsi_uri (controller lun : Z) : string :=
  "VirtualMachine/Devices/SCSI/" +:+ pretty controller +:+ "/" +:+ pretty lun.

Definition scsi_remove_request (controller lun : Z) (containerPath : string)
  : ModifySettingsRequestV2 :=
  {| ResourceType_ := ResourceTypeMappedVirtualDisk;
     RequestType_ := RequestTypeRemove;
     Settings := NoSettings;
     ResourceUri := scsi_uri controller lun;
     HostedSettings :=
       if decide (containerPath = "") then NoSettings
       else MappedDirectoryV2 containerPath (uint8 lun) |}.

Definition removeSCSI (c : Container) (controller lun : Z) (containerPath : string)
  : M (option string) :=
  err ← Modify c (scsi_remove_request controller lun containerPath);
  match err with
  | Some e => mret (Some e)
  | None => store_hostPath controller lun "";; mret None
  end.

Definition removeSCSIOnFailure (c : Container) (controller lun : Z) : M unit :=
  deref c;;
  scsiLocations_Lock;;
  defer scsiLocations_Unlock
    (err ← removeSCSI c controller lun "";
     match err with
     | Some e => logf WarnLevel ("Possibly leaked SCSI disk on error removal path: " +:+ e)
     | None => mret tt
     end).

(** ** allocateSCSI, findSCSIAttachment *)

(** Modelled from the spec: [allocateSCSI] is called by [Mount] and declared
    in another file of the package.  Section 4.2 has it scan the slot table
    for the first free slot in ascending (controller, slot) order and
    reserve it with the given host path, and fail with ResourceExhausted
    when no slot is free.  The Add request and the single-controller check
    that the same paragraph mentions are statements of [Mount] itself
    (lines 573-594) and are embedded there.  [Mount] calls it without the
    SCSI mutex, so the reservation takes the mutex itself.  The controller
    and lun returned with an error are not used by the caller. *)
Definition allocateSCSI (hostPath containerPath : string) : M (Z * Z * option string) :=
  scsiLocations_Lock;;
  c ← get_container;
  match first_slot (λ hp, hp = "") (scsiLocations_hostPath c) 0 with
  | Some (controller, lun) =>
      store_hostPath (Z.of_nat controller) (Z.of_nat lun) hostPath;;
      scsiLocations_Unlock;;
      mret (Z.of_nat controller, Z.of_nat lun, None)
  | None =>
      scsiLocations_Unlock;;
      mret (-1, -1, Some "ResourceExhausted")
  end.

(** Modelled from the spec: [findSCSIAttachment] is called by [Unmount]
    (with the SCSI mutex held) and declared in another file of the package.
    Section 4.2: a linear reverse lookup by host path that fails with
    NotFound when the path is not attached. *)
Definition findSCSIAttachment (hostPath : string) : M (Z * Z * option string) :=
  c ← get_container;
  match first_slot (λ hp, hp = hostPath) (scsiLocations_hostPath c) 0 with
  | Some (controller, lun) => mret (Z.of_nat controller, Z.of_nat lun, None)
  | None => mret (-1, -1, Some "NotFound")
  end.

(** ** Slices of the layer stack *)

(** [layerFolders[len(layerFolders)-1]] *)
Definition last_layer (layerFolders : list string) : M string :=
  match last layerFolders with Some l => mret l | None => panic end.

(** [layerFolders[:len(layerFolders)-1]] *)
Definition parent_layers (layerFolders : list string) : M (list string) :=
  match layerFolders with
  | [] => panic
  | _ => mret (take (length layerFolders - 1) layerFolders)
  end.

(** ** Mount *)

Inductive MountResult :=
  | NoResult
  | MountPath (p : string)
  | MountedLayers (cl : CombinedLayersV2).

Definition vsmb_add_request (guid layerPath : string) : ModifySettingsRequestV2 :=
  {| ResourceType_ := ResourceTypeVSmbShare;
     RequestType_ := RequestTypeAdd;
     Settings := VSmbShareV2 guid layer_share_flags layerPath;
     ResourceUri := "virtualmachine/devices/virtualsmbshares/" +:+ guid;
     HostedSettings := NoSettings |}.

Definition scsi_add_request (hostPath containerPath : string) (controller lun : Z)
  : ModifySettingsRequestV2 :=
  {| ResourceType_ := ResourceTypeMappedVirtualDisk;
     RequestType_ := RequestTypeAdd;
     Settings := StorageAttachmentV2 hostPath "VirtualDisk";
     ResourceUri := scsi_uri controller lun;
     HostedSettings := MappedDirectoryV2 containerPath (uint8 lun) |}.

Definition combined_layers (containerPathGUID : string) (vsmbAdded : list string)
  : CombinedLayersV2 :=
  {| ContainerRootPath := "C:\" +:+ containerPathGUID;
     Layers :=
       (λ vsmb, {| Id := vsmb;
                   Path := "\\?\VMSMB\VSMB-{dcc079ae-60ba-4d07-847c-3493609c0870}\" +:+ vsmb |})
       <$> vsmbAdded |}.

Definition combined_layers_request (rt : RequestType) (cl : CombinedLayersV2)
  : ModifySettingsRequestV2 :=
  {| ResourceType_ := ResourceTypeCombinedLayers;
     RequestType_ := rt;
     Settings := NoSettings;
     ResourceUri := "";
     HostedSettings := CombinedLayers cl |}.

(** The direct (v1, or v2 without a hosting system) branch of [Mount]. *)
Definition Mount_direct (layerFolders : list string) : M (MountResult * option string) :=
  if (length layerFolders <? 2)%nat
  then mret (NoResult, Some "need at least two layers - base and sandbox")
  else
    sandbox ← last_layer layerFolders;
    let id := filepath_Base sandbox in
    let homeDir := filepath_Dir sandbox in
    let di := {| HomeDir := homeDir |} in
    err ← ActivateLayer di id;
    match err with
    | Some e => mret (NoResult, Some e)
    | None =>
        parents ← parent_layers layerFolders;
        err ← PrepareLayer di id parents;
        match err with
        | Some e =>
            err2 ← DeactivateLayer di id;
            match err2 with
            | Some _ => logf WarnLevel ("Failed to Deactivate " +:+ id +:+ ": " +:+ e)
            | None => mret tt
            end;;
            mret (NoResult, Some e)
        | None =>
            '(mountPath, err) ← GetLayerMountPath di id;
            match err with
            | Some e =>
                err' ← UnprepareLayer di id;
                match err' with
                | Some e' => logf WarnLevel ("Failed to Unprepare " +:+ id +:+ ": " +:+ e')
                | None => mret tt
                end;;
                err2 ← DeactivateLayer di id;
                match err2 with
                | Some _ => logf WarnLevel ("Failed to Deactivate " +:+ id +:+ ": " +:+ e)
                | None => mret tt
                end;;
                mret (NoResult, Some e)
            | None => mret (MountPath mountPath, None)
            end
        end
    end.

(** One iteration of the loop over the read-only layers (lines 519-550).
    [inl] carries the new [vsmbAdded]; [inr] is the error [Mount] returns
    from inside the loop. *)
Definition Mount_layer (hostingSystem : Container) (vsmbAdded : list string)
    (layerPath : string) : M (list string + string) :=
  let '(_, filename) := filepath_Split layerPath in
  let '(guid, err) := NameToGuid filename in
  match err with
  | Some e =>
      removeVSMBOnFailure hostingSystem vsmbAdded;;
      vsmbShares_Unlock;;
      mret (inr e)
  | None =>
      guids ← get_guids;
      match guids !! guid with
      | None =>
          err ← Modify hostingSystem (vsmb_add_request guid layerPath);
          match err with
          | Some e =>
              vsmbShares_Unlock;;
              removeVSMBOnFailure hostingSystem vsmbAdded;;
              mret (inr e)
          | None =>
              guids ← get_guids;
              put_guids (<[guid := 1]> guids);;
              mret (inl (vsmbAdded ++ [guid]))
          end
      | Some n =>
          put_guids (<[guid := wrap_int (n + 1)]> guids);;
          mret (inl (vsmbAdded ++ [guid]))
      end
  end.

Fixpoint Mount_layers (hostingSystem : Container) (vsmbAdded : list string)
    (layers : list string) : M (list string + string) :=
  match layers with
  | [] => mret (inl vsmbAdded)
  | layerPath :: rest =>
      r ← Mount_layer hostingSystem vsmbAdded layerPath;
      match r with
      | inl added => Mount_layers hostingSystem added rest
      | inr e => mret (inr e)
      end
  end.

(** The utility-VM branch of [Mount], after the read-only layers. *)
Definition Mount_sandbox (layerFolders : list string) (hostingSystem : Container)
    (vsmbAdded : list string) : M (MountResult * option string) :=
  sandbox ← last_layer layerFolders;
  let '(_, sandboxPath) := filepath_Split sandbox in
  let '(containerPathGUID, err) := NameToGuid sandboxPath in
  match err with
  | Some e => removeVSMBOnFailure hostingSystem vsmbAdded;; mret (NoResult, Some e)
  | None =>
      let hostPath := filepath_Join sandbox "sandbox.vhdx" in
      let containerPath := "C:\" +:+ containerPathGUID in
      '(controller, lun, err) ← allocateSCSI hostPath containerPath;
      match err with
      | Some e => removeVSMBOnFailure hostingSystem vsmbAdded;; mret (NoResult, Some e)
      | None =>
          if 0 <? controller
          then mret (NoResult, Some "too many SCSI attachments for a single controller")
          else
            err ← Modify hostingSystem
                    (scsi_add_request hostPath containerPath controller lun);
            match err with
            | Some e =>
                removeVSMBOnFailure hostingSystem vsmbAdded;;
                mret (NoResult, Some e)
            | None =>
                let combinedLayers := combined_layers containerPathGUID vsmbAdded in
                err ← Modify hostingSystem
                        (combined_layers_request RequestTypeAdd combinedLayers);
                match err with
                | Some e =>
                    removeVSMBOnFailure hostingSystem vsmbAdded;;
                    removeSCSIOnFailure hostingSystem controller lun;;
                    mret (NoResult, Some e)
                | None => mret (MountedLayers combinedLayers, None)
                end
            end
      end
  end.

Definition is_nil (c : Container) : bool :=
  match c with nil_Container => true | uvm_Container => false end.

Definition Mount (layerFolders : list string) (hostingSystem : Container)
    (sv : SchemaVersion) : M (MountResult * option string) :=
  match isSupported sv with
  | Some e => mret (NoResult, Some e)
  | None =>
      if IsV10 sv || (IsV20 sv && is_nil hostingSystem)
      then Mount_direct layerFolders
      else
        deref hostingSystem;;
        vsmbShares_Lock;;
        parents ← parent_layers layerFolders;
        r ← Mount_layers hostingSystem [] parents;
        match r with
        | inr e => mret (NoResult, Some e)
        | inl vsmbAdded =>
            vsmbShares_Unlock;;
            Mount_sandbox layerFolders hostingSystem vsmbAdded
        end
  end.

(** ** Unmount *)

Definition UnmountOperationSCSI : Z := 1.
Definition UnmountOperationVSMB : Z := 2.
Definition UnmountOperationAll : Z := Z.lor UnmountOperationSCSI UnmountOperationVSMB.

(** [if retError == nil { retError = e } else { retError = errors.Wrapf(retError, e.Error()) }] *)
Definition accumulate (retError : option string) (e : string) : option string :=
  match retError with
  | None => Some e
  | Some r => Some (errors_Wrapf r e)
  end.

Definition Unmount_direct (layerFolders : list string) (op : Z) : M (option string) :=
  if negb (op =? UnmountOperationAll)
  then mret (Some "Only UnmountOperationAll is supported in the v1 schema, or for v2 schema argons")
  else if (length layerFolders <? 1)%nat
  then mret (Some "need at least one layer for Unmount")
  else
    sandbox ← last_layer layerFolders;
    let id := filepath_Base sandbox in
    let homeDir := filepath_Dir sandbox in
    let di := {| HomeDir := homeDir |} in
    err ← UnprepareLayer di id;
    match err with
    | Some e => mret (Some e)
    | None => DeactivateLayer di id
    end.

(** Lines 673-705: unload the storage filter, then hot-remove the sandbox. *)
Definition Unmount_scsi (layerFolders : list string) (hostingSystem : Container)
    (retError : option string) : M (option string) :=
  sandbox ← last_layer layerFolders;
  let '(_, sandboxPath) := filepath_Split sandbox in
  let '(containerPathGUID, err) := NameToGuid sandboxPath in
  match err with
  | Some e =>
      logf WarnLevel ("may leak a sandbox in " +:+ e +:+
                      " as nametoguid failed: %!s(MISSING)")
  | None =>
      err ← Modify hostingSystem
              (combined_layers_request RequestTypeRemove
                 {| ContainerRootPath := "C:\" +:+ containerPathGUID; Layers := [] |});
      match err with
      | Some e => logf ErrorLevel (fmt_Sprintf e)
      | None => mret tt
      end
  end;;
  scsiLocations_Lock;;
  let hostSandboxFile := filepath_Join sandbox "sandbox.vhdx" in
  '(controller, lun, err) ← findSCSIAttachment hostSandboxFile;
  retError ←
    match err with
    | Some _ =>
        logf WarnLevel ("sandbox " +:+ hostSandboxFile +:+
                        " is not attached to SCSI - cannot remove!");;
        mret retError
    | None =>
        err ← removeSCSI hostingSystem controller lun ("C:\" +:+ containerPathGUID);
        match err with
        | Some x =>
            let e := "failed to remove SCSI " +:+ hostSandboxFile +:+ ": " +:+ x in
            logf DebugLevel e;;
            mret (accumulate retError e)
        | None => mret retError
        end
    end;
  scsiLocations_Unlock;;
  mret retError.

(** One iteration of the loop over the read-only layers (lines 716-750). *)
Definition Unmount_layer (hostingSystem : Container) (retError : option string)
    (layerPath : string) : M (option string) :=
  let '(_, filename) := filepath_Split layerPath in
  let '(guid, err) := NameToGuid filename in
  match err with
  | Some e =>
      logf WarnLevel ("may have leaked a VSMB share - failed to NameToGuid on " +:+
                      filename +:+ ": " +:+ e);;
      mret retError
  | None =>
      guids ← get_guids;
      match guids !! guid with
      | None =>
          logf WarnLevel ("layer " +:+ layerPath +:+
                          " is not mounted as a VSMB share - cannot unmount!");;
          mret retError
      | Some n =>
          let n' := wrap_int (n - 1) in
          put_guids (<[guid := n']> guids);;
          if 0 <? n' then mret retError
          else
            put_guids (delete guid (<[guid := n']> guids));;
            let modification := vsmb_remove_request guid in
            err ← Modify hostingSystem modification;
            match err with
            | Some x =>
                let e := "failed to remove vsmb share " +:+ layerPath +:+ ": " +:+
                         sprint_request modification +:+ ": " +:+ x in
                logf DebugLevel e;;
                mret (accumulate retError e)
            | None => mret retError
            end
      end
  end.

Fixpoint Unmount_layers (hostingSystem : Container) (retError : option string)
    (layers : list string) : M (option string) :=
  match layers with
  | [] => mret retError
  | layerPath :: rest =>
      retError ← Unmount_layer hostingSystem retError layerPath;
      Unmount_layers hostingSystem retError rest
  end.

Definition Unmount_vsmb (layerFolders : list string) (hostingSystem : Container)
    (retError : option string) : M (option string) :=
  vsmbShares_Lock;;
  parents ← parent_layers layerFolders;
  retError ← Unmount_layers hostingSystem retError parents;
  vsmbShares_Unlock;;
  mret retError.

Definition Unmount (layerFolders : list string) (hostingSystem : Container)
    (sv : SchemaVersion) (op : Z) : M (option string) :=
  match isSupported sv with
  | Some e => mret (Some e)
  | None =>
      if IsV10 sv || (IsV20 sv && is_nil hostingSystem)
      then Unmount_direct layerFolders op
      else if (length layerFolders <? 2)%nat
      then mret (Some "at least two layers are required for unmount")
      else
        deref hostingSystem;;
        retError ←
          (if Z.lor op UnmountOperationSCSI =? UnmountOperationSCSI
           then Unmount_scsi layerFolders hostingSystem None
           else mret None);
        retError ←
          (if (1 <? length layerFolders)%nat &&
              (Z.lor op UnmountOperationVSMB =? UnmountOperationVSMB)
           then Unmount_vsmb layerFolders hostingSystem retError
           else mret retError);
        mret retError
  end.

End Program.

(** * Vocabulary of the statements *)

(** ** State updates *)

Definition set_guids (g : gmap string Z) (w : World) : World :=
  with_uvm (with_guids g (uvm w)) w.

Definition set_hostPath (t : list (list string)) (w : World) : World :=
  with_uvm (with_hostPath t (uvm w)) w.

Definition set_vsmb_lock (b : bool) (w : World) : World :=
  with_uvm (with_vsmb_lock b (uvm w)) w.

Definition set_scsi_lock (b : bool) (w : World) : World :=
  with_uvm (with_scsi_lock b (uvm w)) w.

Definition push_call (c : Call) (w : World) : World :=
  {| uvm := uvm w; history := history w ++ [c]; logs := logs w |}.

Definition push_calls (cs : list Call) (w : World) : World :=
  {| uvm := uvm w; history := history w ++ cs; logs := logs w |}.

(** ** The share registry *)

(** The registry invariant of section 3 of the specification: a present
    identifier has a positive count (that fits a Go int). *)
Definition registry_ok (g : gmap string Z) : Prop :=
  map_Forall (λ _ n, 1 ≤ n ≤ max_int) g.

(** The map after one acquisition by [Mount], after one release by
    [removeVSMB], and after one release by the loop of [Unmount] (which
    deletes the entry when the new count is not positive). *)
Definition share_acquired (id : string) (g : gmap string Z) : gmap string Z :=
  match g !! id with
  | None => <[id := 1]> g
  | Some n => <[id := wrap_int (n + 1)]> g
  end.

Definition share_released (id : string) (g : gmap string Z) : gmap string Z :=
  match g !! id with
  | None => g
  | Some n => if wrap_int (n - 1) =? 0 then delete id g else <[id := wrap_int (n - 1)]> g
  end.

Definition share_unmounted (id : string) (g : gmap string Z) : gmap string Z :=
  match g !! id with
  | None => g
  | Some n => if 0 <? wrap_int (n - 1) then <[id := wrap_int (n - 1)]> g else delete id g
  end.

(** ** The attachment table *)

Definition slot_free (w : World) (controller lun : Z) : Prop :=
  table_get (scsiLocations_hostPath (uvm w)) controller lun = Some "".

Definition slot_occupied (w : World) (controller lun : Z) : Prop :=
  ∃ hp, table_get (scsiLocations_hostPath (uvm w)) controller lun = Some hp ∧ hp ≠ "".

(** The first free slot of the table. *)
Definition free_slot (w : World) : option (nat * nat) :=
  first_slot (λ hp, hp = "") (scsiLocations_hostPath (uvm w)) 0.

(** ** Requests and answers *)

Definition is_combined_add (r : ModifySettingsRequestV2) : bool :=
  match ResourceType_ r, RequestType_ r with
  | ResourceTypeCombinedLayers, RequestTypeAdd => true
  | _, _ => false
  end.

Section Vocabulary.
Context `{P : Platform}.

(** The call takes the utility-VM (v2 Xenon) branch. *)
Definition vm_hosted (hostingSystem : Container) (sv : SchemaVersion) : Prop :=
  isSupported sv = None ∧ IsV10 sv = false ∧ IsV20 sv = true ∧
  hostingSystem = uvm_Container.

(** The call takes the direct (v1, or v2 Argon) branch. *)
Definition direct_mode (hostingSystem : Container) (sv : SchemaVersion) : Prop :=
  isSupported sv = None ∧ IsV10 sv || (IsV20 sv && is_nil hostingSystem) = true.

(** The GUID [NameToGuid] derives from the leaf name of a layer path. *)
Definition layer_guid (layerPath : string) : string * option string :=
  NameToGuid (filepath_Split layerPath).2.

(** The map after the loop of [Unmount] has handled one layer. *)
Definition layer_unmounted (g : gmap string Z) (layerPath : string) : gmap string Z :=
  match layer_guid layerPath with
  | (id, None) => share_unmounted id g
  | (_, Some _) => g
  end.

(** Every call of [cs], made in this order after the history [h], is
    answered with success. *)
Fixpoint all_accepted (h : list Call) (cs : list Call) : Prop :=
  match cs with
  | [] => True
  | c :: cs' => (∃ v, respond h c = Done v) ∧ all_accepted (h ++ [c]) cs'
  end.

(** The compute service accepts every request but the Add of combined
    layers. *)
Definition accepts_all_but_union : Prop :=
  ∀ h r, is_combined_add r = false → ∃ v, respond h (CallModify r) = Done v.

(** Every request succeeds except the Add of combined layers, which fails
    with [e]. *)
Definition only_union_assembly_fails (e : string) : Prop :=
  ∀ h r, if is_combined_add r then respond h (CallModify r) = Failed e
         else ∃ v, respond h (CallModify r) = Done v.

(** The two log entries of the share loop of [Unmount]. *)
Definition not_mounted_warning (layerPath : string) : Level * string :=
  (WarnLevel, "layer " +:+ layerPath +:+ " is not mounted as a VSMB share - cannot unmount!").

Definition remove_failed_error (layerPath : string) (r : ModifySettingsRequestV2)
    (x : string) : string :=
  "failed to remove vsmb share " +:+ layerPath +:+ ": " +:+ sprint_request r +:+ ": " +:+ x.

(** What the share loop of [Unmount] has done when it goes from [w] with
    the accumulated error [retError] to [w'] with [err]: every layer has
    been handled, the calls [cs] were made and the entries [entries]
    logged; the error is still nil exactly when it was nil and every call
    succeeded; a layer whose identifier was not in the map has its warning;
    a refused call has its error logged. *)
Definition unmount_post (layers : list string) (retError : option string) (w : World)
    (err : option string) (w' : World) : Prop :=
  uvm w' = with_guids (foldl layer_unmounted (vsmbShares_guids (uvm w)) layers) (uvm w) ∧
  ∃ cs entries,
    history w' = history w ++ cs ∧
    logs w' = logs w ++ entries ∧
    (err = None ↔ retError = None ∧ all_accepted (history w) cs) ∧
    (∀ lp id, lp ∈ layers → layer_guid lp = (id, None) →
       vsmbShares_guids (uvm w) !! id = None → not_mounted_warning lp ∈ entries) ∧
    (∀ pre r post x,
       cs = pre ++ CallModify r :: post →
       respond (history w ++ pre) (CallModify r) = Failed x →
       ∃ lp, lp ∈ layers ∧ (DebugLevel, remove_failed_error lp r x) ∈ entries).

End Vocabulary.

(** * A concrete platform for the examples

    Paths use the backslash as separator; the GUID of a name and the
    answers of the compute service vary from example to example. *)

Definition backslash : Ascii.ascii := Ascii.ascii_of_nat 92.

Fixpoint split_path (s : string) : string * string :=
  match s with
  | EmptyString => ("", "")
  | String a s' =>
      let '(d, f) := split_path s' in
      if Ascii.eqb a backslash then
        (if String.eqb d "" then (String a "", s') else (String a d, f))
      else
        (if String.eqb d "" then ("", String a s') else (String a d, f))
  end.

Fixpoint drop_last_char (s : string) : string :=
  match s with
  | EmptyString => ""
  | String a EmptyString => ""
  | String a s' => String a (drop_last_char s')
  end.

Definition sample_platform (guid : string → string * option string)
    (oracle : list Call → Call → Reply) : Platform :=
  {| SchemaVersion := Z * Z;
     IsV10 := λ sv, (sv.1 =? 1) && (sv.2 =? 0);
     IsV20 := λ sv, (sv.1 =? 2) && (sv.2 =? 0);
     isSupported := λ sv,
       if (sv.1 =? 1) && (sv.2 =? 0) || (sv.1 =? 2) && (sv.2 =? 0)
       then None else Some "unsupported schema version";
     NameToGuid := guid;
     filepath_Base := λ p, (split_path p).2;
     filepath_Dir := λ p, drop_last_char (split_path p).1;
     filepath_Split := split_path;
     filepath_Join := λ a b, a +:+ "\" +:+ b;
     VsmbFlagReadOnly := 1;
     VsmbFlagPseudoOplocks := 2;
     VsmbFlagTakeBackupPrivilege := 4;
     VsmbFlagCacheIO := 8;
     VsmbFlagShareRead := 16;
     sprint_request := ResourceUri;
     fmt_Sprintf := λ s, s;
     errors_Wrapf := λ cause msg, msg +:+ ": " +:+ cause;
     respond := oracle |}.

Definition SchemaV10 : Z * Z := (1, 0).
Definition SchemaV20 : Z * Z := (2, 0).

(** Every name has a GUID. *)
Definition guid_of_name (name : string) : string * option string :=
  ("guid-" +:+ name, None).

(** Every name but [broken] has a GUID. *)
Definition guid_unless_broken (name : string) : string * option string :=
  if String.eqb name "broken" then ("", Some "NameToGuid: invalid name")
  else ("guid-" +:+ name, None).

Definition always_done : list Call → Call → Reply := λ _ _, Done "".

(** The compute service refuses every request of the given kind. *)
Definition refuse (rt : ResourceType) (rq : RequestType) : list Call → Call → Reply :=
  λ _ c,
    match c with
    | CallModify r =>
        match ResourceType_ r, RequestType_ r, rt, rq with
        | ResourceTypeVSmbShare, RequestTypeAdd, ResourceTypeVSmbShare, RequestTypeAdd
        | ResourceTypeVSmbShare, RequestTypeRemove, ResourceTypeVSmbShare, RequestTypeRemove
        | ResourceTypeMappedVirtualDisk, RequestTypeAdd,
            ResourceTypeMappedVirtualDisk, RequestTypeAdd
        | ResourceTypeMappedVirtualDisk, RequestTypeRemove,
            ResourceTypeMappedVirtualDisk, RequestTypeRemove
        | ResourceTypeCombinedLayers, RequestTypeAdd,
            ResourceTypeCombinedLayers, RequestTypeAdd
        | ResourceTypeCombinedLayers, RequestTypeRemove,
            ResourceTypeCombinedLayers, RequestTypeRemove => Failed "refused"
        | _, _, _, _ => Done ""
        end
    | _ => Done ""
    end.

Definition calm : Platform := sample_platform guid_of_name always_done.
Definition one_name_broken : Platform := sample_platform guid_unless_broken always_done.
Definition refusing_share_add : Platform :=
  sample_platform guid_of_name (refuse ResourceTypeVSmbShare RequestTypeAdd).
Definition refusing_share_remove : Platform :=
  sample_platform guid_of_name (refuse ResourceTypeVSmbShare RequestTypeRemove).
Definition refusing_disk_add : Platform :=
  sample_platform guid_of_name (refuse ResourceTypeMappedVirtualDisk RequestTypeAdd).
Definition refusing_disk_remove : Platform :=
  sample_platform guid_of_name (refuse ResourceTypeMappedVirtualDisk RequestTypeRemove).
Definition refusing_union : Platform :=
  sample_platform guid_of_name (refuse ResourceTypeCombinedLayers RequestTypeAdd).

(** A utility VM with two controllers of three slots; slot 0:0 holds the
    VM's own disk. *)
Definition sample_uvm (guids : gmap string Z) (table : list (list string)) : World :=
  {| uvm := {| container_id := "uvm1";
               vsmbShares_locked := false;
               vsmbShares_guids := guids;
               scsiLocations_locked := false;
               scsiLocations_hostPath := table |};
     history := [];
     logs := [] |}.

Definition table_idle : list (list string) :=
  [["C:\uvm\sandbox.vhdx"; ""; ""]; [""; ""; ""]].
Definition table_one_attached : list (list string) :=
  [["C:\uvm\sandbox.vhdx"; "C:\l\scratch\sandbox.vhdx"; ""]; [""; ""; ""]].
Definition table_controller0_full : list (list string) :=
  [["C:\uvm\sandbox.vhdx"; "C:\l\a\sandbox.vhdx"; "C:\l\b\sandbox.vhdx"]; [""; ""; ""]].
Definition table_second_controller : list (list string) :=
  [["C:\uvm\sandbox.vhdx"; "C:\l\a\sandbox.vhdx"; "C:\l\b\sandbox.vhdx"];
   ["C:\l\scratch\sandbox.vhdx"; ""; ""]].

Definition two_shares : gmap string Z := {["guid-base" := 2; "guid-ro1" := 1]}.

(** One workload is mounted: its base layer is shared once and its sandbox
    is attached at 0:1. *)
Definition one_mounted : World := sample_uvm {["guid-base" := 1]} table_one_attached.

Definition sandbox_teardown : list Call :=
  [CallModify (combined_layers_request RequestTypeRemove
                 {| ContainerRootPath := "C:\guid-scratch"; Layers := [] |});
   CallModify (scsi_remove_request 0 1 "C:\guid-scratch")].

Definition scratch_attached : list Call :=
  [CallModify (scsi_add_request "C:\l\scratch\sandbox.vhdx" "C:\guid-scratch" 0 1);
   CallModify (combined_layers_request RequestTypeAdd
                 {| ContainerRootPath := "C:\guid-scratch"; Layers := [] |})].

Definition base_share_added : Call :=
  CallModify (@vsmb_add_request calm "guid-base" "C:\l\base").

Definition three_layers : list string := ["C:\l\base"; "C:\l\ro1"; "C:\l\scratch"].
Definition base_shared : World := sample_uvm {["guid-base" := 1]} table_idle.
Definition unmount_stack : list string := ["C:\l\nope"; "C:\l\base"; "C:\l\scratch"].


(** * Vocabulary for whole stacks *)

Definition push_log (l : Level) (msg : string) (w : World) : World :=
  {| uvm := uvm w; history := history w; logs := logs w ++ [(l, msg)] |}.

(** Every count is positive and leaves room for [n] further acquisitions
    in a Go int. *)
Definition bounded_counts (n : nat) (g : gmap string Z) : Prop :=
  Z.of_nat n ≤ max_int ∧ map_Forall (λ _ v, 1 ≤ v ∧ v + Z.of_nat n ≤ max_int) g.

(** The number of times [id] occurs in [ids]. *)
Definition occurrences (id : string) (ids : list string) : Z :=
  Z.of_nat (length (filter (λ x, x = id) ids)).

(** The count of an identifier, 0 when it is not in the map. *)
Definition count_of (o : option Z) : Z :=
  match o with Some v => v | None => 0 end.

(** The entry of an identifier after [c] further acquisitions. *)
Definition acquire_count (o : option Z) (c : Z) : option Z :=
  if c =? 0 then o else Some (count_of o + c).

Definition acquire_all (g : gmap string Z) (ids : list string) : gmap string Z :=
  foldl (λ g id, share_acquired id g) g ids.

Definition release_all (g : gmap string Z) (ids : list string) : gmap string Z :=
  foldl (λ g id, share_released id g) g ids.

(** The Remove requests [removeVSMB] sends when the identifiers [ids] are
    released in this order: one for each release that takes a count to 0. *)
Fixpoint release_requests (g : gmap string Z) (ids : list string) : list Call :=
  match ids with
  | [] => []
  | id :: rest =>
      match g !! id with
      | Some n =>
          if wrap_int (n - 1) =? 0 then [CallModify (vsmb_remove_request id)] else []
      | None => []
      end ++ release_requests (share_released id g) rest
  end.

(** The slot [findSCSIAttachment] reports for a host path. *)
Definition attached_slot (w : World) (hostPath : string) : option (nat * nat) :=
  first_slot (λ hp, hp = hostPath) (scsiLocations_hostPath (uvm w)) 0.

Definition is_share_request (c : Call) : bool :=
  match c with
  | CallModify r =>
      match ResourceType_ r with ResourceTypeVSmbShare => true | _ => false end
  | _ => false
  end.

Section StackVocabulary.
Context `{P : Platform}.

(** The identifiers of a list of layer paths. *)
Definition layer_ids (layers : list string) : list string :=
  (λ lp, (layer_guid lp).1) <$> layers.

(** [NameToGuid] succeeds on the leaf name of every layer. *)
Definition layers_have_guids (layers : list string) : Prop :=
  Forall (λ lp, (layer_guid lp).2 = None) layers.

(** The Add requests the share loop of [Mount] sends for [layers]: one for
    each layer whose identifier is not in the map when its turn comes. *)
Fixpoint share_adds (g : gmap string Z) (layers : list string) : list Call :=
  match layers with
  | [] => []
  | lp :: rest =>
      match g !! (layer_guid lp).1 with
      | Some _ => []
      | None => [CallModify (vsmb_add_request (layer_guid lp).1 lp)]
      end ++ share_adds (share_acquired (layer_guid lp).1 g) rest
  end.

(** The requests of a successful utility-VM mount, after the shares. *)
Definition sandbox_requests (scratch gs : string) (ids : list string) (lun : Z)
  : list Call :=
  [CallModify (scsi_add_request (filepath_Join scratch "sandbox.vhdx")
                 ("C:\" +:+ gs) 0 lun);
   CallModify (combined_layers_request RequestTypeAdd (combined_layers gs ids))].

(** The request that unloads the storage filter of a sandbox, when its name
    has a GUID. *)
Definition teardown_requests (scratch : string) : list Call :=
  match layer_guid scratch with
  | (guid, None) =>
      [CallModify (combined_layers_request RequestTypeRemove
                     {| ContainerRootPath := "C:\" +:+ guid; Layers := [] |})]
  | (_, Some _) => []
  end.

(** The request that hot-removes a sandbox from slot [controller]:[lun]. *)
Definition sandbox_remove_request (scratch : string) (controller lun : nat) : Call :=
  CallModify (scsi_remove_request (Z.of_nat controller) (Z.of_nat lun)
                ("C:\" +:+ (layer_guid scratch).1)).

(** Every call, of any kind, is answered with success. *)
Definition answers_done : Prop := ∀ h c, ∃ v, respond h c = Done v.

End StackVocabulary.
(** * The utility VM image, the utility VM and the container document

    [UVMFolderFromLayerFolders], [createWCOWv2UVM] and
    [CreateHCSContainerDocument] read an OCI runtime specification and
    write the documents handed to the compute service.  The structs of the
    specification and of the two schemas are declared outside this file;
    each record below has the fields this file reads or writes, under their
    Go names, one module for each struct.

    Conventions, besides the ones above.
    - A pointer or slice that the code tests against nil is an [option];
      a pointer that it only ever sets is the record itself.  A field the
      code assigns under a condition holds Go's zero value otherwise.
    - An integer field is the [Z] it denotes; the conversions [int32],
      [uint32], [int64] and [uint64] wrap, and [/] truncates ([Z.quot]).
    - [createOptions] itself is not nil, and its [Logger] is set.
    - The file system is the same for every [os.Stat] of one call. *)

Definition int32 (z : Z) : Z := (z + 2 ^ 31) mod 2 ^ 32 - 2 ^ 31.
Definition uint32 (z : Z) : Z := z mod 2 ^ 32.
Definition int64 (z : Z) : Z := wrap_int z.
Definition uint64 (z : Z) : Z := z mod 2 ^ 64.

(** [s[len(s)-1]], when [s] is not empty. *)
Fixpoint last_char (s : string) : option Ascii.ascii :=
  match s with
  | EmptyString => None
  | String a EmptyString => Some a
  | String _ s' => last_char s'
  end.

(** [s[n:]], for [n] up to the length of [s]. *)
Fixpoint string_drop (n : nat) (s : string) : string :=
  match n, s with
  | O, _ => s
  | S n', String _ s' => string_drop n' s'
  | S _, EmptyString => EmptyString
  end.

Definition isset {A : Type} (o : option A) : bool :=
  match o with Some _ => true | None => false end.

(** An [interface{}] of the specification: nil, a string, or a value of
    another type. *)
Inductive interface_value :=
  | nil_value
  | string_value (s : string)
  | other_value.

Module specs.

Module Root.
Record t := { Path : string; Readonly : bool }.
End Root.

Module Mount.
Record t := {
  Destination : string;
  Type_ : string;
  Source : string;
  Options : list string }.
End Mount.

Module WindowsMemoryResources.
Record t := { Limit : option Z }.
End WindowsMemoryResources.

Module WindowsCPUResources.
Record t := { Count : option Z; Shares : option Z; Maximum : option Z }.
End WindowsCPUResources.

Module WindowsStorageResources.
Record t := { Iops : option Z; Bps : option Z }.
End WindowsStorageResources.

Module WindowsResources.
Record t := {
  Memory : option WindowsMemoryResources.t;
  CPU : option WindowsCPUResources.t;
  Storage : option WindowsStorageResources.t }.
End WindowsResources.

Module WindowsNetwork.
Record t := {
  EndpointList : list string;
  AllowUnqualifiedDNSQuery : bool;
  DNSSearchList : option (list string);
  NetworkSharedContainerName : string }.
End WindowsNetwork.

Module WindowsHyperV.
Record t := { UtilityVMPath : string }.
End WindowsHyperV.

Module Windows.
Record t := {
  LayerFolders : list string;
  Resources : option WindowsResources.t;
  CredentialSpec : interface_value;
  IgnoreFlushesDuringBoot : bool;
  HyperV : option WindowsHyperV.t;
  Network : option WindowsNetwork.t }.
End Windows.

Module Spec.
Record t := {
  Hostname : string;
  Root : option Root.t;
  Windows : option Windows.t;
  Mounts : list Mount.t }.
End Spec.

End specs.

(** ** The v1 document *)

Module HvRuntime.
Record t := { ImagePath : string }.
End HvRuntime.

Module Layer.
Record t := { ID : string; Path : string }.
End Layer.

Module MappedDir.
Record t := { HostPath : string; ContainerPath : string; ReadOnly : bool }.
End MappedDir.

Module MappedPipe.
Record t := { HostPath : string; ContainerPipeName : string }.
End MappedPipe.

Module ContainerConfig.
Record t := {
  SystemType : string;
  Name : string;
  Owner : string;
  HvPartition : bool;
  IgnoreFlushesDuringBoot : bool;
  HostName : string;
  ProcessorCount : Z;
  ProcessorWeight : Z;
  ProcessorMaximum : Z;
  MemoryMaximumInMB : Z;
  StorageBandwidthMaximum : Z;
  StorageIOPSMaximum : Z;
  EndpointList : list string;
  AllowUnqualifiedDNSQuery : bool;
  DNSSearchList : string;
  NetworkSharedContainerName : string;
  Credentials : string;
  LayerFolderPath : string;
  VolumePath : string;
  HvRuntime : option HvRuntime.t;
  Layers : list Layer.t;
  MappedDirectories : list MappedDir.t;
  MappedPipes : list MappedPipe.t }.
End ContainerConfig.

(** ** The v2 document *)

Module ContainersResourcesStorageQoSV2.
Record t := { IOPSMaximum : Z; BandwidthMaximum : Z }.
End ContainersResourcesStorageQoSV2.

Module ContainersResourcesStorageV2.
Record t := {
  Layers : list ContainersResourcesLayerV2;
  Path : string;
  StorageQoS : option ContainersResourcesStorageQoSV2.t }.
End ContainersResourcesStorageV2.

Module GuestOsV2.
Record t := { HostName : string }.
End GuestOsV2.

Module ContainersResourcesProcessorV2.
Record t := { Count : Z; Weight : Z; Maximum : Z }.
End ContainersResourcesProcessorV2.

Module ContainersResourcesMemoryV2.
Record t := { Maximum : Z }.
End ContainersResourcesMemoryV2.

Module ContainersResourcesNetworkingV2.
Record t := {
  NetworkAdapters : list string;
  AllowUnqualifiedDnsQuery : bool;
  DNSSearchList : string;
  NetworkSharedContainerName : string }.
End ContainersResourcesNetworkingV2.

Module ContainersResourcesMappedDirectoryV2.
Record t := { HostPath : string; ContainerPath : string; ReadOnly : bool }.
End ContainersResourcesMappedDirectoryV2.

Module ContainersResourcesMappedPipeV2.
Record t := { HostPath : string; ContainerPipeName : string }.
End ContainersResourcesMappedPipeV2.

Module ContainerV2.
Record t := {
  Storage : ContainersResourcesStorageV2.t;
  GuestOS : option GuestOsV2.t;
  Processor : option ContainersResourcesProcessorV2.t;
  Memory : option ContainersResourcesMemoryV2.t;
  Networking : option ContainersResourcesNetworkingV2.t;
  MappedDirectories : list ContainersResourcesMappedDirectoryV2.t;
  MappedPipes : list ContainersResourcesMappedPipeV2.t }.
End ContainerV2.

(** ** The utility VM part of the v2 document *)

Module VirtualMachinesResourcesUefiBootEntryV2.
Record t := { DevicePath : string; DiskNumber : Z; UefiDevice : string }.
End VirtualMachinesResourcesUefiBootEntryV2.

Module VirtualMachinesResourcesComputeMemoryV2.
Record t := { Backing : string; Startup : Z; DirectFileMappingMB : Z }.
End VirtualMachinesResourcesComputeMemoryV2.

Module VirtualMachinesResourcesComputeProcessorV2.
Record t := { Count : Z }.
End VirtualMachinesResourcesComputeProcessorV2.

Module VirtualMachinesResourcesStorageAttachmentV2.
Record t := { Path : string; Type_ : string }.
End VirtualMachinesResourcesStorageAttachmentV2.

Module VirtualMachinesResourcesStorageScsiV2.
Record t := {
  Attachments : gmap string VirtualMachinesResourcesStorageAttachmentV2.t }.
End VirtualMachinesResourcesStorageScsiV2.

Module VirtualMachinesResourcesStorageVSmbShareV2.
Record t := { Flags : Z; Name : string; Path : string }.
End VirtualMachinesResourcesStorageVSmbShareV2.

Module VirtualMachinesDevicesV2.
Record t := {
  SCSI : gmap string VirtualMachinesResourcesStorageScsiV2.t;
  VirtualSMBShares : list VirtualMachinesResourcesStorageVSmbShareV2.t;
  GuestInterface_ConnectToBridge : bool }.
End VirtualMachinesDevicesV2.

Module VirtualMachineV2.
Record t := {
  Chipset_UEFI_BootThis : VirtualMachinesResourcesUefiBootEntryV2.t;
  ComputeTopology_Memory : VirtualMachinesResourcesComputeMemoryV2.t;
  ComputeTopology_Processor : VirtualMachinesResourcesComputeProcessorV2.t;
  Devices : VirtualMachinesDevicesV2.t }.
End VirtualMachineV2.

Module HostedSystemV2.
Section Fields.
Context `{P : Platform}.
Record t := { SchemaVersion_ : SchemaVersion; Container : ContainerV2.t }.
End Fields.
End HostedSystemV2.

Module ComputeSystemV2.
Section Fields.
Context `{P : Platform}.
Record t := {
  Owner : string;
  SchemaVersion_ : SchemaVersion;
  ShouldTerminateOnLastHandleClosed : bool;
  VirtualMachine : option VirtualMachineV2.t;
  Container : option ContainerV2.t;
  HostingSystemId : string;
  HostedSystem : option HostedSystemV2.t }.
End Fields.
End ComputeSystemV2.

Module CreateOptions.
Section Fields.
Context `{P : Platform}.
Record t := {
  Id : string;
  Owner : string;
  SchemaVersion_ : SchemaVersion;
  Spec : option specs.Spec.t;
  HostingSystem : Container;
  MountedLayers : option ContainersResourcesStorageV2.t }.
End Fields.
End CreateOptions.

(** What the three functions use and this file does not define: the
    number of processors, [os.Stat] (the error it returns for a path) and
    [os.IsNotExist], [regexp.MatchString], [strings.ToLower], the build
    number of the host, [SchemaV20()], [json.Marshal] on the two documents,
    and [createContainer], which returns the new utility VM or an error. *)
Class Host `{P : Platform} := {
  numCPU : Z;
  os_Stat : string → option string;
  os_IsNotExist : string → bool;
  regexp_MatchString : string → string → bool * option string;
  strings_ToLower : string → string;
  GetOSVersion_Build : Z;
  schemaV20 : SchemaVersion;
  json_Marshal_ContainerConfig : ContainerConfig.t → string * option string;
  json_Marshal_ComputeSystemV2 : ComputeSystemV2.t → string * option string;
  createContainer : string → string → SchemaVersion → container + string }.

Section Documents.
Context `{P : Platform} `{H : !Host}.

(** ** UVMFolderFromLayerFolders *)

(** The loop of lines 21-30: [inl] is [uvmFolder] when the loop is left,
    [inr] the error returned from inside it. *)
Fixpoint UVMFolder_search (layerFolders : list string) : string + string :=
  match layerFolders with
  | [] => inl ""
  | layerFolder :: rest =>
      match os_Stat (filepath_Join layerFolder "UtilityVM") with
      | None => inl layerFolder
      | Some err =>
          if os_IsNotExist err then UVMFolder_search rest else inr err
      end
  end.

Definition UVMFolderFromLayerFolders (layerFolders : list string)
  : string * option string :=
  match UVMFolder_search layerFolders with
  | inr err => ("", Some err)
  | inl uvmFolder =>
      if String.eqb uvmFolder ""
      then ("", Some "utility VM folder could not be found in layers")
      else (uvmFolder, None)
  end.

(** ** createWCOWv2UVM *)

(** [Resources.CPU], [Resources.Memory] and [Resources.Storage], nil when
    [Resources] is. *)
Definition Resources_CPU (windows : specs.Windows.t)
  : option specs.WindowsCPUResources.t :=
  resources ← specs.Windows.Resources windows; specs.WindowsResources.CPU resources.

Definition Resources_Memory (windows : specs.Windows.t)
  : option specs.WindowsMemoryResources.t :=
  resources ← specs.Windows.Resources windows; specs.WindowsResources.Memory resources.

Definition Resources_Storage (windows : specs.Windows.t)
  : option specs.WindowsStorageResources.t :=
  resources ← specs.Windows.Resources windows; specs.WindowsResources.Storage resources.

Definition iocis : string := "invalid OCI spec:".

(** Lines 42-68: the first check that fails gives the error. *)
Definition hosting_system_spec_error (spec : specs.Spec.t) (windows : specs.Windows.t)
  : option string :=
  if negb (length (specs.Windows.LayerFolders windows) =? 1)%nat then
    Some (iocis +:+ " Windows.LayerFolders must have length 1 for a hosting system, pointing to a folder containing sandbox.vhdx")
  else if (0 <? String.length (specs.Spec.Hostname spec))%nat then
    Some (iocis +:+ " Hostname cannot be set for a hosting system")
  else if isset (Resources_CPU windows ≫= specs.WindowsCPUResources.Shares) then
    Some (iocis +:+ " Windows.Resources.CPU.Shares must not be set for a hosting system")
  else if isset (Resources_CPU windows ≫= specs.WindowsCPUResources.Maximum) then
    Some (iocis +:+ " Windows.Resources.CPU.Maximum must not be set for a hosting system")
  else if isset (specs.Spec.Root spec) then
    Some (iocis +:+ " Root must not be set for a hosting system")
  else if isset (Resources_Storage windows) then
    Some (iocis +:+ " Windows.Resources.Storage must not be set for a hosting system")
  else if match specs.Windows.CredentialSpec windows with
          | nil_value => false
          | _ => true
          end then
    Some (iocis +:+ " Windows.CredentialSpec must not be set for a hosting system")
  else if isset (specs.Windows.Network windows) then
    Some (iocis +:+ " Windows.Network must not be set for a hosting system")
  else if negb (0 =? length (specs.Spec.Mounts spec))%nat then
    Some (iocis +:+ " Mounts must not be set for a hosting system")
  else None.

(** Lines 78-90. *)
Definition uvm_memory (windows : specs.Windows.t) : Z :=
  match Resources_Memory windows ≫= specs.WindowsMemoryResources.Limit with
  | Some limit => int32 (Z.quot (Z.quot limit 1024) 1024)
  | None => int32 1024
  end.

Definition uvm_processors (windows : specs.Windows.t) : Z :=
  match Resources_CPU windows ≫= specs.WindowsCPUResources.Count with
  | Some count => int32 count
  | None => if numCPU =? 1 then 1 else int32 2
  end.

(** The document of lines 91-127, for a sandbox file and an image path. *)
Definition uvm_document (createOptions : CreateOptions.t) (windows : specs.Windows.t)
    (sandbox utilityVMPath : string) : ComputeSystemV2.t :=
  let attachments : gmap string VirtualMachinesResourcesStorageAttachmentV2.t :=
    <["0" := {| VirtualMachinesResourcesStorageAttachmentV2.Path := sandbox;
                VirtualMachinesResourcesStorageAttachmentV2.Type_ := "VirtualDisk" |}]> ∅ in
  let scsi : gmap string VirtualMachinesResourcesStorageScsiV2.t :=
    <["0" := {| VirtualMachinesResourcesStorageScsiV2.Attachments := attachments |}]> ∅ in
  {| ComputeSystemV2.Owner := CreateOptions.Owner createOptions;
     ComputeSystemV2.SchemaVersion_ := CreateOptions.SchemaVersion_ createOptions;
     ComputeSystemV2.ShouldTerminateOnLastHandleClosed := false;
     ComputeSystemV2.VirtualMachine := Some
       {| VirtualMachineV2.Chipset_UEFI_BootThis :=
            {| VirtualMachinesResourcesUefiBootEntryV2.DevicePath :=
                 "\EFI\Microsoft\Boot\bootmgfw.efi";
               VirtualMachinesResourcesUefiBootEntryV2.DiskNumber := 0;
               VirtualMachinesResourcesUefiBootEntryV2.UefiDevice := "VMBFS" |};
          VirtualMachineV2.ComputeTopology_Memory :=
            {| VirtualMachinesResourcesComputeMemoryV2.Backing := "Virtual";
               VirtualMachinesResourcesComputeMemoryV2.Startup := uvm_memory windows;
               VirtualMachinesResourcesComputeMemoryV2.DirectFileMappingMB := 1024 |};
          VirtualMachineV2.ComputeTopology_Processor :=
            {| VirtualMachinesResourcesComputeProcessorV2.Count :=
                 uvm_processors windows |};
          VirtualMachineV2.Devices :=
            {| VirtualMachinesDevicesV2.SCSI := scsi;
               VirtualMachinesDevicesV2.VirtualSMBShares :=
                 [{| VirtualMachinesResourcesStorageVSmbShareV2.Flags := layer_share_flags;
                     VirtualMachinesResourcesStorageVSmbShareV2.Name := "os";
                     VirtualMachinesResourcesStorageVSmbShareV2.Path := utilityVMPath |}];
               VirtualMachinesDevicesV2.GuestInterface_ConnectToBridge := true |} |};
     ComputeSystemV2.Container := None;
     ComputeSystemV2.HostingSystemId := "";
     ComputeSystemV2.HostedSystem := None |}.

(** The utility VM that [createContainer] returns becomes the utility VM of
    the state; the interface value returned designates it. *)
Definition createWCOWv2UVM (createOptions : CreateOptions.t)
  : M (Container * option string) :=
  match CreateOptions.Spec createOptions with
  | None => panic
  | Some spec =>
      match specs.Spec.Windows spec with
      | None => panic
      | Some windows =>
          match hosting_system_spec_error spec windows with
          | Some e => mret (nil_Container, Some e)
          | None =>
              match specs.Windows.LayerFolders windows !! 0%nat with
              | None => panic
              | Some folder =>
                  let sandbox := filepath_Join folder "sandbox.vhdx" in
                  match specs.Windows.HyperV windows with
                  | None => panic
                  | Some hyperV =>
                      let uvm :=
                        uvm_document createOptions windows sandbox
                          (specs.WindowsHyperV.UtilityVMPath hyperV) in
                      let '(uvmb, err) := json_Marshal_ComputeSystemV2 uvm in
                      match err with
                      | Some e => mret (nil_Container, Some e)
                      | None =>
                          match createContainer (CreateOptions.Id createOptions)
                                  uvmb schemaV20 with
                          | inr e =>
                              logf DebugLevel ("failed to create UVM:  " +:+ e);;
                              mret (nil_Container, Some e)
                          | inl created =>
                              put_container created;;
                              store_hostPath 0 0 sandbox;;
                              mret (uvm_Container, None)
                          end
                      end
                  end
              end
          end
      end
  end.

(** ** CreateHCSContainerDocument *)

(** Run [k] on the value of [m], or return the error of [m]. *)
Notation "x ←? m ; k" :=
  (mbind (λ r, match r with inl x => k | inr e => mret (inr e) end) m)
  (at level 20, m at level 100, k at level 200, only parsing, right associativity).
Notation "' x ←? m ; k" :=
  (mbind (λ r, match r with inl x => k | inr e => mret (inr e) end) m)
  (at level 20, x pattern, m at level 100, k at level 200, only parsing,
   right associativity).

Definition volumeGUIDRegex : string :=
  "^\\\\\?\\(Volume)\{{0,1}[0-9a-fA-F]{8}\-[0-9a-fA-F]{4}\-[0-9a-fA-F]{4}\-[0-9a-fA-F]{4}\-[0-9a-fA-F]{12}(\}){0,1}\}\\$".

Definition pipePrefix : string := "\\.\pipe\".

Definition strings_Join (elems : list string) (sep : string) : string :=
  String.concat sep elems.

(** Lines 247-254: the storage object of the v2 container.  For a hosted
    container it is the caller's [MountedLayers] object itself. *)
Definition document_storage (createOptions : CreateOptions.t)
  : ContainersResourcesStorageV2.t + string :=
  if is_nil (CreateOptions.HostingSystem createOptions) then
    inl {| ContainersResourcesStorageV2.Layers := [];
           ContainersResourcesStorageV2.Path := "";
           ContainersResourcesStorageV2.StorageQoS := None |}
  else
    match CreateOptions.MountedLayers createOptions with
    | None => inr "v2 schema call for a hosted container must supply mounted layers"
    | Some mountedLayers => inl mountedLayers
    end.

(** Lines 269-278: the processor count, cut down to the processors of the
    host.  The warning goes to [createOptions.Logger]; it is recorded in
    [logs] like the warnings of logrus. *)
Definition document_cpu_count (cpu : option specs.WindowsCPUResources.t) : M Z :=
  match cpu ≫= specs.WindowsCPUResources.Count with
  | Some cpuCount =>
      let hostCPUCount := uint64 numCPU in
      if hostCPUCount <? cpuCount then
        logf WarnLevel ("Changing requested CPUCount of " +:+ pretty cpuCount +:+
                        " to current number of processors, " +:+ pretty hostCPUCount);;
        mret (uint32 hostCPUCount)
      else mret (uint32 cpuCount)
  | None => mret 0
  end.

(** Lines 353-366: the root of a container that is not a Hyper-V one;
    [inl] is [(v1.VolumePath, v2Container.Storage.Path)]. *)
Definition document_root (spec : specs.Spec.t) : M (string * string + string) :=
  match specs.Spec.Root spec with
  | None => mret (inr "invalid container spec - Root must be set")
  | Some root =>
      let path := specs.Root.Path root in
      match (regexp_MatchString volumeGUIDRegex path).2 with
      | Some _ =>
          mret (inr ("invalid container spec - Root.Path '" +:+ path +:+
                     "' must be a volume GUID path in the format '\\?\Volume{GUID}\'"))
      | None =>
          match last_char path with
          | None => panic
          | Some c =>
              let rootPath := if Ascii.eqb c backslash then path else path +:+ "\" in
              mret (inl (drop_last_char rootPath, rootPath))
          end
      end
  end.

(** Lines 367-382: a Hyper-V container; [inl] is
    [(v1.HvPartition, v1.HvRuntime)]. *)
Definition document_hyperv (createOptions : CreateOptions.t) (spec : specs.Spec.t)
    (windows : specs.Windows.t) (hyperV : specs.WindowsHyperV.t)
  : bool * option HvRuntime.t + string :=
  if match specs.Spec.Root spec with
     | Some root => negb (String.eqb (specs.Root.Path root) "")
     | None => false
     end
  then inr "invalid container spec - Root.Path must be omitted for a Hyper-V container"
  else if IsV10 (CreateOptions.SchemaVersion_ createOptions) then
    if negb (String.eqb (specs.WindowsHyperV.UtilityVMPath hyperV) "") then
      inl (true, Some {| HvRuntime.ImagePath := specs.WindowsHyperV.UtilityVMPath hyperV |})
    else
      match UVMFolderFromLayerFolders (specs.Windows.LayerFolders windows) with
      | (_, Some e) => inr e
      | (uvmImagePath, None) => inl (true, Some {| HvRuntime.ImagePath := uvmImagePath |})
      end
  else inl (false, None).

(** Lines 390-399: the loop over the read-only layers. *)
Fixpoint document_layers (layers : list string) (v1Layers : list Layer.t)
    (v2Layers : list ContainersResourcesLayerV2)
  : list Layer.t * list ContainersResourcesLayerV2 + string :=
  match layers with
  | [] => inl (v1Layers, v2Layers)
  | layerPath :: rest =>
      let '(_, filename) := filepath_Split layerPath in
      let '(g, err) := NameToGuid filename in
      match err with
      | Some e => inr e
      | None =>
          document_layers rest
            (v1Layers ++ [{| Layer.ID := g; Layer.Path := layerPath |}])
            (v2Layers ++ [{| Id := g; Path := layerPath |}])
      end
  end.

(** Lines 420-424: [ReadOnly] after the loop over the options. *)
Definition mount_ReadOnly (options : list string) : bool :=
  foldl (λ readOnly o, if String.eqb (strings_ToLower o) "ro" then true else readOnly)
    false options.

Record mapped := {
  mdsv1 : list MappedDir.t;
  mpsv1 : list MappedPipe.t;
  mdsv2 : list ContainersResourcesMappedDirectoryV2.t;
  mpsv2 : list ContainersResourcesMappedPipeV2.t }.

(** Lines 408-428: the loop over the mounts. *)
Fixpoint document_mounts (mounts : list specs.Mount.t) (acc : mapped) : mapped + string :=
  match mounts with
  | [] => inl acc
  | mount :: rest =>
      if negb (String.eqb (specs.Mount.Type_ mount) "") then
        inr ("invalid container spec - Mount.Type '" +:+ specs.Mount.Type_ mount +:+
             "' must not be set")
      else if String.prefix pipePrefix (specs.Mount.Destination mount) then
        let name := string_drop (String.length pipePrefix) (specs.Mount.Destination mount) in
        document_mounts rest
          {| mdsv1 := mdsv1 acc;
             mpsv1 := mpsv1 acc ++
               [{| MappedPipe.HostPath := specs.Mount.Source mount;
                   MappedPipe.ContainerPipeName := name |}];
             mdsv2 := mdsv2 acc;
             mpsv2 := mpsv2 acc ++
               [{| ContainersResourcesMappedPipeV2.HostPath := specs.Mount.Source mount;
                   ContainersResourcesMappedPipeV2.ContainerPipeName := name |}] |}
      else
        let readOnly := mount_ReadOnly (specs.Mount.Options mount) in
        document_mounts rest
          {| mdsv1 := mdsv1 acc ++
               [{| MappedDir.HostPath := specs.Mount.Source mount;
                   MappedDir.ContainerPath := specs.Mount.Destination mount;
                   MappedDir.ReadOnly := readOnly |}];
             mpsv1 := mpsv1 acc;
             mdsv2 := mdsv2 acc ++
               [{| ContainersResourcesMappedDirectoryV2.HostPath := specs.Mount.Source mount;
                   ContainersResourcesMappedDirectoryV2.ContainerPath :=
                     specs.Mount.Destination mount;
                   ContainersResourcesMappedDirectoryV2.ReadOnly := readOnly |}];
             mpsv2 := mpsv2 acc |}
  end.

(** Lines 218-441: the two documents, [v1] and [v2], as they are when the
    function reaches [json.Marshal]; [inr] is the error it returns before. *)
Definition HCSContainerDocuments (createOptions : CreateOptions.t)
  : M (ContainerConfig.t * ComputeSystemV2.t + string) :=
  match CreateOptions.Spec createOptions with
  | None => mret (inr "cannot create HCS container document - OCI spec is missing")
  | Some spec =>
  match specs.Spec.Windows spec with
  | None =>
      mret (inr "cannot create HCS container document - OCI spec Windows section is missing ")
  | Some windows =>
      let hostingSystem := CreateOptions.HostingSystem createOptions in
      storage ←? mret (document_storage createOptions);
      (* Hostname *)
      let hostName := specs.Spec.Hostname spec in
      let guestOS :=
        if negb (String.eqb hostName "")
        then Some {| GuestOsV2.HostName := hostName |} else None in
      (* Resources.CPU *)
      let cpu := Resources_CPU windows in
      let shares := cpu ≫= specs.WindowsCPUResources.Shares in
      let maximum := cpu ≫= specs.WindowsCPUResources.Maximum in
      processorCount ← document_cpu_count cpu;
      let processorWeight := match shares with Some s => uint64 s | None => 0 end in
      let processorMaximum := match maximum with Some m => int64 m | None => 0 end in
      let processor :=
        if isset (cpu ≫= specs.WindowsCPUResources.Count) || isset shares || isset maximum
        then Some {| ContainersResourcesProcessorV2.Count := processorCount;
                     ContainersResourcesProcessorV2.Weight := processorWeight;
                     ContainersResourcesProcessorV2.Maximum :=
                       match maximum with
                       | Some _ => uint64 processorMaximum
                       | None => 0
                       end |}
        else None in
      (* Resources.Memory *)
      let limit := Resources_Memory windows ≫= specs.WindowsMemoryResources.Limit in
      let memoryMaximumInMB :=
        match limit with
        | Some l => Z.quot (Z.quot (int64 l) 1024) 1024
        | None => 0
        end in
      let memory :=
        match limit with
        | Some _ =>
            Some {| ContainersResourcesMemoryV2.Maximum := uint64 memoryMaximumInMB |}
        | None => None
        end in
      (* Resources.Storage *)
      let bps := Resources_Storage windows ≫= specs.WindowsStorageResources.Bps in
      let iops := Resources_Storage windows ≫= specs.WindowsStorageResources.Iops in
      let storageQoS :=
        if isset bps || isset iops
        then Some {| ContainersResourcesStorageQoSV2.IOPSMaximum :=
                       match iops with Some i => i | None => 0 end;
                     ContainersResourcesStorageQoSV2.BandwidthMaximum :=
                       match bps with Some b => b | None => 0 end |}
        else ContainersResourcesStorageV2.StorageQoS storage in
      (* Network *)
      let network := specs.Windows.Network windows in
      let endpointList :=
        match network with Some n => specs.WindowsNetwork.EndpointList n | None => [] end in
      let allowUnqualifiedDNSQuery :=
        match network with
        | Some n => specs.WindowsNetwork.AllowUnqualifiedDNSQuery n
        | None => false
        end in
      let dnsSearchList :=
        match network ≫= specs.WindowsNetwork.DNSSearchList with
        | Some l => strings_Join l ","
        | None => ""
        end in
      let networkSharedContainerName :=
        match network with
        | Some n => specs.WindowsNetwork.NetworkSharedContainerName n
        | None => ""
        end in
      let networking :=
        match network with
        | Some _ =>
            Some {| ContainersResourcesNetworkingV2.NetworkAdapters := endpointList;
                    ContainersResourcesNetworkingV2.AllowUnqualifiedDnsQuery :=
                      allowUnqualifiedDNSQuery;
                    ContainersResourcesNetworkingV2.DNSSearchList := dnsSearchList;
                    ContainersResourcesNetworkingV2.NetworkSharedContainerName :=
                      networkSharedContainerName |}
        | None => None
        end in
      (* CredentialSpec *)
      let credentials :=
        match specs.Windows.CredentialSpec windows with
        | string_value cs => cs
        | _ => ""
        end in
      (* Not a v2 Xenon: the sandbox folder, and the root or the image *)
      '(layerFolderPath, volumePath, storagePath, hvPartition, hvRuntime) ←?
        (if is_nil hostingSystem then
           layerFolderPath ← last_layer (specs.Windows.LayerFolders windows);
           match specs.Windows.HyperV windows with
           | None =>
               '(volumePath, rootPath) ←? document_root spec;
               mret (inl (layerFolderPath, volumePath, rootPath, false, None))
           | Some hyperV =>
               '(hvPartition, hvRuntime) ←?
                 mret (document_hyperv createOptions spec windows hyperV);
               mret (inl (layerFolderPath, "",
                          ContainersResourcesStorageV2.Path storage,
                          hvPartition, hvRuntime))
           end
         else
           mret (inl ("", "", ContainersResourcesStorageV2.Path storage, false, None)));
      (* Root.Readonly *)
      if match specs.Spec.Root spec with
         | Some root => specs.Root.Readonly root
         | None => false
         end
      then mret (inr "invalid container spec - readonly is not supported")
      else
      (* The read-only layers *)
      '(v1Layers, v2Layers) ←?
        (if is_nil hostingSystem then
           parents ← parent_layers (specs.Windows.LayerFolders windows);
           mret (document_layers parents [] (ContainersResourcesStorageV2.Layers storage))
         else mret (inl ([], ContainersResourcesStorageV2.Layers storage)));
      (* The mounts *)
      maps ←? mret (document_mounts (specs.Spec.Mounts spec)
                      {| mdsv1 := []; mpsv1 := []; mdsv2 := []; mpsv2 := [] |});
      if (0 <? length (mpsv1 maps))%nat && (GetOSVersion_Build <? 16299)
      then mret (inr "named pipe mounts are not supported on this version of Windows")
      else
      let v1 :=
        {| ContainerConfig.SystemType := "Container";
           ContainerConfig.Name := CreateOptions.Id createOptions;
           ContainerConfig.Owner := CreateOptions.Owner createOptions;
           ContainerConfig.HvPartition := hvPartition;
           ContainerConfig.IgnoreFlushesDuringBoot :=
             specs.Windows.IgnoreFlushesDuringBoot windows;
           ContainerConfig.HostName := hostName;
           ContainerConfig.ProcessorCount := processorCount;
           ContainerConfig.ProcessorWeight := processorWeight;
           ContainerConfig.ProcessorMaximum := processorMaximum;
           ContainerConfig.MemoryMaximumInMB := memoryMaximumInMB;
           ContainerConfig.StorageBandwidthMaximum :=
             match bps with Some b => b | None => 0 end;
           ContainerConfig.StorageIOPSMaximum :=
             match iops with Some i => i | None => 0 end;
           ContainerConfig.EndpointList := endpointList;
           ContainerConfig.AllowUnqualifiedDNSQuery := allowUnqualifiedDNSQuery;
           ContainerConfig.DNSSearchList := dnsSearchList;
           ContainerConfig.NetworkSharedContainerName := networkSharedContainerName;
           ContainerConfig.Credentials := credentials;
           ContainerConfig.LayerFolderPath := layerFolderPath;
           ContainerConfig.VolumePath := volumePath;
           ContainerConfig.HvRuntime := hvRuntime;
           ContainerConfig.Layers := v1Layers;
           ContainerConfig.MappedDirectories := mdsv1 maps;
           ContainerConfig.MappedPipes := mpsv1 maps |} in
      let v2Container :=
        {| ContainerV2.Storage :=
             {| ContainersResourcesStorageV2.Layers := v2Layers;
                ContainersResourcesStorageV2.Path := storagePath;
                ContainersResourcesStorageV2.StorageQoS := storageQoS |};
           ContainerV2.GuestOS := guestOS;
           ContainerV2.Processor := processor;
           ContainerV2.Memory := memory;
           ContainerV2.Networking := networking;
           ContainerV2.MappedDirectories := mdsv2 maps;
           ContainerV2.MappedPipes := mpsv2 maps |} in
      (* The v2 container: in the schema for an Argon, hosted for a Xenon *)
      if is_nil hostingSystem then
        mret (inl (v1,
                   {| ComputeSystemV2.Owner := CreateOptions.Owner createOptions;
                      ComputeSystemV2.SchemaVersion_ := schemaV20;
                      ComputeSystemV2.ShouldTerminateOnLastHandleClosed := true;
                      ComputeSystemV2.VirtualMachine := None;
                      ComputeSystemV2.Container := Some v2Container;
                      ComputeSystemV2.HostingSystemId := "";
                      ComputeSystemV2.HostedSystem := None |}))
      else
        deref hostingSystem;;
        c ← get_container;
        mret (inl (v1,
                   {| ComputeSystemV2.Owner := CreateOptions.Owner createOptions;
                      ComputeSystemV2.SchemaVersion_ := schemaV20;
                      ComputeSystemV2.ShouldTerminateOnLastHandleClosed := true;
                      ComputeSystemV2.VirtualMachine := None;
                      ComputeSystemV2.Container := None;
                      ComputeSystemV2.HostingSystemId := container_id c;
                      ComputeSystemV2.HostedSystem := Some
                        {| HostedSystemV2.SchemaVersion_ := schemaV20;
                           HostedSystemV2.Container := v2Container |} |}))
  end
  end.

(** Lines 443-457. *)
Definition CreateHCSContainerDocument (createOptions : CreateOptions.t)
  : M (string * option string) :=
  r ← HCSContainerDocuments createOptions;
  match r with
  | inr e => mret ("", Some e)
  | inl (v1, v2) =>
      if IsV10 (CreateOptions.SchemaVersion_ createOptions) then
        let '(v1b, err) := json_Marshal_ContainerConfig v1 in
        match err with
        | Some e => mret ("", Some e)
        | None => mret (v1b, None)
        end
      else
        let '(v2b, err) := json_Marshal_ComputeSystemV2 v2 in
        match err with
        | Some e => mret ("", Some e)
        | None => mret (v2b, None)
        end
  end.

End Documents.
(** ** Vocabulary for the documents *)

Section DocumentVocabulary.
Context `{P : Platform} `{H : !Host}.

(** [os.Stat] finds no UtilityVM folder in a layer folder, and says so
    with an error that [os.IsNotExist] recognises. *)
Definition has_no_image (layerFolder : string) : Prop :=
  ∃ e, os_Stat (filepath_Join layerFolder "UtilityVM") = Some e ∧ os_IsNotExist e = true.

Definition has_image (layerFolder : string) : Prop :=
  os_Stat (filepath_Join layerFolder "UtilityVM") = None.

Definition not_found : string * option string :=
  ("", Some "utility VM folder could not be found in layers").

End DocumentVocabulary.

Section HostingSystemVocabulary.
Context `{P : Platform} `{H : !Host}.

(** The specification of a hosting system as lines 42-68 want it: the one
    layer folder [folder] and nothing else. *)
Definition bare_hosting_spec (spec : specs.Spec.t) (windows : specs.Windows.t)
    (folder : string) : Prop :=
  specs.Windows.LayerFolders windows = [folder] ∧
  specs.Spec.Hostname spec = "" ∧
  Resources_CPU windows ≫= specs.WindowsCPUResources.Shares = None ∧
  Resources_CPU windows ≫= specs.WindowsCPUResources.Maximum = None ∧
  specs.Spec.Root spec = None ∧
  Resources_Storage windows = None ∧
  specs.Windows.CredentialSpec windows = nil_value ∧
  specs.Windows.Network windows = None ∧
  specs.Spec.Mounts spec = [].

(** The attachment "0" of the SCSI controller "0" of a document. *)
Definition boot_attachment (document : ComputeSystemV2.t)
  : option VirtualMachinesResourcesStorageAttachmentV2.t :=
  vm ← ComputeSystemV2.VirtualMachine document;
  scsi ← VirtualMachinesDevicesV2.SCSI (VirtualMachineV2.Devices vm) !! "0";
  VirtualMachinesResourcesStorageScsiV2.Attachments scsi !! "0".

End HostingSystemVocabulary.

Section ContainerDocumentVocabulary.
Context `{P : Platform} `{H : !Host}.

(** The container of a v2 document: in the schema itself, or hosted. *)
Definition v2_container (v2 : ComputeSystemV2.t) : option ContainerV2.t :=
  match ComputeSystemV2.Container v2 with
  | Some c => Some c
  | None => HostedSystemV2.Container <$> ComputeSystemV2.HostedSystem v2
  end.

Definition is_pipe (mount : specs.Mount.t) : bool :=
  String.prefix pipePrefix (specs.Mount.Destination mount).

(** A mapped directory, a mapped pipe and a layer of the v1 document, in
    the v2 schema. *)
Definition MappedDir_v2 (d : MappedDir.t) : ContainersResourcesMappedDirectoryV2.t :=
  {| ContainersResourcesMappedDirectoryV2.HostPath := MappedDir.HostPath d;
     ContainersResourcesMappedDirectoryV2.ContainerPath := MappedDir.ContainerPath d;
     ContainersResourcesMappedDirectoryV2.ReadOnly := MappedDir.ReadOnly d |}.

Definition MappedPipe_v2 (p : MappedPipe.t) : ContainersResourcesMappedPipeV2.t :=
  {| ContainersResourcesMappedPipeV2.HostPath := MappedPipe.HostPath p;
     ContainersResourcesMappedPipeV2.ContainerPipeName := MappedPipe.ContainerPipeName p |}.

Definition Layer_v2 (l : Layer.t) : ContainersResourcesLayerV2 :=
  {| Id := Layer.ID l; Path := Layer.Path l |}.

(** The warning of lines 272-275. *)
Definition cpu_count_warning (cpuCount : Z) : Level * string :=
  (WarnLevel, "Changing requested CPUCount of " +:+ pretty cpuCount +:+
              " to current number of processors, " +:+ pretty (uint64 numCPU)).

End ContainerDocumentVocabulary.

Section ContainerKinds.
Context `{P : Platform} `{H : !Host}.

(** No mount has a type, and named pipes come with a build that has them. *)
Definition mounts_allowed (spec : specs.Spec.t) : Prop :=
  Forall (λ m, specs.Mount.Type_ m = "") (specs.Spec.Mounts spec) ∧
  (Forall (λ m, is_pipe m = false) (specs.Spec.Mounts spec) ∨ 16299 ≤ GetOSVersion_Build).

(** The root, when there is one, is not read-only. *)
Definition root_writable (spec : specs.Spec.t) : Prop :=
  ∀ root, specs.Spec.Root spec = Some root → specs.Root.Readonly root = false.

(** A container that is not hosted and has no HyperV section, with its
    root and its sandbox folder. *)
Definition process_isolated (createOptions : CreateOptions.t) (spec : specs.Spec.t)
    (windows : specs.Windows.t) (root : specs.Root.t) (scratch : string) : Prop :=
  CreateOptions.Spec createOptions = Some spec ∧
  specs.Spec.Windows spec = Some windows ∧
  CreateOptions.HostingSystem createOptions = nil_Container ∧
  specs.Windows.HyperV windows = None ∧
  specs.Spec.Root spec = Some root ∧
  last (specs.Windows.LayerFolders windows) = Some scratch.

(** A container hosted in the utility VM of the state, with the layers
    mounted for it. *)
Definition hosted (createOptions : CreateOptions.t) (spec : specs.Spec.t)
    (windows : specs.Windows.t) (mountedLayers : ContainersResourcesStorageV2.t) : Prop :=
  CreateOptions.Spec createOptions = Some spec ∧
  specs.Spec.Windows spec = Some windows ∧
  CreateOptions.HostingSystem createOptions = uvm_Container ∧
  CreateOptions.MountedLayers createOptions = Some mountedLayers.

(** The read-only layers of a specification: all folders but the last. *)
Definition read_only_layers (windows : specs.Windows.t) : list string :=
  take (length (specs.Windows.LayerFolders windows) - 1) (specs.Windows.LayerFolders windows).

End ContainerKinds.
(** * A concrete host for the examples *)

Definition lower_ascii (a : Ascii.ascii) : Ascii.ascii :=
  let n := Ascii.nat_of_ascii a in
  if (65 <=? n)%nat && (n <=? 90)%nat then Ascii.ascii_of_nat (n + 32) else a.

Fixpoint lower (s : string) : string :=
  match s with
  | EmptyString => EmptyString
  | String a s' => String (lower_ascii a) (lower s')
  end.

(** The base layer is the only folder with a utility VM image. *)
Definition sample_stat (path : string) : option string :=
  if String.eqb path "C:\l\base\UtilityVM" then None else Some "file does not exist".

Definition empty_table : list (list string) := [[""; ""; ""]; [""; ""; ""]].

Definition new_container (id : string) : container :=
  {| container_id := id;
     vsmbShares_locked := false;
     vsmbShares_guids := ∅;
     scsiLocations_locked := false;
     scsiLocations_hostPath := empty_table |}.

(** A host with four processors on which no path matches the volume GUID
    pattern. *)
Definition sample_host : @Host calm :=
  {| numCPU := 4;
     os_Stat := sample_stat;
     os_IsNotExist := λ e, String.eqb e "file does not exist";
     regexp_MatchString := λ _ _, (false, None);
     strings_ToLower := lower;
     GetOSVersion_Build := 17134;
     schemaV20 := (SchemaV20 : @SchemaVersion calm);
     json_Marshal_ContainerConfig := λ v1, ("v1 " +:+ ContainerConfig.Name v1, None);
     json_Marshal_ComputeSystemV2 := λ v2, ("v2 " +:+ ComputeSystemV2.Owner v2, None);
     createContainer := λ id _ _, inl (new_container id) |}.

Definition windows_of (layerFolders : list string)
    (resources : option specs.WindowsResources.t)
    (hyperV : option specs.WindowsHyperV.t) : specs.Windows.t :=
  {| specs.Windows.LayerFolders := layerFolders;
     specs.Windows.Resources := resources;
     specs.Windows.CredentialSpec := nil_value;
     specs.Windows.IgnoreFlushesDuringBoot := false;
     specs.Windows.HyperV := hyperV;
     specs.Windows.Network := None |}.

Definition options_of (id : string) (sv : Z * Z) (spec : specs.Spec.t)
    (hostingSystem : Container)
    (mountedLayers : option ContainersResourcesStorageV2.t) : @CreateOptions.t calm :=
  {| CreateOptions.Id := id;
     CreateOptions.Owner := "docker";
     CreateOptions.SchemaVersion_ := (sv : @SchemaVersion calm);
     CreateOptions.Spec := Some spec;
     CreateOptions.HostingSystem := hostingSystem;
     CreateOptions.MountedLayers := mountedLayers |}.

(** The specification of a utility VM, and one that also names a host. *)
Definition uvm_windows : specs.Windows.t :=
  windows_of ["C:\uvm"] None
    (Some {| specs.WindowsHyperV.UtilityVMPath := "C:\l\base\UtilityVM" |}).

Definition uvm_spec (hostname : string) : specs.Spec.t :=
  {| specs.Spec.Hostname := hostname;
     specs.Spec.Root := None;
     specs.Spec.Windows := Some uvm_windows;
     specs.Spec.Mounts := [] |}.

(** A container of three layers that asks for eight processors and a
    gigabyte of memory, with a read-only directory and a named pipe. *)
Definition eight_processors : specs.WindowsResources.t :=
  {| specs.WindowsResources.Memory :=
       Some {| specs.WindowsMemoryResources.Limit := Some 1073741824 |};
     specs.WindowsResources.CPU :=
       Some {| specs.WindowsCPUResources.Count := Some 8;
               specs.WindowsCPUResources.Shares := None;
               specs.WindowsCPUResources.Maximum := None |};
     specs.WindowsResources.Storage := None |}.

Definition data_mount : specs.Mount.t :=
  {| specs.Mount.Destination := "C:\data";
     specs.Mount.Type_ := "";
     specs.Mount.Source := "D:\data";
     specs.Mount.Options := ["RO"] |}.

Definition pipe_mount : specs.Mount.t :=
  {| specs.Mount.Destination := "\\.\pipe\docker";
     specs.Mount.Type_ := "";
     specs.Mount.Source := "\\.\pipe\host";
     specs.Mount.Options := [] |}.

Definition volume_root : specs.Root.t :=
  {| specs.Root.Path := "\\?\Volume{1}"; specs.Root.Readonly := false |}.

Definition container_windows : specs.Windows.t :=
  windows_of three_layers (Some eight_processors) None.

Definition container_spec (windows : specs.Windows.t) (root : option specs.Root.t)
  : specs.Spec.t :=
  {| specs.Spec.Hostname := "web";
     specs.Spec.Root := root;
     specs.Spec.Windows := Some windows;
     specs.Spec.Mounts := [data_mount; pipe_mount] |}.

Definition argon_options : @CreateOptions.t calm :=
  options_of "c1" SchemaV10 (container_spec container_windows (Some volume_root))
    nil_Container None.

Definition mounted : ContainersResourcesStorageV2.t :=
  {| ContainersResourcesStorageV2.Layers := [{| Id := "guid-base"; Path := "C:\l\base" |}];
     ContainersResourcesStorageV2.Path := "C:\guid-scratch";
     ContainersResourcesStorageV2.StorageQoS := None |}.

Definition xenon_options : @CreateOptions.t calm :=
  options_of "c2" SchemaV20 (container_spec (windows_of [] None None) None)
    uvm_Container (Some mounted).

Definition hyperv_windows : specs.Windows.t :=
  windows_of three_layers None (Some {| specs.WindowsHyperV.UtilityVMPath := "" |}).

Definition hyperv_options : @CreateOptions.t calm :=
  options_of "c3" SchemaV10 (container_spec hyperv_windows None) nil_Container None.
(** * The trace of the share loop of [Unmount] *)

(** What the loop over the read-only layers (lines 716-750) sends, logs and
    accumulates, layer by layer, from the share map [g] it finds and the
    calls [h] made so far.  Which requests are sent depends on the map only,
    not on how the host answers. *)
Section ShareLoopTrace.
Context `{P : Platform}.

Definition layer_request (g : gmap string Z) (layerPath : string) : list Call :=
  match layer_guid layerPath with
  | (id, None) =>
      match g !! id with
      | Some n =>
          if 0 <? wrap_int (n - 1) then [] else [CallModify (vsmb_remove_request id)]
      | None => []
      end
  | (_, Some _) => []
  end.

(** The error message of the iteration, if its request is refused. *)
Definition layer_failure (h : list Call) (g : gmap string Z) (layerPath : string)
  : list string :=
  match layer_request g layerPath with
  | CallModify r :: _ =>
      match respond h (CallModify r) with
      | Failed x => [remove_failed_error layerPath r x]
      | Done _ => []
      end
  | _ => []
  end.

Definition layer_entries (h : list Call) (g : gmap string Z) (layerPath : string)
  : list (Level * string) :=
  match layer_guid layerPath with
  | (id, None) =>
      match g !! id with
      | Some _ => (λ e, (DebugLevel, e)) <$> layer_failure h g layerPath
      | None => [not_mounted_warning layerPath]
      end
  | (_, Some e) =>
      [(WarnLevel, "may have leaked a VSMB share - failed to NameToGuid on " +:+
                   (filepath_Split layerPath).2 +:+ ": " +:+ e)]
  end.

Fixpoint unmount_requests (g : gmap string Z) (layers : list string) : list Call :=
  match layers with
  | [] => []
  | lp :: rest => layer_request g lp ++ unmount_requests (layer_unmounted g lp) rest
  end.

Fixpoint unmount_failures (h : list Call) (g : gmap string Z) (layers : list string)
  : list string :=
  match layers with
  | [] => []
  | lp :: rest =>
      layer_failure h g lp ++
      unmount_failures (h ++ layer_request g lp) (layer_unmounted g lp) rest
  end.

Fixpoint unmount_entries (h : list Call) (g : gmap string Z) (layers : list string)
  : list (Level * string) :=
  match layers with
  | [] => []
  | lp :: rest =>
      layer_entries h g lp ++
      unmount_entries (h ++ layer_request g lp) (layer_unmounted g lp) rest
  end.

End ShareLoopTrace.

(** Two layers are shared once each, and the stack to unmount names a
    folder that was never shared between them. *)
Definition two_last_references : World :=
  sample_uvm {["guid-base" := 1; "guid-ro1" := 1]} table_one_attached.

Definition refused_stack : list string :=
  ["C:\l\base"; "C:\l\nope"; "C:\l\ro1"; "C:\l\scratch"].

(** Two hosted containers that fail a check: one has a read-only root and
    asks for eight processors, the other also comes without mounted
    layers. *)
Definition readonly_root : specs.Root.t :=
  {| specs.Root.Path := ""; specs.Root.Readonly := true |}.

Definition xenon_readonly_options : @CreateOptions.t calm :=
  options_of "c4" SchemaV20
    (container_spec (windows_of [] (Some eight_processors) None) (Some readonly_root))
    uvm_Container (Some mounted).

Definition xenon_unmounted_options : @CreateOptions.t calm :=
  options_of "c5" SchemaV20
    (container_spec (windows_of [] (Some eight_processors) None) (Some readonly_root))
    uvm_Container None.

(** * Properties *)

(** ** Arithmetic of the reference counts *)

Lemma wrap_int_id (z : Z) : - 2 ^ 63 ≤ z ≤ max_int → wrap_int z = z.
Proof.
  unfold wrap_int, max_int. intros Hz.
  rewrite Z.mod_small by lia. lia.
Qed.

Lemma wrap_int_pred_succ (n : Z) :
  - 2 ^ 63 ≤ n ≤ max_int → wrap_int (wrap_int (n + 1) - 1) = n.
Proof.
  unfold wrap_int, max_int. intros Hn.
  destruct (decide (n = 2 ^ 63 - 1)) as [->|Hne].
  - reflexivity.
  - rewrite (Z.mod_small (n + 1 + 2 ^ 63)) by lia.
    replace (n + 1 + 2 ^ 63 - 2 ^ 63 - 1 + 2 ^ 63) with (n + 2 ^ 63) by lia.
    rewrite Z.mod_small by lia. lia.
Qed.

Lemma wrap_int_range (z : Z) : - 2 ^ 63 ≤ wrap_int z ≤ max_int.
Proof.
  unfold wrap_int, max_int.
  pose proof (Z.mod_pos_bound (z + 2 ^ 63) (2 ^ 64) ltac:(lia)). lia.
Qed.

Lemma wrap_int_succ_nonzero (n : Z) : 1 ≤ n ≤ max_int → wrap_int (n + 1) ≠ 0.
Proof.
  unfold max_int. intros Hn.
  destruct (decide (n = 2 ^ 63 - 1)) as [->|Hne].
  - vm_compute. discriminate.
  - rewrite wrap_int_id by (unfold max_int; lia). lia.
Qed.

(** ** The state and the monad *)

Lemma with_guids_same (c : container) : with_guids (vsmbShares_guids c) c = c.
Proof. by destruct c. Qed.

Lemma set_guids_same (w : World) : set_guids (vsmbShares_guids (uvm w)) w = w.
Proof. destruct w as [[] ? ?]; reflexivity. Qed.

Lemma set_guids_twice (g g' : gmap string Z) (w : World) :
  set_guids g' (set_guids g w) = set_guids g' w.
Proof. reflexivity. Qed.

Lemma guids_set_guids (g : gmap string Z) (w : World) :
  vsmbShares_guids (uvm (set_guids g w)) = g.
Proof. reflexivity. Qed.

Lemma container_ext (c c' : container) :
  container_id c = container_id c' →
  vsmbShares_locked c = vsmbShares_locked c' →
  vsmbShares_guids c = vsmbShares_guids c' →
  scsiLocations_locked c = scsiLocations_locked c' →
  scsiLocations_hostPath c = scsiLocations_hostPath c' →
  c = c'.
Proof. destruct c, c'; cbn; by intros -> -> -> -> ->. Qed.

Lemma history_push_call (c : Call) (w : World) :
  history (push_call c w) = history w ++ [c].
Proof. reflexivity. Qed.

Lemma history_push_calls (cs : list Call) (w : World) :
  history (push_calls cs w) = history w ++ cs.
Proof. reflexivity. Qed.

Lemma history_set_guids (g : gmap string Z) (w : World) :
  history (set_guids g w) = history w.
Proof. reflexivity. Qed.

Lemma history_set_hostPath (t : list (list string)) (w : World) :
  history (set_hostPath t w) = history w.
Proof. reflexivity. Qed.

Lemma history_set_vsmb_lock (b : bool) (w : World) :
  history (set_vsmb_lock b w) = history w.
Proof. reflexivity. Qed.

Lemma history_set_scsi_lock (b : bool) (w : World) :
  history (set_scsi_lock b w) = history w.
Proof. reflexivity. Qed.

Create Rewrite HintDb world_history.
#[global] Hint Rewrite history_push_call history_push_calls history_set_guids
  history_set_hostPath history_set_vsmb_lock history_set_scsi_lock : world_history.

Lemma bind_Ret {A B} (m : M A) (f : A → M B) (w w' : World) (a : A) :
  m w = Ret a w' → (m ≫= f) w = f a w'.
Proof. intros H. unfold mbind, M_bind. by rewrite H. Qed.

(** A body that returns is followed by the deferred call. *)
Lemma defer_Ret {A} (deferred : M unit) (body : M A) (w w' : World) (a : A) :
  body w = Ret a w' → defer deferred body w = (deferred;; mret a) w'.
Proof. intros H. unfold defer. by rewrite H. Qed.

(** Unfold the primitive operations of the monad. *)
Ltac munfold :=
  unfold get_guids, put_guids in *;
  unfold get_container, put_container, deref, call, logf, panic in *;
  unfold mbind, M_bind, mret, M_ret in *.

(** Run the first operation of a sequence with an equation for it. *)
Ltac mstep tac := erewrite bind_Ret; [| tac]; cbv beta iota.

(** ** The share registry: release *)

Section Registry.
Context `{P : Platform}.

Lemma Modify_uvm (r : ModifySettingsRequestV2) (w : World) :
  Modify uvm_Container r w =
    Ret (reply_error (respond (history w) (CallModify r))) (push_call (CallModify r) w).
Proof. reflexivity. Qed.

Lemma Modify_accepted (r : ModifySettingsRequestV2) (w : World) :
  (∃ v, respond (history w) (CallModify r) = Done v) →
  Modify uvm_Container r w = Ret None (push_call (CallModify r) w).
Proof. intros [v Hv]. rewrite Modify_uvm. by rewrite Hv. Qed.

Lemma Modify_refused (r : ModifySettingsRequestV2) (e : string) (w : World) :
  respond (history w) (CallModify r) = Failed e →
  Modify uvm_Container r w = Ret (Some e) (push_call (CallModify r) w).
Proof. intros Hv. rewrite Modify_uvm. by rewrite Hv. Qed.

Lemma removeVSMB_absent (id : string) (w : World) :
  vsmbShares_guids (uvm w) !! id = None →
  removeVSMB uvm_Container id w =
    Ret (Some ("failed to remove vsmbShare " +:+ id +:+
               " as it is not in utility VM " +:+ container_id (uvm w))) w.
Proof.
  intros H. unfold removeVSMB. munfold. cbn. rewrite H. reflexivity.
Qed.

Lemma removeVSMB_shared (id : string) (n : Z) (w : World) :
  vsmbShares_guids (uvm w) !! id = Some n →
  wrap_int (n - 1) ≠ 0 →
  removeVSMB uvm_Container id w =
    Ret None (set_guids (<[id := wrap_int (n - 1)]> (vsmbShares_guids (uvm w))) w).
Proof.
  intros H Hn. unfold removeVSMB. munfold. cbn. rewrite H.
  destruct (Z.eqb_spec (wrap_int (n - 1)) 0) as [|_]; [done|]. reflexivity.
Qed.

Lemma removeVSMB_last (id : string) (n : Z) (w : World) :
  vsmbShares_guids (uvm w) !! id = Some n →
  wrap_int (n - 1) = 0 →
  let w' := push_call (CallModify (vsmb_remove_request id))
              (set_guids (delete id (vsmbShares_guids (uvm w))) w) in
  removeVSMB uvm_Container id w =
    Ret (match respond (history w) (CallModify (vsmb_remove_request id)) with
         | Done _ => None
         | Failed e =>
             Some ("failed to remove vsmbShare " +:+ id +:+ " from utility VM " +:+
                   container_id (uvm w) +:+
                   " after refcount dropped to zero: " +:+ e)
         end) w'.
Proof.
  intros H Hn. unfold removeVSMB. munfold. cbn. rewrite H, Hn. cbn.
  unfold Modify. munfold. cbn.
  rewrite delete_insert_eq.
  destruct (respond _ _); reflexivity.
Qed.

Lemma removeVSMB_keeps_registry_ok (id : string) (w w' : World) (err : option string) :
  registry_ok (vsmbShares_guids (uvm w)) →
  removeVSMB uvm_Container id w = Ret err w' →
  registry_ok (vsmbShares_guids (uvm w')).
Proof.
  intros Hok Hrun.
  destruct (vsmbShares_guids (uvm w) !! id) as [n|] eqn:Hid.
  - assert (Hn : 1 ≤ n ≤ max_int) by exact (Hok id n Hid).
    assert (Hw : wrap_int (n - 1) = n - 1).
    { apply wrap_int_id. unfold max_int in *. lia. }
    destruct (decide (n = 1)) as [->|Hne].
    + rewrite (removeVSMB_last id 1 w Hid) in Hrun by reflexivity.
      injection Hrun as _ <-. cbn. by apply map_Forall_delete.
    + rewrite (removeVSMB_shared id n w Hid) in Hrun by lia.
      injection Hrun as _ <-. cbn. apply map_Forall_insert_2; [|done].
      rewrite Hw. cbn. lia.
  - rewrite (removeVSMB_absent id w Hid) in Hrun.
    by injection Hrun as _ <-.
Qed.

(** C6. [removeVSMB] on an identifier that is not in the map returns the
    not-registered error and leaves the state as it was.  On a present
    identifier it decrements the count; when the new count is 0 it deletes
    the entry and sends exactly one Remove request, otherwise it stores the
    new count and sends nothing.  Under the registry invariant the new
    count is never negative, and the invariant (every present identifier
    has a count of at least 1) holds again afterwards. *)
Theorem removeVSMB_refcount (id : string) (w : World) :
  let g := vsmbShares_guids (uvm w) in
  let remove := CallModify (vsmb_remove_request id) in
  (g !! id = None →
     removeVSMB uvm_Container id w =
       Ret (Some ("failed to remove vsmbShare " +:+ id +:+
                  " as it is not in utility VM " +:+ container_id (uvm w))) w) ∧
  (∀ n, g !! id = Some n → wrap_int (n - 1) = 0 →
     ∃ err, removeVSMB uvm_Container id w =
              Ret err (push_call remove (set_guids (delete id g) w))) ∧
  (∀ n, g !! id = Some n → wrap_int (n - 1) ≠ 0 →
     removeVSMB uvm_Container id w =
       Ret None (set_guids (<[id := wrap_int (n - 1)]> g) w)) ∧
  (registry_ok g →
     (∀ n, g !! id = Some n → wrap_int (n - 1) = n - 1 ∧ 0 ≤ n - 1) ∧
     ∃ err w', removeVSMB uvm_Container id w = Ret err w' ∧
               registry_ok (vsmbShares_guids (uvm w'))).
Proof.
  intros g remove. split; [|split; [|split]].
  - apply removeVSMB_absent.
  - intros n Hid Hz. eexists. by apply (removeVSMB_last id n w).
  - intros n Hid Hnz. by apply removeVSMB_shared.
  - intros Hok. split.
    { intros n Hid. pose proof (Hok id n Hid) as Hn. cbn in Hn.
      split; [apply wrap_int_id; unfold max_int in *; lia | lia]. }
    assert (∃ err w', removeVSMB uvm_Container id w = Ret err w') as (err & w' & Hrun).
    { destruct (g !! id) as [n|] eqn:Hid.
      - destruct (decide (wrap_int (n - 1) = 0)) as [Hz|Hnz].
        + eexists _, _. by apply (removeVSMB_last id n w).
        + eexists _, _. by apply (removeVSMB_shared id n w).
      - eexists _, _. by apply removeVSMB_absent. }
    exists err, w'. split; [done|].
    by eapply removeVSMB_keeps_registry_ok.
Qed.

End Registry.

Lemma removeVSMB_refcount_witness :
  registry_ok two_shares ∧
  (@removeVSMB (sample_platform guid_of_name always_done) uvm_Container "guid-base"
     (sample_uvm two_shares table_idle) =
   Ret None (sample_uvm {["guid-base" := 1; "guid-ro1" := 1]} table_idle)) ∧
  (∃ err, @removeVSMB (sample_platform guid_of_name always_done) uvm_Container "guid-ro1"
            (sample_uvm two_shares table_idle) =
          Ret err (push_call (CallModify (vsmb_remove_request "guid-ro1"))
                     (sample_uvm {["guid-base" := 2]} table_idle))) ∧
  (∃ e, @removeVSMB (sample_platform guid_of_name always_done) uvm_Container "guid-x"
          (sample_uvm two_shares table_idle) =
        Ret (Some e) (sample_uvm two_shares table_idle)) ∧
  (∃ err w', @removeVSMB (sample_platform guid_of_name always_done) uvm_Container
               "guid-ro1" (sample_uvm two_shares table_idle) = Ret err w' ∧
             registry_ok (vsmbShares_guids (uvm w'))).
Proof.
  assert (Hok : registry_ok two_shares).
  { unfold two_shares. apply map_Forall_insert_2; [vm_compute; split; discriminate|].
    apply map_Forall_insert_2; [vm_compute; split; discriminate|].
    apply map_Forall_empty. }
  split; [exact Hok|].
  split; [|split; [|split]].
  - destruct (@removeVSMB_refcount (sample_platform guid_of_name always_done)
                "guid-base" (sample_uvm two_shares table_idle)) as (_ & _ & H3 & _).
    exact (H3 2 eq_refl ltac:(vm_compute; discriminate)).
  - destruct (@removeVSMB_refcount (sample_platform guid_of_name always_done)
                "guid-ro1" (sample_uvm two_shares table_idle)) as (_ & H2 & _ & _).
    exact (H2 1 eq_refl eq_refl).
  - destruct (@removeVSMB_refcount (sample_platform guid_of_name always_done)
                "guid-x" (sample_uvm two_shares table_idle)) as (H1 & _ & _ & _).
    eexists. exact (H1 eq_refl).
  - destruct (@removeVSMB_refcount (sample_platform guid_of_name always_done)
                "guid-ro1" (sample_uvm two_shares table_idle)) as (_ & _ & _ & H4).
    exact (proj2 (H4 Hok)).
Defined.

(** ** The attachment allocator: release *)

Lemma table_set_get (t : list (list string)) (controller lun : Z) (hp v : string) :
  table_get t controller lun = Some hp →
  ∃ t', table_set t controller lun v = Some t' ∧
        table_get t' controller lun = Some v.
Proof.
  unfold table_get, table_set.
  destruct ((0 <=? controller) && (0 <=? lun)) eqn:Hrange; [|done].
  apply andb_prop in Hrange as [Hc%Z.leb_le Hl%Z.leb_le].
  destruct (t !! Z.to_nat controller) as [luns|] eqn:Hluns; [|done].
  cbn. intros Hhp.
  pose proof (lookup_lt_Some _ _ _ Hhp) as Hlt.
  pose proof (lookup_lt_Some _ _ _ Hluns) as Hlt'.
  destruct (Z.ltb_spec lun (Z.of_nat (length luns))) as [_|]; [|lia].
  eexists. split; [done|].
  rewrite list_lookup_insert_eq by done. cbn.
  by rewrite list_lookup_insert_eq.
Qed.

Lemma table_set_restore (t t' : list (list string)) (controller lun : Z) (old v : string) :
  table_get t controller lun = Some old →
  table_set t controller lun v = Some t' →
  table_set t' controller lun old = Some t.
Proof.
  unfold table_get, table_set.
  destruct ((0 <=? controller) && (0 <=? lun)) eqn:Hrange; [|done].
  destruct (t !! Z.to_nat controller) as [luns|] eqn:Hluns; [|done].
  cbn. intros Hold.
  pose proof (lookup_lt_Some _ _ _ Hluns) as Hlt'.
  destruct (lun <? Z.of_nat (length luns)) eqn:Hlun; [|done].
  intros [= <-]. rewrite list_lookup_insert_eq by done.
  rewrite length_insert, Hlun. f_equal.
  rewrite !list_insert_insert_eq.
  rewrite (list_insert_id luns) by done.
  by rewrite list_insert_id.
Qed.

Lemma first_slot_lookup (Q : string → Prop) `{!∀ s, Decision (Q s)}
    (t : list (list string)) (k controller lun : nat) :
  first_slot Q t k = Some (controller, lun) →
  (k ≤ controller)%nat ∧
  ∃ luns hp, t !! (controller - k)%nat = Some luns ∧ luns !! lun = Some hp ∧ Q hp.
Proof.
  revert k. induction t as [|luns t IH]; intros k; cbn; [done|].
  destruct (list_find Q luns) as [[l hp]|] eqn:Hfind.
  - intros [= <- <-]. apply list_find_Some in Hfind as (Hl & HQ & _).
    split; [lia|]. exists luns, hp. by rewrite Nat.sub_diag.
  - intros Hrest. apply IH in Hrest as (Hle & luns' & hp & Ht & Hl & HQ).
    split; [lia|]. exists luns', hp. split; [|done].
    replace (controller - k)%nat with (S (controller - S k)) by lia. done.
Qed.

Lemma free_slot_get (w : World) (controller lun : nat) :
  free_slot w = Some (controller, lun) →
  table_get (scsiLocations_hostPath (uvm w)) (Z.of_nat controller) (Z.of_nat lun) = Some "".
Proof.
  intros H. apply first_slot_lookup in H as (_ & luns & hp & Ht & Hl & ->).
  rewrite Nat.sub_0_r in Ht. unfold table_get.
  destruct (Z.leb_spec 0 (Z.of_nat controller)); [|lia].
  destruct (Z.leb_spec 0 (Z.of_nat lun)); [|lia].
  cbn. rewrite !Nat2Z.id, Ht. cbn. done.
Qed.

Section Detach.
Context `{P : Platform}.

Lemma removeSCSI_done (controller lun : Z) (containerPath v : string)
    (t' : list (list string)) (w : World) :
  respond (history w) (CallModify (scsi_remove_request controller lun containerPath))
    = Done v →
  table_set (scsiLocations_hostPath (uvm w)) controller lun "" = Some t' →
  removeSCSI uvm_Container controller lun containerPath w =
    Ret None (set_hostPath t'
                (push_call (CallModify (scsi_remove_request controller lun containerPath)) w)).
Proof.
  intros Hr Ht. unfold removeSCSI, Modify, store_hostPath. munfold. cbn.
  rewrite Hr. cbn. rewrite Ht. reflexivity.
Qed.

Lemma removeSCSI_failed (controller lun : Z) (containerPath e : string) (w : World) :
  respond (history w) (CallModify (scsi_remove_request controller lun containerPath))
    = Failed e →
  removeSCSI uvm_Container controller lun containerPath w =
    Ret (Some e)
        (push_call (CallModify (scsi_remove_request controller lun containerPath)) w).
Proof.
  intros Hr. unfold removeSCSI, Modify. munfold. cbn. rewrite Hr. reflexivity.
Qed.

(** C4, as amended.  [removeSCSI] on an occupied slot sends one Remove
    request.  When the request succeeds the slot's host path is cleared
    and nil is returned; when it fails the error is returned and the table
    is left as it was, so the slot stays occupied. *)
Theorem removeSCSI_clears_on_success (controller lun : Z) (containerPath : string)
    (w : World) :
  slot_occupied w controller lun →
  let request := CallModify (scsi_remove_request controller lun containerPath) in
  ∃ err w',
    removeSCSI uvm_Container controller lun containerPath w = Ret err w' ∧
    history w' = history w ++ [request] ∧
    match respond (history w) request with
    | Done _ => err = None ∧ slot_free w' controller lun
    | Failed e =>
        err = Some e ∧
        scsiLocations_hostPath (uvm w') = scsiLocations_hostPath (uvm w) ∧
        slot_occupied w' controller lun
    end.
Proof.
  intros (hp & Hhp & Hne) request.
  destruct (respond (history w) request) as [v|e] eqn:Hr.
  - destruct (table_set_get _ _ _ hp "" Hhp) as (t' & Hset & Hget).
    eexists _, _. split; [by eapply removeSCSI_done|].
    split; [done|]. split; [done|]. exact Hget.
  - eexists _, _. split; [by eapply removeSCSI_failed|].
    split; [done|]. split; [done|]. split; [done|]. by exists hp.
Qed.

End Detach.

(** C4 as stated fails: the compute service refuses the Remove request and
    slot 0:1 still holds the sandbox afterwards. *)
Lemma removeSCSI_failure_keeps_slot :
  slot_occupied (sample_uvm ∅ table_one_attached) 0 1 ∧
  ∃ e w',
    @removeSCSI refusing_disk_remove uvm_Container 0 1 "" (sample_uvm ∅ table_one_attached)
      = Ret (Some e) w' ∧
    ¬ slot_free w' 0 1.
Proof.
  split.
  - exists "C:\l\scratch\sandbox.vhdx". split; [reflexivity | discriminate].
  - eexists _, _. split; [vm_compute; reflexivity|].
    unfold slot_free. cbn. discriminate.
Qed.

Lemma removeSCSI_clears_on_success_witness :
  slot_occupied (sample_uvm ∅ table_one_attached) 0 1 ∧
  ∃ err w',
    @removeSCSI (sample_platform guid_of_name always_done) uvm_Container 0 1 "C:\guid-scratch"
      (sample_uvm ∅ table_one_attached) = Ret err w' ∧
    err = None ∧ slot_free w' 0 1.
Proof.
  assert (Hocc : slot_occupied (sample_uvm ∅ table_one_attached) 0 1).
  { exists "C:\l\scratch\sandbox.vhdx". split; [reflexivity | discriminate]. }
  split; [exact Hocc|].
  destruct (@removeSCSI_clears_on_success (sample_platform guid_of_name always_done)
              0 1 "C:\guid-scratch" (sample_uvm ∅ table_one_attached) Hocc)
    as (err & w' & Hrun & _ & Hres).
  exists err, w'. split; [exact Hrun|]. exact Hres.
Defined.

(** ** Validation of the layer stack *)

Section Validation.
Context `{P : Platform}.

Lemma Unmount_hosted_short (layerFolders : list string) (hostingSystem : Container)
    (sv : SchemaVersion) (op : Z) (w : World) :
  vm_hosted hostingSystem sv →
  (length layerFolders < 2)%nat →
  Unmount layerFolders hostingSystem sv op w =
    Ret (Some "at least two layers are required for unmount") w.
Proof.
  intros (Hs & H10 & H20 & ->) Hlen. unfold Unmount.
  rewrite Hs, H10, H20. cbn [orb andb is_nil].
  destruct (Nat.ltb_spec (length layerFolders) 2) as [_|]; [reflexivity | lia].
Qed.

Lemma Unmount_direct_single (scratch : string) (hostingSystem : Container)
    (sv : SchemaVersion) (w : World) :
  direct_mode hostingSystem sv →
  ∃ err w' rest,
    Unmount [scratch] hostingSystem sv UnmountOperationAll w = Ret err w' ∧
    history w' =
      history w ++
      CallUnprepareLayer {| HomeDir := filepath_Dir scratch |} (filepath_Base scratch)
      :: rest.
Proof.
  intros (Hs & Hd). unfold Unmount. rewrite Hs, Hd.
  unfold Unmount_direct, UnprepareLayer, DeactivateLayer.
  rewrite Z.eqb_refl. munfold. cbn.
  destruct (respond (history w)
              (CallUnprepareLayer {| HomeDir := filepath_Dir scratch |}
                 (filepath_Base scratch))) as [v|e]; cbn.
  - eexists _, _, _. split; [reflexivity|]. cbn. by rewrite <- app_assoc.
  - eexists _, _, []. split; reflexivity.
Qed.

(** C10. A utility-VM unmount of a stack with fewer than two layers returns
    the at-least-two-layers error at once, whatever the operation, with no
    call made, no log written and the tables untouched; a direct-mode
    unmount of a single-entry stack is accepted and goes on to unprepare
    the layer. *)
Theorem Unmount_hosted_needs_two_layers (layerFolders : list string)
    (hostingSystem : Container) (sv : SchemaVersion) (op : Z) (w : World) :
  vm_hosted hostingSystem sv →
  (length layerFolders < 2)%nat →
  Unmount layerFolders hostingSystem sv op w =
    Ret (Some "at least two layers are required for unmount") w ∧
  ∀ scratch hostingSystem' sv',
    direct_mode hostingSystem' sv' →
    ∃ err w' rest,
      Unmount [scratch] hostingSystem' sv' UnmountOperationAll w = Ret err w' ∧
      history w' =
        history w ++
        CallUnprepareLayer {| HomeDir := filepath_Dir scratch |} (filepath_Base scratch)
        :: rest.
Proof.
  intros Hvm Hlen. split.
  - by apply Unmount_hosted_short.
  - intros scratch hs' sv' Hd. by apply Unmount_direct_single.
Qed.

(** The direct branch of [Mount] checks the length first. *)
Lemma Mount_direct_needs_two_layers (layerFolders : list string)
    (hostingSystem : Container) (sv : SchemaVersion) (w : World) :
  direct_mode hostingSystem sv →
  (length layerFolders < 2)%nat →
  Mount layerFolders hostingSystem sv w =
    Ret (NoResult, Some "need at least two layers - base and sandbox") w.
Proof.
  intros (Hs & Hd) Hlen. unfold Mount. rewrite Hs, Hd. unfold Mount_direct.
  destruct (Nat.ltb_spec (length layerFolders) 2) as [_|]; [reflexivity | lia].
Qed.

(** The utility-VM branch has no such check: an empty stack panics on the
    slice expression, with the share mutex held. *)
Lemma Mount_hosted_empty_panics (hostingSystem : Container) (sv : SchemaVersion)
    (w : World) :
  vm_hosted hostingSystem sv →
  vsmbShares_locked (uvm w) = false →
  Mount [] hostingSystem sv w = Panic (with_uvm (with_vsmb_lock true (uvm w)) w).
Proof.
  intros (Hs & H10 & H20 & ->) Hl. unfold Mount. rewrite Hs, H10, H20.
  cbn [orb andb is_nil]. unfold vsmbShares_Lock. munfold. cbn. by rewrite Hl.
Qed.

End Validation.

Lemma Unmount_hosted_needs_two_layers_witness :
  @vm_hosted calm uvm_Container SchemaV20 ∧
  @direct_mode calm nil_Container SchemaV20 ∧
  @Unmount calm ["C:\l\scratch"] uvm_Container SchemaV20 UnmountOperationSCSI
     (sample_uvm ∅ table_one_attached) =
    Ret (Some "at least two layers are required for unmount")
        (sample_uvm ∅ table_one_attached) ∧
  ∃ err w' rest,
    @Unmount calm ["C:\l\scratch"] nil_Container SchemaV20 UnmountOperationAll
       (sample_uvm ∅ table_one_attached) = Ret err w' ∧
    history w' = CallUnprepareLayer {| HomeDir := "C:\l" |} "scratch" :: rest.
Proof.
  assert (Hvm : @vm_hosted calm uvm_Container SchemaV20) by (repeat split).
  assert (Hd : @direct_mode calm nil_Container SchemaV20) by (repeat split).
  split; [exact Hvm|]. split; [exact Hd|].
  destruct (@Unmount_hosted_needs_two_layers calm ["C:\l\scratch"] uvm_Container
              SchemaV20 UnmountOperationSCSI (sample_uvm ∅ table_one_attached) Hvm
              ltac:(cbn; lia)) as [Hshort Hdirect].
  split; [exact Hshort|].
  exact (Hdirect "C:\l\scratch" nil_Container SchemaV20 Hd).
Defined.

(** C7 (the code does not do this in utility-VM mode).  [Mount] of the
    single-entry stack into a utility VM is not rejected: it attaches the
    sandbox, sends the combined-layers request with no layers and returns
    success.  The empty stack panics.  In direct mode the same two stacks
    get the validation error with nothing done. *)
Theorem Mount_hosted_accepts_single_layer :
  @Mount calm ["C:\l\scratch"] uvm_Container SchemaV20 (sample_uvm ∅ table_idle) =
    Ret (MountedLayers {| ContainerRootPath := "C:\guid-scratch"; Layers := [] |}, None)
        {| uvm := uvm (sample_uvm ∅ table_one_attached);
           history := scratch_attached; logs := [] |} ∧
  @Mount calm [] uvm_Container SchemaV20 (sample_uvm ∅ table_idle) =
    Panic (with_uvm (with_vsmb_lock true (uvm (sample_uvm ∅ table_idle)))
             (sample_uvm ∅ table_idle)) ∧
  @Mount calm ["C:\l\scratch"] nil_Container SchemaV20 (sample_uvm ∅ table_idle) =
    Ret (NoResult, Some "need at least two layers - base and sandbox")
        (sample_uvm ∅ table_idle) ∧
  @Mount calm [] uvm_Container SchemaV10 (sample_uvm ∅ table_idle) =
    Ret (NoResult, Some "need at least two layers - base and sandbox")
        (sample_uvm ∅ table_idle).
Proof. repeat split; vm_compute; reflexivity. Qed.

(** ** The scope tests of Unmount *)

(** The two tests of [Unmount] use [|] where a mask needs [&]: the SCSI
    section runs for the operations 0 and 1 only, the VSMB section for 0
    and 2 only. *)
Lemma scope_test_SCSI (op : Z) :
  0 ≤ op →
  (Z.lor op UnmountOperationSCSI =? UnmountOperationSCSI) = true ↔ op = 0 ∨ op = 1.
Proof.
  intros Hop. rewrite Z.eqb_eq. unfold UnmountOperationSCSI. split.
  - intros H.
    assert (Hb : ∀ i, 0 < i → Z.testbit op i = false).
    { intros i Hi.
      assert (Ht : Z.testbit (Z.lor op 1) i = Z.testbit 1 i) by (by rewrite H).
      rewrite Z.lor_spec in Ht.
      replace (Z.testbit 1 i) with false in Ht
        by (symmetry; apply (Z.bits_above_log2 1 i); cbn; lia).
      by apply orb_false_iff in Ht as [? _]. }
    destruct (Z.testbit op 0) eqn:H0; [right|left]; apply Z.bits_inj'; intros i Hi.
    + destruct (decide (i = 0)) as [->|]; [done|].
      rewrite Hb by lia. symmetry. apply (Z.bits_above_log2 1 i); cbn; lia.
    + destruct (decide (i = 0)) as [->|]; [by rewrite Z.bits_0|].
      rewrite Hb by lia. by rewrite Z.bits_0.
  - by intros [-> | ->].
Qed.

Lemma scope_test_All_SCSI :
  (Z.lor UnmountOperationAll UnmountOperationSCSI =? UnmountOperationSCSI) = false.
Proof. reflexivity. Qed.

Lemma scope_test_All_VSMB :
  (Z.lor UnmountOperationAll UnmountOperationVSMB =? UnmountOperationVSMB) = false.
Proof. reflexivity. Qed.

Section FullUnmount.
Context `{P : Platform}.

Lemma Unmount_hosted_All (layerFolders : list string) (hostingSystem : Container)
    (sv : SchemaVersion) (w : World) :
  vm_hosted hostingSystem sv →
  (2 ≤ length layerFolders)%nat →
  Unmount layerFolders hostingSystem sv UnmountOperationAll w = Ret None w.
Proof.
  intros (Hs & H10 & H20 & ->) Hlen. unfold Unmount.
  rewrite Hs, H10, H20. cbn [orb andb is_nil].
  destruct (Nat.ltb_spec (length layerFolders) 2) as [|_]; [lia|].
  rewrite scope_test_All_SCSI, scope_test_All_VSMB, andb_false_r.
  reflexivity.
Qed.

End FullUnmount.

(** C1 (the code does not do this).  The full unmount, operation
    [UnmountOperationAll], of the one mounted workload returns nil and does
    nothing at all: no request is sent, the share keeps its count and the
    sandbox stays attached.  The operation 1 detaches the sandbox only, 2
    releases the shares only, and the operation 0 does both. *)
Theorem Unmount_All_skips_both_sections :
  UnmountOperationAll = 3 ∧
  @Unmount calm ["C:\l\base"; "C:\l\scratch"] uvm_Container SchemaV20
     UnmountOperationAll one_mounted = Ret None one_mounted ∧
  @Unmount calm ["C:\l\base"; "C:\l\scratch"] uvm_Container SchemaV20
     UnmountOperationSCSI one_mounted =
    Ret None {| uvm := uvm (sample_uvm {["guid-base" := 1]} table_idle);
                history := sandbox_teardown; logs := [] |} ∧
  @Unmount calm ["C:\l\base"; "C:\l\scratch"] uvm_Container SchemaV20
     UnmountOperationVSMB one_mounted =
    Ret None {| uvm := uvm (sample_uvm ∅ table_one_attached);
                history := [CallModify (vsmb_remove_request "guid-base")];
                logs := [] |} ∧
  @Unmount calm ["C:\l\base"; "C:\l\scratch"] uvm_Container SchemaV20 0 one_mounted =
    Ret None {| uvm := uvm (sample_uvm ∅ table_idle);
                history := sandbox_teardown ++
                           [CallModify (vsmb_remove_request "guid-base")];
                logs := [] |}.
Proof. repeat split; vm_compute; reflexivity. Qed.

(** ** Mount: the mutex on the failure paths of the share loop *)

(** C9 (the code does not do this).  The second read-only layer has no
    GUID.  [Mount] has added the first layer's share and holds the share
    mutex; on this path it calls [removeVSMBOnFailure] before unlocking,
    the helper locks the same mutex, and the call never returns.  The
    mutex stays held and the first share stays registered. *)
Theorem Mount_guid_failure_blocks :
  @Mount one_name_broken ["C:\l\base"; "C:\l\broken"; "C:\l\scratch"] uvm_Container
     SchemaV20 (sample_uvm ∅ table_idle) =
    Blocked {| uvm := {| container_id := "uvm1";
                         vsmbShares_locked := true;
                         vsmbShares_guids := {["guid-base" := 1]};
                         scsiLocations_locked := false;
                         scsiLocations_hostPath := table_idle |};
               history := [base_share_added];
               logs := [] |}.
Proof. vm_compute; reflexivity. Qed.

(** The sibling path, a refused Add, unlocks first and returns. *)
Lemma Mount_add_failure_returns :
  @Mount refusing_share_add ["C:\l\base"; "C:\l\scratch"] uvm_Container SchemaV20
     (sample_uvm ∅ table_idle) =
    Ret (NoResult, Some "refused")
        {| uvm := uvm (sample_uvm ∅ table_idle);
           history := [base_share_added];
           logs := [] |}.
Proof. vm_compute; reflexivity. Qed.

(** ** Mount: rollback after the attachment step *)

(** C3 (the code does not do this).  With controller 0 full the allocator
    hands out slot 1:0; [Mount] returns the too-many-attachments error and
    rolls nothing back: the share it added stays registered, slot 1:0 stays
    reserved and no Remove request is sent.  When the Add request for the
    sandbox is refused, the shares are released but slot 0:1 stays
    reserved. *)
Theorem Mount_attachment_failures_leak :
  @Mount calm ["C:\l\base"; "C:\l\scratch"] uvm_Container SchemaV20
     (sample_uvm ∅ table_controller0_full) =
    Ret (NoResult, Some "too many SCSI attachments for a single controller")
        {| uvm := uvm (sample_uvm {["guid-base" := 1]}
                         table_second_controller);
           history := [base_share_added];
           logs := [] |} ∧
  @Mount refusing_disk_add ["C:\l\base"; "C:\l\scratch"] uvm_Container SchemaV20
     (sample_uvm ∅ table_idle) =
    Ret (NoResult, Some "refused")
        {| uvm := uvm (sample_uvm ∅ table_one_attached);
           history :=
             [base_share_added;
              CallModify (scsi_add_request "C:\l\scratch\sandbox.vhdx" "C:\guid-scratch" 0 1);
              CallModify (vsmb_remove_request "guid-base")];
           logs := [] |}.
Proof. split; vm_compute; reflexivity. Qed.

(** ** The share registry: acquisition in the loop of Mount *)

Section Acquire.
Context `{P : Platform}.

Lemma Mount_layer_fresh (vsmbAdded : list string) (layerPath guid v : string) (w : World) :
  layer_guid layerPath = (guid, None) →
  vsmbShares_guids (uvm w) !! guid = None →
  respond (history w) (CallModify (vsmb_add_request guid layerPath)) = Done v →
  Mount_layer uvm_Container vsmbAdded layerPath w =
    Ret (inl (vsmbAdded ++ [guid]))
        (set_guids (<[guid := 1]> (vsmbShares_guids (uvm w)))
           (push_call (CallModify (vsmb_add_request guid layerPath)) w)).
Proof.
  unfold layer_guid, Mount_layer. intros Hg Habs Hr.
  destruct (filepath_Split layerPath) as [dir filename]. cbn in Hg. rewrite Hg.
  unfold Modify. munfold. cbn. rewrite Habs. cbn. rewrite Hr. reflexivity.
Qed.

Lemma Mount_layer_shared (vsmbAdded : list string) (layerPath guid : string) (n : Z)
    (w : World) :
  layer_guid layerPath = (guid, None) →
  vsmbShares_guids (uvm w) !! guid = Some n →
  Mount_layer uvm_Container vsmbAdded layerPath w =
    Ret (inl (vsmbAdded ++ [guid]))
        (set_guids (<[guid := wrap_int (n + 1)]> (vsmbShares_guids (uvm w))) w).
Proof.
  unfold layer_guid, Mount_layer. intros Hg Hn.
  destruct (filepath_Split layerPath) as [dir filename]. cbn in Hg. rewrite Hg.
  munfold. cbn. rewrite Hn. reflexivity.
Qed.

(** Further acquisitions of an identifier that is present with count [n]:
    no call, the count goes up by one each time. *)
Lemma Mount_layers_shared (layers : list string) (guid : string) :
  Forall (λ lp, layer_guid lp = (guid, None)) layers →
  ∀ (vsmbAdded : list string) (n : Z) (w : World),
    vsmbShares_guids (uvm w) !! guid = Some n →
    1 ≤ n → n + Z.of_nat (length layers) ≤ max_int →
    Mount_layers uvm_Container vsmbAdded layers w =
      Ret (inl (vsmbAdded ++ replicate (length layers) guid))
          (set_guids (<[guid := n + Z.of_nat (length layers)]> (vsmbShares_guids (uvm w))) w).
Proof.
  induction 1 as [|lp layers Hlp _ IH]; intros vsmbAdded n w Hn Hpos Hmax.
  - cbn. rewrite app_nil_r, Z.add_0_r, insert_id by done.
    by rewrite set_guids_same.
  - cbn [Mount_layers length replicate]. unfold mbind at 1, M_bind at 1.
    rewrite (Mount_layer_shared vsmbAdded lp guid n w Hlp Hn).
    assert (Hw : wrap_int (n + 1) = n + 1).
    { apply wrap_int_id. cbn [length] in Hmax. unfold max_int in *. lia. }
    rewrite Hw.
    rewrite (IH (vsmbAdded ++ [guid]) (n + 1)).
    + rewrite guids_set_guids, set_guids_twice, insert_insert_eq, <- app_assoc.
      do 3 f_equal. lia.
    + rewrite guids_set_guids. by rewrite lookup_insert_eq.
    + lia.
    + cbn [length] in Hmax. lia.
Qed.

(** C5. The first acquisition of an identifier (absent from the map) sends
    exactly one Add request and stores the count 1; an acquisition of a
    present identifier sends nothing and increments the count.  So a run
    of acquisitions of one identifier, starting from absent, sends one Add
    request in all and leaves the count equal to their number. *)
Theorem Mount_layer_refcount (vsmbAdded : list string) (layerPath guid : string)
    (w : World) :
  layer_guid layerPath = (guid, None) →
  let g := vsmbShares_guids (uvm w) in
  let add := CallModify (vsmb_add_request guid layerPath) in
  (∀ v, g !! guid = None → respond (history w) add = Done v →
     Mount_layer uvm_Container vsmbAdded layerPath w =
       Ret (inl (vsmbAdded ++ [guid])) (set_guids (<[guid := 1]> g) (push_call add w))) ∧
  (∀ n, g !! guid = Some n →
     Mount_layer uvm_Container vsmbAdded layerPath w =
       Ret (inl (vsmbAdded ++ [guid])) (set_guids (<[guid := wrap_int (n + 1)]> g) w)) ∧
  (∀ v more, g !! guid = None → respond (history w) add = Done v →
     Forall (λ lp, layer_guid lp = (guid, None)) more →
     1 + Z.of_nat (length more) ≤ max_int →
     Mount_layers uvm_Container vsmbAdded (layerPath :: more) w =
       Ret (inl (vsmbAdded ++ replicate (S (length more)) guid))
           (set_guids (<[guid := 1 + Z.of_nat (length more)]> g) (push_call add w))).
Proof.
  intros Hg g add. split; [|split].
  - intros v Habs Hr. by eapply Mount_layer_fresh.
  - intros n Hn. by apply Mount_layer_shared.
  - intros v more Habs Hr Hmore Hmax.
    cbn [Mount_layers]. unfold mbind at 1, M_bind at 1.
    rewrite (Mount_layer_fresh vsmbAdded layerPath guid v w Hg Habs Hr).
    rewrite (Mount_layers_shared more guid Hmore (vsmbAdded ++ [guid]) 1).
    + rewrite guids_set_guids, set_guids_twice, insert_insert_eq, <- app_assoc.
      reflexivity.
    + rewrite guids_set_guids. by rewrite lookup_insert_eq.
    + lia.
    + done.
Qed.

End Acquire.

Lemma Mount_layer_refcount_witness :
  @layer_guid calm "C:\l\base" = ("guid-base", None) ∧
  (@Mount_layer calm uvm_Container [] "C:\l\base" (sample_uvm ∅ table_idle) =
     Ret (inl ["guid-base"])
         (push_call base_share_added
            (sample_uvm {["guid-base" := 1]} table_idle))) ∧
  (@Mount_layer calm uvm_Container [] "C:\l\base" (sample_uvm {["guid-base" := 1]} table_idle) =
     Ret (inl ["guid-base"]) (sample_uvm {["guid-base" := 2]} table_idle)) ∧
  (@Mount_layers calm uvm_Container [] ["C:\l\base"; "D:\m\base"; "E:\n\base"]
     (sample_uvm ∅ table_idle) =
     Ret (inl ["guid-base"; "guid-base"; "guid-base"])
         (push_call base_share_added
            (sample_uvm {["guid-base" := 3]} table_idle))).
Proof.
  assert (Hg : @layer_guid calm "C:\l\base" = ("guid-base", None)) by reflexivity.
  split; [exact Hg|].
  split; [|split].
  - destruct (@Mount_layer_refcount calm [] "C:\l\base" "guid-base"
                (sample_uvm ∅ table_idle) Hg) as (H1 & _ & _).
    exact (H1 "" eq_refl eq_refl).
  - destruct (@Mount_layer_refcount calm [] "C:\l\base" "guid-base"
                (sample_uvm {["guid-base" := 1]} table_idle) Hg) as (_ & H2 & _).
    exact (H2 1 eq_refl).
  - destruct (@Mount_layer_refcount calm [] "C:\l\base" "guid-base"
                (sample_uvm ∅ table_idle) Hg) as (_ & _ & H3).
    refine (H3 "" ["D:\m\base"; "E:\n\base"] eq_refl eq_refl _ _).
    + repeat constructor.
    + vm_compute. discriminate.
Defined.

(** ** Mount: rollback when the combined-layers request fails *)

Lemma lookup_share_acquired (id k : string) (g : gmap string Z) :
  share_acquired id g !! k =
    if decide (k = id)
    then Some (match g !! id with None => 1 | Some n => wrap_int (n + 1) end)
    else g !! k.
Proof.
  unfold share_acquired.
  destruct (decide (k = id)) as [->|Hne]; destruct (g !! id).
  all: first [ by rewrite lookup_insert_eq | by rewrite lookup_insert_ne ].
Qed.

Lemma lookup_share_released (id k : string) (g : gmap string Z) :
  share_released id g !! k =
    if decide (k = id)
    then match g !! id with
         | None => None
         | Some n => if wrap_int (n - 1) =? 0 then None else Some (wrap_int (n - 1))
         end
    else g !! k.
Proof.
  unfold share_released.
  destruct (decide (k = id)) as [->|Hne]; destruct (g !! id) as [n|] eqn:Hid;
    try destruct (wrap_int (n - 1) =? 0).
  all: first [ by rewrite lookup_insert_eq | by rewrite lookup_insert_ne
             | by rewrite lookup_delete_eq | by rewrite lookup_delete_ne | done ].
Qed.

(** Facts about the counts of a registry that satisfies [registry_ok]. *)
Ltac count_facts Hok :=
  repeat match goal with
  | H : ?g !! ?k = Some ?n |- _ =>
      lazymatch goal with
      | _ : wrap_int (wrap_int (n + 1) - 1) = n |- _ => fail
      | _ =>
          let Hr := fresh "Hr" in
          assert (Hr : 1 ≤ n ≤ max_int) by exact (Hok k n H);
          assert (wrap_int (wrap_int (n + 1) - 1) = n)
            by (apply wrap_int_pred_succ; unfold max_int in *; lia);
          assert (wrap_int (wrap_int (wrap_int (n + 1) + 1) - 1) = wrap_int (n + 1))
            by (apply wrap_int_pred_succ, wrap_int_range);
          assert (wrap_int (n + 1) ≠ 0) by (by apply wrap_int_succ_nonzero);
          assert (n ≠ 0) by lia
      end
  end.

Ltac count_simpl :=
  repeat match goal with
  | H : wrap_int ?a = ?b |- context [wrap_int ?a] => rewrite H
  | |- context [wrap_int (1 - 1)] => change (wrap_int (1 - 1)) with 0
  | |- context [wrap_int (1 + 1)] => change (wrap_int (1 + 1)) with 2
  | |- context [wrap_int (2 - 1)] => change (wrap_int (2 - 1)) with 1
  | |- context [0 =? 0] => change (0 =? 0) with true
  | |- context [?a =? 0] => destruct (Z.eqb_spec a 0); [exfalso; first [done | lia]|]
  | |- context [decide (?a = ?a)] => rewrite (decide_True (P := a = a)) by done
  | H : ?a ≠ ?b |- context [decide (?a = ?b)] => rewrite (decide_False (P := a = b)) by done
  | H : ?a ≠ ?b |- context [decide (?b = ?a)] => rewrite (decide_False (P := b = a)) by done
  | H : ?g !! ?k = _ |- context [?g !! ?k] => rewrite H
  end.

(** Two acquisitions followed by the two releases give the map back; the
    first release drops [g1] to zero exactly when it was absent and differs
    from [g2], the second drops [g2] to zero exactly when it was absent. *)
Lemma release_acquire_two (g : gmap string Z) (g1 g2 : string) :
  registry_ok g →
  let ga := share_acquired g2 (share_acquired g1 g) in
  ∃ n1 n2,
    ga !! g1 = Some n1 ∧
    share_released g1 ga !! g2 = Some n2 ∧
    share_released g2 (share_released g1 ga) = g ∧
    (wrap_int (n1 - 1) = 0 ↔ g !! g1 = None ∧ g1 ≠ g2) ∧
    (wrap_int (n2 - 1) = 0 ↔ g !! g2 = None).
Proof.
  intros Hok. cbn zeta.
  destruct (decide (g1 = g2)) as [<-|Hne];
    destruct (g !! g1) as [n|] eqn:H1; try destruct (g !! g2) as [m|] eqn:H2.
  all: count_facts Hok.
  all: eexists _, _.
  all: split; [rewrite !lookup_share_acquired; count_simpl; reflexivity|].
  all: split; [rewrite !lookup_share_released, !lookup_share_acquired; count_simpl; reflexivity|].
  all: split; [apply map_eq; intros k;
               rewrite !lookup_share_released, !lookup_share_acquired;
               destruct (decide (k = g1)) as [->|?]; try destruct (decide (k = g2)) as [->|?];
               count_simpl; try done |].
  all: count_simpl.
  all: split; (split; [intros ?; first [done | lia | (split; done)]
                      | intros Hx; first [done | lia | (destruct Hx; done)]]).
Qed.

Section Rollback.
Context `{P : Platform}.

Lemma vsmbShares_Lock_free (w : World) :
  vsmbShares_locked (uvm w) = false →
  vsmbShares_Lock w = Ret tt (set_vsmb_lock true w).
Proof. intros H. unfold vsmbShares_Lock. by rewrite H. Qed.

Lemma vsmbShares_Unlock_held (w : World) :
  vsmbShares_locked (uvm w) = true →
  vsmbShares_Unlock w = Ret tt (set_vsmb_lock false w).
Proof. intros H. unfold vsmbShares_Unlock. by rewrite H. Qed.

Lemma scsiLocations_Lock_free (w : World) :
  scsiLocations_locked (uvm w) = false →
  scsiLocations_Lock w = Ret tt (set_scsi_lock true w).
Proof. intros H. unfold scsiLocations_Lock. by rewrite H. Qed.

Lemma scsiLocations_Unlock_held (w : World) :
  scsiLocations_locked (uvm w) = true →
  scsiLocations_Unlock w = Ret tt (set_scsi_lock false w).
Proof. intros H. unfold scsiLocations_Unlock. by rewrite H. Qed.

(** The reservation made by the allocator. *)
Lemma allocateSCSI_reserves (hostPath containerPath : string) (controller lun : nat)
    (w : World) :
  scsiLocations_locked (uvm w) = false →
  free_slot w = Some (controller, lun) →
  ∃ t', table_set (scsiLocations_hostPath (uvm w)) (Z.of_nat controller) (Z.of_nat lun)
          hostPath = Some t' ∧
        allocateSCSI hostPath containerPath w =
          Ret (Z.of_nat controller, Z.of_nat lun, None) (set_hostPath t' w).
Proof.
  intros Hl Hfree.
  destruct (table_set_get _ _ _ "" hostPath (free_slot_get w controller lun Hfree))
    as (t' & Hset & _).
  exists t'. split; [done|].
  unfold allocateSCSI, scsiLocations_Lock, scsiLocations_Unlock, store_hostPath.
  unfold free_slot in Hfree. destruct w as [[cid vl g sl t] h lg]. cbn in *.
  subst sl. munfold. cbn. rewrite Hfree. cbn. rewrite Hset. reflexivity.
Qed.

(** One step of the loop of [Mount] when the compute service accepts the
    Add request. *)
Lemma Mount_layer_acquires (vsmbAdded : list string) (layerPath guid : string) (w : World) :
  layer_guid layerPath = (guid, None) →
  (vsmbShares_guids (uvm w) !! guid = None →
   ∃ v, respond (history w) (CallModify (vsmb_add_request guid layerPath)) = Done v) →
  Mount_layer uvm_Container vsmbAdded layerPath w =
    Ret (inl (vsmbAdded ++ [guid]))
        (set_guids (share_acquired guid (vsmbShares_guids (uvm w)))
           (push_calls
              (match vsmbShares_guids (uvm w) !! guid with
               | Some _ => []
               | None => [CallModify (vsmb_add_request guid layerPath)]
               end) w)).
Proof.
  intros Hg Hr. unfold share_acquired.
  destruct (vsmbShares_guids (uvm w) !! guid) as [n|] eqn:Hn.
  - rewrite (Mount_layer_shared vsmbAdded layerPath guid n w Hg Hn).
    unfold push_calls. rewrite app_nil_r. by destruct w.
  - destruct (Hr eq_refl) as [v Hv].
    by rewrite (Mount_layer_fresh vsmbAdded layerPath guid v w Hg Hn Hv).
Qed.

(** One release of a present identifier when the compute service accepts
    the Remove request. *)
Lemma removeVSMB_releases (id : string) (n : Z) (w : World) :
  vsmbShares_guids (uvm w) !! id = Some n →
  (wrap_int (n - 1) = 0 →
   ∃ v, respond (history w) (CallModify (vsmb_remove_request id)) = Done v) →
  removeVSMB uvm_Container id w =
    Ret None
        (push_calls
           (if decide (wrap_int (n - 1) = 0)
            then [CallModify (vsmb_remove_request id)] else [])
           (set_guids (share_released id (vsmbShares_guids (uvm w))) w)).
Proof.
  intros Hn Hr. unfold share_released. rewrite Hn.
  destruct (decide (wrap_int (n - 1) = 0)) as [Hz|Hnz].
  - destruct (Hr Hz) as [v Hv].
    rewrite (removeVSMB_last id n w Hn Hz). cbn. rewrite Hv, Hz. reflexivity.
  - rewrite (removeVSMB_shared id n w Hn Hnz).
    destruct (Z.eqb_spec (wrap_int (n - 1)) 0) as [|_]; [done|].
    unfold push_calls. cbn. by rewrite app_nil_r.
Qed.

Lemma Mount_layers_two (base ro1 g1 g2 : string) (w : World) :
  accepts_all_but_union →
  layer_guid base = (g1, None) →
  layer_guid ro1 = (g2, None) →
  let g := vsmbShares_guids (uvm w) in
  Mount_layers uvm_Container [] [base; ro1] w =
    Ret (inl [g1; g2])
        (set_guids (share_acquired g2 (share_acquired g1 g))
           (push_calls
              ((if bool_decide (g !! g1 = None)
                then [CallModify (vsmb_add_request g1 base)] else []) ++
               (if bool_decide (g !! g2 = None ∧ g1 ≠ g2)
                then [CallModify (vsmb_add_request g2 ro1)] else [])) w)).
Proof.
  intros Hdone Hg1 Hg2 g. cbn [Mount_layers].
  mstep ltac:(apply Mount_layer_acquires; [exact Hg1 | intros _; by apply Hdone]).
  mstep ltac:(apply Mount_layer_acquires; [exact Hg2 | intros _; by apply Hdone]).
  unfold mret, M_ret. f_equal.
  unfold set_guids, push_calls, with_uvm, with_guids.
  cbn [uvm history logs container_id vsmbShares_locked vsmbShares_guids
       scsiLocations_locked scsiLocations_hostPath].
  fold g. rewrite lookup_share_acquired, <- app_assoc.
  do 2 f_equal.
  destruct (g !! g1) as [n|] eqn:H1; destruct (decide (g2 = g1)) as [->|Hne].
  all: rewrite ?H1; cbn [app]; try done.
  all: try destruct (g !! g2) as [m|] eqn:H2.
  all: repeat case_bool_decide; cbn [app]; try done.
  all: exfalso; intuition congruence.
Qed.

Lemma removeVSMBOnFailure_two (g1 g2 : string) (n1 n2 : Z) (w : World) :
  accepts_all_but_union →
  vsmbShares_locked (uvm w) = false →
  let g := vsmbShares_guids (uvm w) in
  g !! g1 = Some n1 →
  share_released g1 g !! g2 = Some n2 →
  removeVSMBOnFailure uvm_Container [g1; g2] w =
    Ret tt
        (push_calls
           ((if decide (wrap_int (n1 - 1) = 0)
             then [CallModify (vsmb_remove_request g1)] else []) ++
            (if decide (wrap_int (n2 - 1) = 0)
             then [CallModify (vsmb_remove_request g2)] else []))
           (set_guids (share_released g2 (share_released g1 g)) w)).
Proof.
  intros Hdone Hl g Hn1 Hn2. unfold removeVSMBOnFailure.
  cbn [length decide]. rewrite decide_False by done. cbn [deref].
  mstep ltac:(reflexivity).
  mstep ltac:(by apply vsmbShares_Lock_free).
  cbn [removeVSMB_each].
  erewrite defer_Ret;
    [|erewrite bind_Ret;
              [| apply (removeVSMB_releases g1 n1); [exact Hn1 | intros _; by apply Hdone]];
              cbv beta iota;
              erewrite bind_Ret; [| reflexivity];
              erewrite bind_Ret;
              [| apply (removeVSMB_releases g2 n2); [exact Hn2 | intros _; by apply Hdone]];
              cbv beta iota;
              erewrite bind_Ret; [| reflexivity];
              reflexivity].
  mstep ltac:(by apply vsmbShares_Unlock_held).
  unfold mret, M_ret.
  f_equal. destruct w as [[cid vl g0 sl t] h lg]. cbn in Hl. subst vl.
  unfold push_calls, set_guids, set_vsmb_lock, with_uvm, with_guids, with_vsmb_lock.
  cbn. by rewrite <- app_assoc.
Qed.

Lemma removeSCSIOnFailure_clears (controller lun : Z) (t' : list (list string)) (w : World) :
  accepts_all_but_union →
  scsiLocations_locked (uvm w) = false →
  table_set (scsiLocations_hostPath (uvm w)) controller lun "" = Some t' →
  removeSCSIOnFailure uvm_Container controller lun w =
    Ret tt (set_hostPath t' (push_call (CallModify (scsi_remove_request controller lun "")) w)).
Proof.
  intros Hdone Hl Ht. unfold removeSCSIOnFailure. cbn [deref].
  mstep ltac:(reflexivity).
  mstep ltac:(by apply scsiLocations_Lock_free).
  destruct (Hdone (history w) (scsi_remove_request controller lun "") eq_refl) as [v Hv].
  erewrite defer_Ret;
    [|mstep ltac:(apply (removeSCSI_done controller lun "" v t'); [exact Hv | exact Ht]);
      reflexivity].
  mstep ltac:(by apply scsiLocations_Unlock_held).
  unfold mret, M_ret.
  f_equal. destruct w as [[cid vl g0 sl t] h lg]. cbn in Hl. subst sl.
  reflexivity.
Qed.

(** C2. A utility-VM mount of a three-layer stack in which every step
    succeeds but the Add of the combined layers returns that error and
    leaves the utility VM (share map, attachment table, both mutexes)
    exactly as it was.  The requests sent are the Adds of the shares that
    were not yet registered, the Add of the sandbox disk, the failed Add of
    the combined layers, then one Remove for each share this call added and
    the Remove of the sandbox disk; nothing is logged. *)
Theorem Mount_rolls_back_failed_union (base ro1 scratch g1 g2 gs e : string) (lun : nat)
    (hostingSystem : Container) (sv : SchemaVersion) (w : World) :
  vm_hosted hostingSystem sv →
  layer_guid base = (g1, None) →
  layer_guid ro1 = (g2, None) →
  layer_guid scratch = (gs, None) →
  registry_ok (vsmbShares_guids (uvm w)) →
  vsmbShares_locked (uvm w) = false →
  scsiLocations_locked (uvm w) = false →
  free_slot w = Some (0%nat, lun) →
  only_union_assembly_fails e →
  let g := vsmbShares_guids (uvm w) in
  let fresh1 := bool_decide (g !! g1 = None) in
  let fresh2 := bool_decide (g !! g2 = None ∧ g1 ≠ g2) in
  let hostPath := filepath_Join scratch "sandbox.vhdx" in
  ∃ w',
    Mount [base; ro1; scratch] hostingSystem sv w = Ret (NoResult, Some e) w' ∧
    uvm w' = uvm w ∧
    logs w' = logs w ∧
    history w' =
      history w ++
      (if fresh1 then [CallModify (vsmb_add_request g1 base)] else []) ++
      (if fresh2 then [CallModify (vsmb_add_request g2 ro1)] else []) ++
      [CallModify (scsi_add_request hostPath ("C:\" +:+ gs) 0 (Z.of_nat lun));
       CallModify (combined_layers_request RequestTypeAdd (combined_layers gs [g1; g2]))] ++
      (if fresh1 then [CallModify (vsmb_remove_request g1)] else []) ++
      (if fresh2 then [CallModify (vsmb_remove_request g2)] else []) ++
      [CallModify (scsi_remove_request 0 (Z.of_nat lun) "")].
Proof.
  intros (Hs & H10 & H20 & ->) Hg1 Hg2 Hgs Hok Hvl Hsl Hfree Hfail g fresh1 fresh2 hostPath.
  assert (Hdone : accepts_all_but_union).
  { intros h r Hr. specialize (Hfail h r). by rewrite Hr in Hfail. }
  destruct (release_acquire_two g g1 g2 Hok) as (n1 & n2 & Hn1 & Hn2 & Hback & Hz1 & Hz2).
  unfold Mount. rewrite Hs, H10, H20. cbn [orb andb is_nil deref].
  mstep ltac:(reflexivity).
  mstep ltac:(by apply vsmbShares_Lock_free).
  mstep ltac:(reflexivity).
  cbn [length Nat.sub take].
  mstep ltac:(by apply (Mount_layers_two base ro1 g1 g2)).
  mstep ltac:(by apply vsmbShares_Unlock_held).
  unfold Mount_sandbox. cbn [last_layer last].
  mstep ltac:(reflexivity).
  unfold layer_guid in Hgs. destruct (filepath_Split scratch) as [dir sandboxPath].
  cbn [snd] in Hgs. rewrite Hgs. fold hostPath.
  change (vsmbShares_guids (uvm (set_vsmb_lock true w))) with g.
  fold fresh1 fresh2.
  match goal with |- context [mbind _ _ ?x] => set (w3 := x) end.
  destruct (allocateSCSI_reserves hostPath ("C:\" +:+ gs) 0 lun w3 Hsl Hfree)
    as (t' & Hset & Halloc).
  pose proof (table_set_restore _ _ _ _ "" hostPath (free_slot_get w 0 lun Hfree) Hset)
    as Hrestore.
  mstep ltac:(exact Halloc).
  change (0 <? Z.of_nat 0) with false. cbv beta iota.
  mstep ltac:(apply Modify_accepted, Hdone; reflexivity).
  mstep ltac:(apply Modify_refused;
              exact (Hfail _ (combined_layers_request RequestTypeAdd
                                (combined_layers gs [g1; g2])))).
  mstep ltac:(apply (removeVSMBOnFailure_two g1 g2 n1 n2);
              [exact Hdone | reflexivity | exact Hn1 | exact Hn2]).
  mstep ltac:(apply (removeSCSIOnFailure_clears _ _ (scsiLocations_hostPath (uvm w)));
              [exact Hdone | exact Hsl | exact Hrestore]).
  eexists. split; [reflexivity|].
  subst w3.
  split; [|split].
  - apply container_ext;
      first [reflexivity | exact (eq_sym Hvl) | exact Hback].
  - reflexivity.
  - autorewrite with world_history. rewrite <- !app_assoc. cbn [app]. do 3 f_equal.
    subst fresh1 fresh2. change (Z.of_nat 0) with 0.
    destruct (decide (g1 = g2)) as [Heq|Hne]; [rewrite Heq in *|];
      destruct (decide (wrap_int (n1 - 1) = 0)) as [Hd1|Hd1];
      destruct (decide (wrap_int (n2 - 1) = 0)) as [Hd2|Hd2];
      repeat case_bool_decide; cbn [app]; try done.
    all: exfalso; intuition congruence.
Qed.

End Rollback.

(** ** Unmount: the share loop goes through every layer *)

Section UnmountShares.
Context `{P : Platform}.

Lemma all_accepted_app (h : list Call) (cs1 cs2 : list Call) :
  all_accepted h (cs1 ++ cs2) ↔ all_accepted h cs1 ∧ all_accepted (h ++ cs1) cs2.
Proof.
  revert h. induction cs1 as [|c cs1 IH]; intros h; cbn.
  - rewrite app_nil_r. tauto.
  - rewrite IH, <- app_assoc. cbn. tauto.
Qed.

Lemma share_unmounted_absent (id k : string) (g : gmap string Z) :
  g !! k = None → share_unmounted id g !! k = None.
Proof.
  intros Hk. unfold share_unmounted.
  destruct (g !! id) as [n|] eqn:Hid; [|done].
  destruct (0 <? wrap_int (n - 1)).
  - rewrite lookup_insert_ne; [done|]. intros ->. congruence.
  - destruct (decide (id = k)) as [->|?];
      [by rewrite lookup_delete_eq | by rewrite lookup_delete_ne].
Qed.

Lemma layer_unmounted_absent (lp k : string) (g : gmap string Z) :
  g !! k = None → layer_unmounted g lp !! k = None.
Proof.
  intros Hk. unfold layer_unmounted. destruct (layer_guid lp) as [id [e|]]; [done|].
  by apply share_unmounted_absent.
Qed.

Lemma foldl_layer_unmounted_absent (layers : list string) (k : string) (g : gmap string Z) :
  g !! k = None → foldl layer_unmounted g layers !! k = None.
Proof.
  revert g. induction layers as [|lp layers IH]; intros g Hk; [done|].
  cbn. by apply IH, layer_unmounted_absent.
Qed.

Lemma unmount_post_app (l1 l2 : list string) (r0 r1 r2 : option string) (w0 w1 w2 : World) :
  unmount_post l1 r0 w0 r1 w1 →
  unmount_post l2 r1 w1 r2 w2 →
  unmount_post (l1 ++ l2) r0 w0 r2 w2.
Proof.
  intros (Hu1 & cs1 & en1 & Hh1 & Hl1 & He1 & Hw1 & Hf1)
         (Hu2 & cs2 & en2 & Hh2 & Hl2 & He2 & Hw2 & Hf2).
  assert (Hg1 : vsmbShares_guids (uvm w1) =
                foldl layer_unmounted (vsmbShares_guids (uvm w0)) l1) by (by rewrite Hu1).
  split.
  { rewrite Hu2, Hg1, Hu1, foldl_app. reflexivity. }
  exists (cs1 ++ cs2), (en1 ++ en2).
  split; [by rewrite Hh2, Hh1, app_assoc|].
  split; [by rewrite Hl2, Hl1, app_assoc|].
  split; [|split].
  - rewrite all_accepted_app, He2, He1, Hh1. tauto.
  - intros lp id Hin Hg Habs. apply elem_of_app in Hin as [Hin|Hin].
    + apply elem_of_app. left. by eapply Hw1.
    + apply elem_of_app. right. eapply Hw2; [done..|].
      rewrite Hg1. by apply foldl_layer_unmounted_absent.
  - intros pre r post x Hcs Hr.
    apply app_eq_inv in Hcs as [(k & -> & Hk)|(k & -> & Hk)].
    + destruct k as [|c k].
      * cbn in Hk. rewrite app_nil_r in Hh1.
        destruct (Hf2 [] r post x) as (lp & Hin & Hlog).
        { by rewrite Hk. } { by rewrite app_nil_r, Hh1. }
        exists lp. split; apply elem_of_app; by right.
      * cbn in Hk. injection Hk as <- ->.
        destruct (Hf1 pre r k x eq_refl Hr) as (lp & Hin & Hlog).
        exists lp. split; apply elem_of_app; by left.
    + destruct (Hf2 k r post x Hk) as (lp & Hin & Hlog).
      { by rewrite Hh1, <- app_assoc. }
      exists lp. split; apply elem_of_app; by right.
Qed.

Lemma unmount_post_step (lp : string) (retError err : option string) (w w' : World)
    (cs : list Call) (entries : list (Level * string)) :
  uvm w' = with_guids (layer_unmounted (vsmbShares_guids (uvm w)) lp) (uvm w) →
  history w' = history w ++ cs →
  logs w' = logs w ++ entries →
  (err = None ↔ retError = None ∧ all_accepted (history w) cs) →
  (∀ id, layer_guid lp = (id, None) → vsmbShares_guids (uvm w) !! id = None →
         not_mounted_warning lp ∈ entries) →
  (∀ pre r post x,
     cs = pre ++ CallModify r :: post →
     respond (history w ++ pre) (CallModify r) = Failed x →
     (DebugLevel, remove_failed_error lp r x) ∈ entries) →
  unmount_post [lp] retError w err w'.
Proof.
  intros Hu Hh Hl He Hwarn Hfail. split; [exact Hu|].
  exists cs, entries. split; [done|]. split; [done|]. split; [done|]. split.
  - intros lp' id ->%list_elem_of_singleton. apply Hwarn.
  - intros pre r post x Hcs Hx. exists lp.
    split; [by apply list_elem_of_singleton | by eapply Hfail].
Qed.

Lemma Unmount_layer_post (retError : option string) (lp : string) (w : World) :
  ∃ err w', Unmount_layer uvm_Container retError lp w = Ret err w' ∧
            unmount_post [lp] retError w err w'.
Proof.
  destruct (layer_guid lp) as [id oe] eqn:Hlg.
  assert (Hu : layer_unmounted (vsmbShares_guids (uvm w)) lp =
               match oe with
               | None => share_unmounted id (vsmbShares_guids (uvm w))
               | Some _ => vsmbShares_guids (uvm w)
               end).
  { unfold layer_unmounted. by rewrite Hlg. }
  pose proof Hlg as Hname. unfold layer_guid in Hname. unfold Unmount_layer.
  destruct (filepath_Split lp) as [dir filename]. cbn [snd] in Hname. rewrite Hname.
  destruct oe as [e|].
  - eexists _, _. split; [reflexivity|].
    apply (unmount_post_step lp retError retError w _ []
             [(WarnLevel, "may have leaked a VSMB share - failed to NameToGuid on " +:+
                          filename +:+ ": " +:+ e)]).
    + rewrite Hu, with_guids_same. reflexivity.
    + rewrite app_nil_r. reflexivity.
    + reflexivity.
    + cbn. tauto.
    + intros ? Hx. rewrite Hlg in Hx. discriminate Hx.
    + intros [|??] ? ? ? Hcs; discriminate Hcs.
  - unfold share_unmounted in Hu. munfold. cbn.
    destruct (vsmbShares_guids (uvm w) !! id) as [n|] eqn:Hid.
    + destruct (0 <? wrap_int (n - 1)) eqn:Hpos.
      * eexists _, _. split; [reflexivity|].
        apply (unmount_post_step lp retError retError w _ [] []).
        -- rewrite Hu. reflexivity.
        -- rewrite app_nil_r. reflexivity.
        -- rewrite app_nil_r. reflexivity.
        -- cbn. tauto.
        -- intros ? Hx. rewrite Hlg in Hx. injection Hx as <-. congruence.
        -- intros [|??] ? ? ? Hcs; discriminate Hcs.
      * unfold Modify. munfold. cbn. rewrite delete_insert_eq.
        set (c := CallModify (vsmb_remove_request id)).
        destruct (respond (history w) c) as [v|x] eqn:Hr; cbn.
        -- eexists _, _. split; [reflexivity|].
           apply (unmount_post_step lp retError retError w _ [c] []).
           ++ rewrite Hu. reflexivity.
           ++ reflexivity.
           ++ rewrite app_nil_r. reflexivity.
           ++ cbn. split; [intros ->; eauto | tauto].
           ++ intros ? Hx. rewrite Hlg in Hx. injection Hx as <-. congruence.
           ++ intros [|? [|??]] r post x Hcs Hx; try discriminate Hcs.
              injection Hcs as <- _. rewrite app_nil_r in Hx. unfold c in Hr. congruence.
        -- eexists _, _. split; [reflexivity|].
           apply (unmount_post_step lp retError _ w _ [c]
                    [(DebugLevel, remove_failed_error lp (vsmb_remove_request id) x)]).
           ++ rewrite Hu. reflexivity.
           ++ reflexivity.
           ++ reflexivity.
           ++ cbn. split.
              ** destruct retError; discriminate.
              ** intros (_ & (v & Hv) & _). congruence.
           ++ intros ? Hx. rewrite Hlg in Hx. injection Hx as <-. congruence.
           ++ intros [|? [|??]] r post x' Hcs Hx; try discriminate Hcs.
              injection Hcs as <- _. rewrite app_nil_r in Hx. unfold c in Hr.
              rewrite Hr in Hx. injection Hx as <-.
              by apply list_elem_of_singleton.
    + eexists _, _. split; [reflexivity|].
      apply (unmount_post_step lp retError retError w _ [] [not_mounted_warning lp]).
      * rewrite Hu, with_guids_same. reflexivity.
      * rewrite app_nil_r. reflexivity.
      * reflexivity.
      * cbn. tauto.
      * intros _ _ _. by apply list_elem_of_singleton.
      * intros [|??] ? ? ? Hcs; discriminate Hcs.
Qed.

Lemma Unmount_layers_post (layers : list string) :
  ∀ (retError : option string) (w : World),
  ∃ err w', Unmount_layers uvm_Container retError layers w = Ret err w' ∧
            unmount_post layers retError w err w'.
Proof.
  induction layers as [|lp layers IH]; intros retError w.
  - exists retError, w. split; [reflexivity|]. split; [by destruct w as [[]]|].
    exists [], []. rewrite !app_nil_r. split; [done|]. split; [done|].
    split; [cbn; tauto|]. split.
    + intros ? ? Hin. by apply elem_of_nil in Hin.
    + intros [|??] ? ? ? Hcs; discriminate Hcs.
  - destruct (Unmount_layer_post retError lp w) as (err1 & w1 & Hrun1 & Hpost1).
    destruct (IH err1 w1) as (err2 & w2 & Hrun2 & Hpost2).
    exists err2, w2. split.
    + cbn [Unmount_layers]. by rewrite (bind_Ret _ _ _ _ _ Hrun1).
    + by apply (unmount_post_app [lp] layers retError err1 err2 w w1 w2).
Qed.

Lemma Unmount_layer_exact (retError : option string) (lp : string) (w : World) :
  let g := vsmbShares_guids (uvm w) in
  ∃ w',
    Unmount_layer uvm_Container retError lp w =
      Ret (foldl accumulate retError (layer_failure (history w) g lp)) w' ∧
    vsmbShares_guids (uvm w') = layer_unmounted g lp ∧
    history w' = history w ++ layer_request g lp ∧
    logs w' = logs w ++ layer_entries (history w) g lp.
Proof.
  intros g. subst g.
  destruct (layer_guid lp) as [id oe] eqn:Hlg.
  unfold layer_entries, layer_failure, layer_request, layer_unmounted. rewrite Hlg.
  pose proof Hlg as Hname. unfold layer_guid in Hname. unfold Unmount_layer.
  destruct (filepath_Split lp) as [dir filename]. cbn [snd] in Hname |- *. rewrite Hname.
  destruct oe as [e|].
  - eexists. split; [reflexivity|]. cbn. by rewrite app_nil_r.
  - unfold share_unmounted. munfold. cbn.
    destruct (vsmbShares_guids (uvm w) !! id) as [n|] eqn:Hid.
    + destruct (0 <? wrap_int (n - 1)) eqn:Hpos.
      * eexists. split; [reflexivity|]. cbn. by rewrite !app_nil_r.
      * unfold Modify. munfold. cbn. rewrite delete_insert_eq.
        destruct (respond (history w) (CallModify (vsmb_remove_request id)))
          as [v|x] eqn:Hr; cbn.
        -- eexists. split; [reflexivity|]. cbn. by rewrite !app_nil_r.
        -- eexists. split; [reflexivity|]. cbn. done.
    + eexists. split; [reflexivity|]. cbn. by rewrite app_nil_r.
Qed.

Lemma Unmount_layers_exact (layers : list string) :
  ∀ (retError : option string) (w : World),
  ∃ w',
    Unmount_layers uvm_Container retError layers w =
      Ret (foldl accumulate retError
             (unmount_failures (history w) (vsmbShares_guids (uvm w)) layers)) w' ∧
    history w' = history w ++ unmount_requests (vsmbShares_guids (uvm w)) layers ∧
    logs w' =
      logs w ++ unmount_entries (history w) (vsmbShares_guids (uvm w)) layers.
Proof.
  induction layers as [|lp layers IH]; intros retError w.
  - exists w. cbn. by rewrite !app_nil_r.
  - destruct (Unmount_layer_exact retError lp w) as (w1 & Hrun1 & Hg1 & Hh1 & Hl1).
    destruct (IH (foldl accumulate retError
                    (layer_failure (history w) (vsmbShares_guids (uvm w)) lp)) w1)
      as (w2 & Hrun2 & Hh2 & Hl2).
    exists w2. split; [|split].
    + cbn [Unmount_layers]. rewrite (bind_Ret _ _ _ _ _ Hrun1), Hrun2.
      cbn [unmount_failures]. by rewrite foldl_app, Hg1, Hh1.
    + rewrite Hh2, Hh1, Hg1, <- app_assoc. reflexivity.
    + rewrite Hl2, Hl1, Hh1, Hg1, <- app_assoc. reflexivity.
Qed.

(** C8, as amended.  A utility-VM unmount with the operation
    [UnmountOperationVSMB] returns, and its loop handles every read-only
    layer whatever fails on the way: the share map is the one obtained by
    releasing each layer in turn.  The returned error is nil exactly when
    every Remove request sent was accepted: a refused request is logged and
    is part of the error, while a layer whose identifier is not in the map
    only gets a warning in the log.  The loop goes on after a failure and
    accumulates: the requests sent are [unmount_requests], one for each
    layer whose last reference is released, whatever the host answered to
    the earlier ones; the log receives [unmount_entries]; and the returned
    error is the messages of all the refused requests, in the order of the
    layers, folded with [accumulate] from nil. *)
Theorem Unmount_shares_best_effort (layerFolders : list string) (hostingSystem : Container)
    (sv : SchemaVersion) (w : World) :
  vm_hosted hostingSystem sv →
  (2 ≤ length layerFolders)%nat →
  vsmbShares_locked (uvm w) = false →
  let parents := take (length layerFolders - 1) layerFolders in
  let g := vsmbShares_guids (uvm w) in
  ∃ err w' cs entries,
    Unmount layerFolders hostingSystem sv UnmountOperationVSMB w = Ret err w' ∧
    uvm w' = with_guids (foldl layer_unmounted g parents) (uvm w) ∧
    history w' = history w ++ cs ∧
    logs w' = logs w ++ entries ∧
    (err = None ↔ all_accepted (history w) cs) ∧
    (∀ lp id, lp ∈ parents → layer_guid lp = (id, None) → g !! id = None →
       not_mounted_warning lp ∈ entries) ∧
    (∀ pre r post x,
       cs = pre ++ CallModify r :: post →
       respond (history w ++ pre) (CallModify r) = Failed x →
       ∃ lp, lp ∈ parents ∧ (DebugLevel, remove_failed_error lp r x) ∈ entries) ∧
    cs = unmount_requests g parents ∧
    entries = unmount_entries (history w) g parents ∧
    err = foldl accumulate None (unmount_failures (history w) g parents).
Proof.
  intros (Hs & H10 & H20 & ->) Hlen Hl parents g.
  destruct (Unmount_layers_post parents None (set_vsmb_lock true w))
    as (err & w2 & Hrun & Hu & cs & entries & Hh & Hlog & He & Hwarn & Hfail).
  destruct (Unmount_layers_exact parents None (set_vsmb_lock true w))
    as (w2' & Hrun' & Hh' & Hlog').
  rewrite Hrun in Hrun'. injection Hrun' as Herr <-.
  rewrite Hh in Hh'. apply app_inv_head in Hh'.
  rewrite Hlog in Hlog'. apply app_inv_head in Hlog'.
  exists err, (set_vsmb_lock false w2), cs, entries.
  split; [|split; [|split; [|split; [|split; [|split; [|split; [|split; [|split]]]]]]]];
    [| | | | | | | exact Hh' | exact Hlog' | exact Herr].
  - unfold Unmount. rewrite Hs, H10, H20. cbn [orb andb is_nil deref].
    destruct (Nat.ltb_spec (length layerFolders) 2) as [|_]; [lia|].
    destruct (Nat.ltb_spec 1 (length layerFolders)) as [_|]; [|lia].
    change (Z.lor UnmountOperationVSMB UnmountOperationSCSI =? UnmountOperationSCSI)
      with false.
    change (Z.lor UnmountOperationVSMB UnmountOperationVSMB =? UnmountOperationVSMB)
      with true.
    cbn [andb].
    mstep ltac:(reflexivity). mstep ltac:(reflexivity).
    erewrite bind_Ret; [reflexivity|].
    unfold Unmount_vsmb.
    mstep ltac:(by apply vsmbShares_Lock_free).
    unfold parent_layers. destruct layerFolders as [|l0 ls]; [cbn in Hlen; lia|].
    mstep ltac:(reflexivity).
    mstep ltac:(exact Hrun).
    mstep ltac:(apply vsmbShares_Unlock_held; by rewrite Hu).
    reflexivity.
  - cbn [uvm set_vsmb_lock with_uvm]. rewrite Hu.
    apply container_ext; first [reflexivity | exact (eq_sym Hl)].
  - exact Hh.
  - exact Hlog.
  - rewrite He. cbn [history set_vsmb_lock with_uvm]. tauto.
  - exact Hwarn.
  - exact Hfail.
Qed.

End UnmountShares.

(** ** Examples for the rollback and for the share loop *)

Lemma Mount_rolls_back_failed_union_witness :
  @vm_hosted refusing_union uvm_Container SchemaV20 ∧
  @only_union_assembly_fails refusing_union "refused" ∧
  registry_ok (vsmbShares_guids (uvm base_shared)) ∧
  free_slot base_shared = Some (0%nat, 1%nat) ∧
  ∃ w',
    @Mount refusing_union three_layers uvm_Container SchemaV20 base_shared =
      Ret (NoResult, Some "refused") w' ∧
    uvm w' = uvm base_shared ∧
    logs w' = [] ∧
    history w' =
      [CallModify (@vsmb_add_request refusing_union "guid-ro1" "C:\l\ro1");
       CallModify (scsi_add_request "C:\l\scratch\sandbox.vhdx" "C:\guid-scratch" 0 1);
       CallModify (combined_layers_request RequestTypeAdd
                     (combined_layers "guid-scratch" ["guid-base"; "guid-ro1"]));
       CallModify (vsmb_remove_request "guid-ro1");
       CallModify (scsi_remove_request 0 1 "")].
Proof.
  assert (Hvm : @vm_hosted refusing_union uvm_Container SchemaV20) by (repeat split).
  assert (Hfail : @only_union_assembly_fails refusing_union "refused").
  { intros h [rt rq s u hs]. destruct rt, rq; cbn; eauto. }
  assert (Hok : registry_ok (vsmbShares_guids (uvm base_shared))).
  { apply map_Forall_insert_2; [vm_compute; split; discriminate | apply map_Forall_empty]. }
  assert (Hfree : free_slot base_shared = Some (0%nat, 1%nat)) by reflexivity.
  split; [exact Hvm|]. split; [exact Hfail|]. split; [exact Hok|]. split; [exact Hfree|].
  destruct (@Mount_rolls_back_failed_union refusing_union
              "C:\l\base" "C:\l\ro1" "C:\l\scratch" "guid-base" "guid-ro1" "guid-scratch"
              "refused" 1 uvm_Container SchemaV20 base_shared
              Hvm eq_refl eq_refl eq_refl Hok eq_refl eq_refl Hfree Hfail)
    as (w' & Hrun & Hu & Hl & Hh).
  exists w'. split; [exact Hrun|]. split; [exact Hu|]. split; [exact Hl|]. exact Hh.
Defined.

(** C8 as stated fails: the first layer was never mounted, the call logs a
    warning for it and still returns nil. *)
Lemma Unmount_missing_share_not_reported :
  vsmbShares_guids (uvm one_mounted) !! "guid-nope" = None ∧
  @Unmount calm unmount_stack uvm_Container SchemaV20 UnmountOperationVSMB one_mounted =
    Ret None {| uvm := uvm (sample_uvm ∅ table_one_attached);
                history := [CallModify (vsmb_remove_request "guid-base")];
                logs := [not_mounted_warning "C:\l\nope"] |}.
Proof. split; vm_compute; reflexivity. Qed.

(** A refused Remove request is logged and returned; the loop has still
    gone through both layers. *)
Lemma Unmount_refused_remove_reported :
  @Unmount refusing_share_remove unmount_stack uvm_Container SchemaV20
     UnmountOperationVSMB one_mounted =
    Ret (Some (@remove_failed_error refusing_share_remove "C:\l\base"
                 (vsmb_remove_request "guid-base") "refused"))
        {| uvm := uvm (sample_uvm ∅ table_one_attached);
           history := [CallModify (vsmb_remove_request "guid-base")];
           logs := [not_mounted_warning "C:\l\nope";
                    (DebugLevel,
                     @remove_failed_error refusing_share_remove "C:\l\base"
                       (vsmb_remove_request "guid-base") "refused")] |}.
Proof. vm_compute; reflexivity. Qed.

Lemma Unmount_shares_best_effort_witness :
  @vm_hosted refusing_share_remove uvm_Container SchemaV20 ∧
  ∃ w',
    @Unmount refusing_share_remove refused_stack uvm_Container SchemaV20
       UnmountOperationVSMB two_last_references =
      Ret (Some (@errors_Wrapf refusing_share_remove
                   (@remove_failed_error refusing_share_remove "C:\l\base"
                      (vsmb_remove_request "guid-base") "refused")
                   (@remove_failed_error refusing_share_remove "C:\l\ro1"
                      (vsmb_remove_request "guid-ro1") "refused"))) w' ∧
    uvm w' = uvm (sample_uvm ∅ table_one_attached) ∧
    history w' = [CallModify (vsmb_remove_request "guid-base");
                  CallModify (vsmb_remove_request "guid-ro1")] ∧
    logs w' = [(DebugLevel,
                @remove_failed_error refusing_share_remove "C:\l\base"
                  (vsmb_remove_request "guid-base") "refused");
               not_mounted_warning "C:\l\nope";
               (DebugLevel,
                @remove_failed_error refusing_share_remove "C:\l\ro1"
                  (vsmb_remove_request "guid-ro1") "refused")].
Proof.
  assert (Hvm : @vm_hosted refusing_share_remove uvm_Container SchemaV20)
    by (repeat split).
  split; [exact Hvm|].
  destruct (@Unmount_shares_best_effort refusing_share_remove refused_stack
              uvm_Container SchemaV20 two_last_references Hvm ltac:(cbn; lia) eq_refl)
    as (err & w' & cs & entries & Hrun & Hu & Hh & Hl & _ & _ & _ & Hcs & Hen & Herr).
  exists w'. subst err cs entries.
  split; [exact Hrun|]. split; [|split].
  - rewrite Hu. vm_compute. reflexivity.
  - exact Hh.
  - exact Hl.
Defined.

(** * Whole stacks *)

(** ** Counts after a run of acquisitions and releases *)

Lemma occurrences_cons (k id : string) (ids : list string) :
  occurrences k (id :: ids) =
    (if decide (id = k) then 1 else 0) + occurrences k ids.
Proof.
  unfold occurrences. rewrite filter_cons.
  destruct (decide (id = k)); cbn [length]; lia.
Qed.

Lemma occurrences_nonneg (k : string) (ids : list string) : 0 ≤ occurrences k ids.
Proof. unfold occurrences. lia. Qed.

Lemma occurrences_le_length (k : string) (ids : list string) :
  occurrences k ids ≤ Z.of_nat (length ids).
Proof. unfold occurrences. pose proof (length_filter (λ x, x = k) ids). lia. Qed.

Lemma occurrences_zero (k : string) (ids : list string) :
  occurrences k ids = 0 ↔ k ∉ ids.
Proof.
  induction ids as [|id ids IH].
  - split; [intros _; apply not_elem_of_nil | done].
  - rewrite occurrences_cons, not_elem_of_cons.
    pose proof (occurrences_nonneg k ids).
    destruct (decide (id = k)) as [->|Hne].
    + split; [lia | intros [? _]; done].
    + rewrite Z.add_0_l, IH. split; [intros ?; split; [congruence | done] | tauto].
Qed.

Lemma bounded_counts_acquired (n : nat) (id : string) (g : gmap string Z) :
  bounded_counts (S n) g → bounded_counts n (share_acquired id g).
Proof.
  intros [Hn Hg]. split; [lia|].
  unfold share_acquired. destruct (g !! id) as [v|] eqn:Hid.
  - pose proof (Hg id v Hid) as Hv. cbn in Hv.
    apply map_Forall_insert_2.
    + rewrite wrap_int_id by (unfold max_int in *; lia). lia.
    + intros k v' Hk. pose proof (Hg k v' Hk) as Hv'. cbn in *. lia.
  - apply map_Forall_insert_2; [lia|].
    intros k v' Hk. pose proof (Hg k v' Hk) as Hv'. cbn in *. lia.
Qed.

Lemma bounded_counts_weaken (n m : nat) (g : gmap string Z) :
  (m ≤ n)%nat → bounded_counts n g → bounded_counts m g.
Proof.
  intros Hle [Hn Hg]. split; [lia|].
  intros k v Hk. pose proof (Hg k v Hk) as Hv. cbn in *. lia.
Qed.

Lemma bounded_counts_registry_ok (n : nat) (g : gmap string Z) :
  bounded_counts n g → registry_ok g.
Proof.
  intros [_ Hg] k v Hk. pose proof (Hg k v Hk) as Hv. cbn in *. lia.
Qed.

(** The count of every identifier after a run of acquisitions. *)
Lemma lookup_acquire_all (ids : list string) :
  ∀ (g : gmap string Z) (k : string),
    bounded_counts (length ids) g →
    acquire_all g ids !! k = acquire_count (g !! k) (occurrences k ids).
Proof.
  induction ids as [|id ids IH]; intros g k Hb; [done|].
  cbn [acquire_all foldl length] in *. fold (acquire_all (share_acquired id g) ids).
  rewrite IH by (by apply bounded_counts_acquired).
  rewrite occurrences_cons, lookup_share_acquired.
  pose proof (occurrences_nonneg k ids) as Hc.
  destruct Hb as [Hn Hg].
  unfold acquire_count.
  destruct (decide (k = id)) as [->|Hne].
  - rewrite decide_True by done.
    destruct (Z.eqb_spec (1 + occurrences id ids) 0) as [|_]; [lia|].
    destruct (g !! id) as [v|] eqn:Hid; cbn [count_of].
    + pose proof (Hg id v Hid) as Hv. cbn in Hv.
      rewrite wrap_int_id by (unfold max_int in *; lia).
      destruct (occurrences id ids =? 0) eqn:Hz; [apply Z.eqb_eq in Hz|]; f_equal; lia.
    + destruct (occurrences id ids =? 0) eqn:Hz; [apply Z.eqb_eq in Hz|]; f_equal; lia.
  - rewrite decide_False by done. by rewrite Z.add_0_l.
Qed.

(** Releasing the identifier acquired first undoes that acquisition,
    however many acquisitions followed it. *)
Lemma release_after_acquire_all (id : string) (ids : list string) (g : gmap string Z) :
  bounded_counts (S (length ids)) g →
  ∃ n, acquire_all (share_acquired id g) ids !! id = Some n ∧
       1 ≤ n ≤ max_int ∧
       (wrap_int (n - 1) = 0 ↔ g !! id = None ∧ id ∉ ids) ∧
       share_released id (acquire_all (share_acquired id g) ids) = acquire_all g ids.
Proof.
  intros Hb.
  pose proof (bounded_counts_acquired _ id _ Hb) as Hb1.
  pose proof (bounded_counts_weaken (S (length ids)) (length ids) g ltac:(lia) Hb) as Hb0.
  pose proof (occurrences_nonneg id ids) as Hc.
  pose proof (occurrences_le_length id ids) as Hcl.
  destruct Hb as [Hn Hg].
  set (b := count_of (g !! id)).
  assert (Hbr : 0 ≤ b ∧ b + 1 + Z.of_nat (length ids) ≤ max_int ∧ (b = 0 ↔ g !! id = None)).
  { subst b. destruct (g !! id) as [v|] eqn:Hid; cbn.
    - pose proof (Hg id v Hid) as Hv. cbn in Hv. split; [lia|]. split; [lia|].
      split; [lia | done].
    - split; [lia|]. split; [lia|]. done. }
  assert (Hl : acquire_all (share_acquired id g) ids !! id = Some (b + 1 + occurrences id ids)).
  { rewrite lookup_acquire_all, lookup_share_acquired by done.
    rewrite decide_True by done. unfold acquire_count. subst b.
    destruct (g !! id) as [v|] eqn:Hid; cbn [count_of].
    - pose proof (Hg id v Hid) as Hv. cbn in Hv.
      rewrite wrap_int_id by (unfold max_int in *; lia).
      destruct (occurrences id ids =? 0) eqn:Hz; [apply Z.eqb_eq in Hz|]; f_equal; lia.
    - destruct (occurrences id ids =? 0) eqn:Hz; [apply Z.eqb_eq in Hz|]; f_equal; lia. }
  assert (Hw : wrap_int (b + 1 + occurrences id ids - 1) = b + occurrences id ids).
  { rewrite wrap_int_id by (unfold max_int in *; lia). lia. }
  exists (b + 1 + occurrences id ids). split; [exact Hl|]. split; [lia|]. split.
  - rewrite Hw, <- occurrences_zero. destruct Hbr as (? & ? & Hb0'). rewrite <- Hb0'. lia.
  - apply map_eq. intros k. rewrite lookup_share_released, Hl, Hw.
    rewrite (lookup_acquire_all ids g k) by done.
    destruct (decide (k = id)) as [->|Hne].
    + unfold acquire_count. fold b.
      destruct (Z.eqb_spec (b + occurrences id ids) 0) as [Hz|Hnz].
      * assert (occurrences id ids = 0) as -> by lia. cbn.
        destruct Hbr as (? & ? & Hb0'). symmetry. apply Hb0'. lia.
      * destruct (Z.eqb_spec (occurrences id ids) 0) as [Hz|_]; [|done].
        rewrite Hz, Z.add_0_r in *. subst b.
        destruct (g !! id) as [v|]; cbn in *; [done | lia].
    + rewrite lookup_acquire_all, lookup_share_acquired by done.
      by rewrite decide_False.
Qed.

(** Releasing, in the same order, everything a run of acquisitions
    acquired gives the map back. *)
Lemma release_all_acquire_all (ids : list string) :
  ∀ g, bounded_counts (length ids) g → release_all (acquire_all g ids) ids = g.
Proof.
  induction ids as [|id ids IH]; intros g Hb; [done|].
  cbn [release_all acquire_all foldl]. fold (acquire_all (share_acquired id g) ids).
  destruct (release_after_acquire_all id ids g Hb) as (n & _ & _ & _ & ->).
  apply IH. eapply bounded_counts_weaken; [|exact Hb]. cbn. lia.
Qed.

Lemma share_unmounted_released (id : string) (g : gmap string Z) :
  (∀ n, g !! id = Some n → 1 ≤ n ≤ max_int) →
  share_unmounted id g = share_released id g.
Proof.
  intros Hn. unfold share_unmounted, share_released.
  destruct (g !! id) as [n|] eqn:Hid; [|done].
  specialize (Hn n eq_refl).
  rewrite wrap_int_id by (unfold max_int in *; lia).
  destruct (Z.ltb_spec 0 (n - 1)), (Z.eqb_spec (n - 1) 0); try done; lia.
Qed.

(** ** The bulk rollback of shares *)

Section BulkRelease.
Context `{P : Platform}.

(** One release, whatever the compute service answers. *)
Lemma removeVSMB_state (id : string) (w : World) :
  ∃ err w',
    removeVSMB uvm_Container id w = Ret err w' ∧
    uvm w' = with_guids (share_released id (vsmbShares_guids (uvm w))) (uvm w) ∧
    history w' = history w ++ release_requests (vsmbShares_guids (uvm w)) [id] ∧
    logs w' = logs w.
Proof.
  unfold share_released. cbn [release_requests]. rewrite app_nil_r.
  destruct (vsmbShares_guids (uvm w) !! id) as [n|] eqn:Hid.
  - destruct (Z.eqb_spec (wrap_int (n - 1)) 0) as [Hz|Hnz].
    + eexists _, _. split; [by apply (removeVSMB_last id n w)|]. by cbn.
    + eexists _, _. split; [by apply (removeVSMB_shared id n w)|].
      cbn. by rewrite app_nil_r.
  - eexists _, _. split; [by apply removeVSMB_absent|].
    by rewrite with_guids_same, app_nil_r.
Qed.

Lemma removeVSMB_each_state (ids : list string) :
  ∀ w, ∃ w' entries,
    removeVSMB_each uvm_Container ids w = Ret tt w' ∧
    uvm w' = with_guids (release_all (vsmbShares_guids (uvm w)) ids) (uvm w) ∧
    history w' = history w ++ release_requests (vsmbShares_guids (uvm w)) ids ∧
    logs w' = logs w ++ entries ∧
    Forall (λ entry, entry.1 = WarnLevel) entries.
Proof.
  induction ids as [|id ids IH]; intros w.
  - exists w, []. rewrite !app_nil_r. cbn. by rewrite with_guids_same.
  - destruct (removeVSMB_state id w) as (err & w1 & Hrun & Hu & Hh & Hl).
    cbn [release_requests] in Hh. rewrite app_nil_r in Hh.
    set (logged := match err with
                   | Some e =>
                       push_log WarnLevel
                         ("Possibly leaked vsmbshare on error removal path: " +:+ e) w1
                   | None => w1
                   end).
    destruct (IH logged) as (w2 & entries & Hrun2 & Hu2 & Hh2 & Hl2 & Hwarn).
    assert (Hul : uvm logged = uvm w1) by (subst logged; by destruct err).
    assert (Hhl : history logged = history w1) by (subst logged; by destruct err).
    exists w2, (match err with
                | Some e => [(WarnLevel,
                              "Possibly leaked vsmbshare on error removal path: " +:+ e)]
                | None => []
                end ++ entries).
    split; [|split; [|split; [|split]]].
    + cbn [removeVSMB_each]. rewrite (bind_Ret _ _ _ _ _ Hrun).
      erewrite bind_Ret; [exact Hrun2|]. subst logged. by destruct err.
    + rewrite Hu2, Hul, Hu. reflexivity.
    + rewrite Hh2, Hhl, Hul, Hu, Hh. cbn [release_requests vsmbShares_guids with_guids].
      unfold share_released. by rewrite <- app_assoc.
    + rewrite Hl2. subst logged. destruct err; cbn; rewrite Hl; [|done].
      by rewrite <- app_assoc.
    + destruct err; [constructor; [done|]|]; exact Hwarn.
Qed.

End BulkRelease.

Section BulkRollback.
Context `{P : Platform}.

Lemma removeVSMBOnFailure_state (toRemove : list string) (w : World) :
  vsmbShares_locked (uvm w) = false →
  ∃ w' entries,
    removeVSMBOnFailure uvm_Container toRemove w = Ret tt w' ∧
    uvm w' = with_guids (release_all (vsmbShares_guids (uvm w)) toRemove) (uvm w) ∧
    history w' = history w ++ release_requests (vsmbShares_guids (uvm w)) toRemove ∧
    logs w' = logs w ++ entries ∧
    Forall (λ entry, entry.1 = WarnLevel) entries.
Proof.
  intros Hl. unfold removeVSMBOnFailure.
  destruct (decide (length toRemove = 0%nat)) as [Hnil|Hne].
  - apply nil_length_inv in Hnil as ->. exists w, [].
    rewrite !app_nil_r. cbn. by rewrite with_guids_same.
  - destruct (removeVSMB_each_state toRemove (set_vsmb_lock true w))
      as (w1 & entries & Hrun & Hu & Hh & Hlog & Hwarn).
    exists (set_vsmb_lock false w1), entries.
    split; [|split; [|split; [|split]]]; [|..|exact Hwarn].
    + cbn [deref]. mstep ltac:(reflexivity).
      mstep ltac:(by apply vsmbShares_Lock_free).
      erewrite defer_Ret; [|exact Hrun].
      mstep ltac:(apply vsmbShares_Unlock_held; by rewrite Hu).
      reflexivity.
    + cbn [uvm set_vsmb_lock with_uvm]. rewrite Hu.
      apply container_ext; first [reflexivity | exact (eq_sym Hl)].
    + exact Hh.
    + exact Hlog.
Qed.


(** ** The share loop of Mount over a whole stack *)

Lemma layer_guid_pair (lp : string) :
  (layer_guid lp).2 = None → layer_guid lp = ((layer_guid lp).1, None).
Proof. destruct (layer_guid lp) as [id o]. cbn. by intros ->. Qed.

Lemma all_accepted_cons_inv (h : list Call) (c : Call) (cs : list Call) :
  all_accepted h (c :: cs) → (∃ v, respond h c = Done v) ∧ all_accepted (h ++ [c]) cs.
Proof. done. Qed.

Lemma Mount_layers_acquire_all (layers : list string) :
  ∀ (vsmbAdded : list string) (w : World),
    layers_have_guids layers →
    all_accepted (history w) (share_adds (vsmbShares_guids (uvm w)) layers) →
    Mount_layers uvm_Container vsmbAdded layers w =
      Ret (inl (vsmbAdded ++ layer_ids layers))
          (set_guids (acquire_all (vsmbShares_guids (uvm w)) (layer_ids layers))
             (push_calls (share_adds (vsmbShares_guids (uvm w)) layers) w)).
Proof.
  induction layers as [|lp layers IH]; intros vsmbAdded w Hguids Hacc.
  - cbn. rewrite app_nil_r. unfold push_calls. rewrite app_nil_r.
    by destruct w as [[]].
  - apply Forall_cons in Hguids as [Hlp Hguids].
    apply layer_guid_pair in Hlp.
    cbn [share_adds] in Hacc. apply all_accepted_app in Hacc as [Hacc1 Hacc2].
    cbn [Mount_layers].
    mstep ltac:(apply (Mount_layer_acquires vsmbAdded lp _ w Hlp);
                intros Habs; rewrite Habs in Hacc1; apply Hacc1).
    rewrite IH; [|done|].
    + cbn [layer_ids fmap list_fmap share_adds acquire_all foldl].
      rewrite <- app_assoc. f_equal.
      unfold set_guids, push_calls, with_uvm. cbn. by rewrite <- app_assoc.
    + cbn. destruct (vsmbShares_guids (uvm w) !! (layer_guid lp).1); exact Hacc2.
Qed.

End BulkRollback.

(** ** A successful utility-VM mount *)

Lemma World_ext (w w' : World) :
  uvm w = uvm w' → history w = history w' → logs w = logs w' → w = w'.
Proof. destruct w, w'; cbn; by intros -> -> ->. Qed.

Lemma parent_layers_last (layerFolders : list string) (scratch : string) (w : World) :
  last layerFolders = Some scratch →
  parent_layers layerFolders w =
    Ret (take (length layerFolders - 1) layerFolders) w ∧
  last_layer layerFolders w = Ret scratch w.
Proof.
  intros Hlast. unfold parent_layers, last_layer. rewrite Hlast.
  by destruct layerFolders.
Qed.

Section MountSuccess.
Context `{P : Platform}.

Lemma Mount_hosted_runs (layerFolders : list string) (scratch gs : string) (lun : nat)
    (hostingSystem : Container) (sv : SchemaVersion) (w : World) :
  vm_hosted hostingSystem sv →
  last layerFolders = Some scratch →
  let parents := take (length layerFolders - 1) layerFolders in
  let g := vsmbShares_guids (uvm w) in
  let ids := layer_ids parents in
  let requests := share_adds g parents ++ sandbox_requests scratch gs ids (Z.of_nat lun) in
  layers_have_guids parents →
  layer_guid scratch = (gs, None) →
  vsmbShares_locked (uvm w) = false →
  scsiLocations_locked (uvm w) = false →
  free_slot w = Some (0%nat, lun) →
  all_accepted (history w) requests →
  ∃ t',
    table_set (scsiLocations_hostPath (uvm w)) 0 (Z.of_nat lun)
      (filepath_Join scratch "sandbox.vhdx") = Some t' ∧
    Mount layerFolders hostingSystem sv w =
      Ret (MountedLayers (combined_layers gs ids), None)
          (set_hostPath t' (set_guids (acquire_all g ids) (push_calls requests w))).
Proof.
  intros (Hs & H10 & H20 & ->) Hlast parents g ids requests Hguids Hgs Hvl Hsl Hfree Hacc.
  subst requests. apply all_accepted_app in Hacc as [Hadds Hrest].
  cbn [sandbox_requests all_accepted] in Hrest.
  destruct Hrest as (Hdisk & Hunion & _).
  unfold Mount. rewrite Hs, H10, H20. cbn [orb andb is_nil deref].
  mstep ltac:(reflexivity).
  mstep ltac:(by apply vsmbShares_Lock_free).
  mstep ltac:(apply (parent_layers_last layerFolders scratch), Hlast).
  fold parents.
  mstep ltac:(apply Mount_layers_acquire_all; [exact Hguids | exact Hadds]).
  cbn [app]. fold ids.
  change (vsmbShares_guids (uvm (set_vsmb_lock true w))) with g.
  mstep ltac:(by apply vsmbShares_Unlock_held).
  unfold Mount_sandbox.
  mstep ltac:(apply (parent_layers_last layerFolders scratch), Hlast).
  unfold layer_guid in Hgs. destruct (filepath_Split scratch) as [dir sandboxPath].
  cbn [snd] in Hgs. rewrite Hgs.
  match goal with |- context [mbind _ _ ?x] => set (w3 := x) end.
  destruct (allocateSCSI_reserves (filepath_Join scratch "sandbox.vhdx")
              ("C:\" +:+ gs) 0 lun w3 Hsl Hfree) as (t' & Hset & Halloc).
  exists t'. split; [exact Hset|].
  mstep ltac:(exact Halloc).
  change (0 <? Z.of_nat 0) with false. cbv beta iota.
  mstep ltac:(apply Modify_accepted; exact Hdisk).
  mstep ltac:(apply Modify_accepted; exact Hunion).
  unfold mret, M_ret. f_equal. subst w3.
  apply World_ext.
  - apply container_ext; first [reflexivity | exact (eq_sym Hvl)].
  - autorewrite with world_history. by rewrite <- !app_assoc.
  - reflexivity.
Qed.

End MountSuccess.

Section MountOutcomes.
Context `{P : Platform}.

(** X2. A utility-VM mount in which every request is accepted returns
    the combined layers of the whole stack: one layer entry per read-only
    layer, in order, under the root derived from the sandbox name.  It sends
    an Add for each identifier that was not yet shared, the Add of the
    sandbox disk at the first free slot and the Add of the combined layers.
    Afterwards that slot holds the sandbox disk, both mutexes are free, and
    (when the counts have room) the count of every identifier has grown by
    the number of read-only layers that carry it. *)
Theorem Mount_hosted_success (layerFolders : list string) (scratch gs : string) (lun : nat)
    (hostingSystem : Container) (sv : SchemaVersion) (w : World) :
  vm_hosted hostingSystem sv →
  last layerFolders = Some scratch →
  let parents := take (length layerFolders - 1) layerFolders in
  let g := vsmbShares_guids (uvm w) in
  let ids := layer_ids parents in
  let requests := share_adds g parents ++ sandbox_requests scratch gs ids (Z.of_nat lun) in
  layers_have_guids parents →
  layer_guid scratch = (gs, None) →
  vsmbShares_locked (uvm w) = false →
  scsiLocations_locked (uvm w) = false →
  free_slot w = Some (0%nat, lun) →
  all_accepted (history w) requests →
  ∃ w',
    Mount layerFolders hostingSystem sv w =
      Ret (MountedLayers (combined_layers gs ids), None) w' ∧
    length (Layers (combined_layers gs ids)) = length parents ∧
    vsmbShares_guids (uvm w') = acquire_all g ids ∧
    (bounded_counts (length parents) g →
     ∀ id, vsmbShares_guids (uvm w') !! id =
             acquire_count (g !! id) (occurrences id ids)) ∧
    table_set (scsiLocations_hostPath (uvm w)) 0 (Z.of_nat lun)
      (filepath_Join scratch "sandbox.vhdx") = Some (scsiLocations_hostPath (uvm w')) ∧
    vsmbShares_locked (uvm w') = false ∧
    scsiLocations_locked (uvm w') = false ∧
    history w' = history w ++ requests ∧
    logs w' = logs w.
Proof.
  intros Hvm Hlast parents g ids requests Hguids Hgs Hvl Hsl Hfree Hacc.
  destruct (Mount_hosted_runs layerFolders scratch gs lun hostingSystem sv w
              Hvm Hlast Hguids Hgs Hvl Hsl Hfree Hacc) as (t' & Hset & Hrun).
  eexists. split; [exact Hrun|].
  split; [|split; [|split; [|split; [|split; [|split; [|split]]]]]];
    try reflexivity; try done.
  - cbn. unfold ids, layer_ids. by rewrite !length_fmap.
  - intros Hb id. cbn. apply lookup_acquire_all.
    unfold ids, layer_ids. by rewrite length_fmap.
Qed.

Lemma Mount_layers_app (hostingSystem : Container) (l1 l2 : list string) :
  ∀ (a a' : list string) (w w1 : World),
    Mount_layers hostingSystem a l1 w = Ret (inl a') w1 →
    Mount_layers hostingSystem a (l1 ++ l2) w = Mount_layers hostingSystem a' l2 w1.
Proof.
  induction l1 as [|lp l1 IH]; intros a a' w w1 Hrun.
  - cbn in Hrun. by injection Hrun as -> ->.
  - cbn [Mount_layers app] in *. unfold mbind, M_bind in *.
    destruct (Mount_layer hostingSystem a lp w) as [[a1|e] w0|w0|w0]; try done.
    by apply IH.
Qed.

Lemma Mount_layer_refused (vsmbAdded : list string) (lp id e : string) (w : World) :
  layer_guid lp = (id, None) →
  vsmbShares_guids (uvm w) !! id = None →
  respond (history w) (CallModify (vsmb_add_request id lp)) = Failed e →
  vsmbShares_locked (uvm w) = true →
  Mount_layer uvm_Container vsmbAdded lp w =
    (removeVSMBOnFailure uvm_Container vsmbAdded ≫= λ _, mret (inr e))
      (set_vsmb_lock false (push_call (CallModify (vsmb_add_request id lp)) w)).
Proof.
  unfold layer_guid, Mount_layer. intros Hg Habs Hr Hl.
  destruct (filepath_Split lp) as [dir filename]. cbn in Hg. rewrite Hg.
  mstep ltac:(reflexivity). rewrite Habs.
  mstep ltac:(by apply Modify_refused).
  mstep ltac:(by apply vsmbShares_Unlock_held).
  reflexivity.
Qed.

(** X3. When the Add of a share is refused at any layer of the
    stack, the utility-VM mount returns that error and the utility VM is as
    before the call: the shares of the earlier layers are released again and
    the mutex is free.  This holds whatever the answers to the Remove
    requests of the rollback are. *)
Theorem Mount_share_add_refused_rolls_back (layerFolders pre post : list string)
    (lp id e : string) (hostingSystem : Container) (sv : SchemaVersion) (w : World) :
  vm_hosted hostingSystem sv →
  take (length layerFolders - 1) layerFolders = pre ++ lp :: post →
  let g := vsmbShares_guids (uvm w) in
  let ids := layer_ids pre in
  let add := CallModify (vsmb_add_request id lp) in
  layers_have_guids pre →
  layer_guid lp = (id, None) →
  g !! id = None → id ∉ ids →
  bounded_counts (length pre) g →
  vsmbShares_locked (uvm w) = false →
  all_accepted (history w) (share_adds g pre) →
  respond (history w ++ share_adds g pre) add = Failed e →
  ∃ w' entries,
    Mount layerFolders hostingSystem sv w = Ret (NoResult, Some e) w' ∧
    uvm w' = uvm w ∧
    history w' =
      history w ++ share_adds g pre ++ [add] ++ release_requests (acquire_all g ids) ids ∧
    logs w' = logs w ++ entries ∧
    Forall (λ entry, entry.1 = WarnLevel) entries.
Proof.
  intros (Hs & H10 & H20 & ->) Hparents g ids add Hguids Hlp Habs Hnotin Hb Hl Hacc Hr.
  assert (Hlen : length ids = length pre) by (unfold ids, layer_ids; by rewrite length_fmap).
  assert (Habs' : acquire_all g ids !! id = None).
  { rewrite lookup_acquire_all by (by rewrite Hlen).
    apply occurrences_zero in Hnotin. unfold acquire_count. by rewrite Hnotin. }
  set (w2 := set_guids (acquire_all g ids) (push_calls (share_adds g pre) (set_vsmb_lock true w))).
  destruct (removeVSMBOnFailure_state ids (set_vsmb_lock false (push_call add w2)) eq_refl)
    as (w' & entries & Hroll & Hu & Hh & Hlog & Hwarn).
  exists w', entries.
  split; [|split; [|split; [|split]]]; [| | | exact Hlog | exact Hwarn].
  - unfold Mount. rewrite Hs, H10, H20. cbn [orb andb is_nil deref].
    mstep ltac:(reflexivity).
    mstep ltac:(by apply vsmbShares_Lock_free).
    assert (Hne : layerFolders ≠ []).
    { intros ->. cbn in Hparents. by destruct pre. }
    unfold parent_layers at 1. destruct layerFolders as [|l0 ls]; [done|].
    mstep ltac:(reflexivity). rewrite Hparents.
    erewrite bind_Ret; cycle 1.
    { erewrite Mount_layers_app;
        [|apply Mount_layers_acquire_all; [exact Hguids | exact Hacc]].
      cbn [Mount_layers app]. fold ids.
      change (vsmbShares_guids (uvm (set_vsmb_lock true w))) with g. fold w2.
      erewrite bind_Ret; cycle 1.
      { rewrite (Mount_layer_refused ids lp id e w2 Hlp Habs'); [|exact Hr|reflexivity].
        fold add. by rewrite (bind_Ret _ _ _ _ _ Hroll). }
      reflexivity. }
    reflexivity.
  - rewrite Hu. apply container_ext; try reflexivity; [exact (eq_sym Hl)|].
    cbn. fold g. apply release_all_acquire_all. by rewrite Hlen.
  - rewrite Hh. subst w2. autorewrite with world_history.
    by rewrite <- !app_assoc.
Qed.

End MountOutcomes.

(** ** Unmount: detaching the sandbox *)

Section UnmountSandbox.
Context `{P : Platform}.

Lemma attached_slot_get (w : World) (hostPath : string) (controller lun : nat) :
  attached_slot w hostPath = Some (controller, lun) →
  table_get (scsiLocations_hostPath (uvm w)) (Z.of_nat controller) (Z.of_nat lun)
    = Some hostPath.
Proof.
  intros H. apply first_slot_lookup in H as (_ & luns & hp & Ht & Hl & ->).
  rewrite Nat.sub_0_r in Ht. unfold table_get.
  destruct (Z.leb_spec 0 (Z.of_nat controller)); [|lia].
  destruct (Z.leb_spec 0 (Z.of_nat lun)); [|lia].
  cbn. rewrite !Nat2Z.id, Ht. cbn. done.
Qed.

(** The sandbox section of [Unmount] (lines 673-705). *)
Lemma Unmount_scsi_runs (layerFolders : list string) (scratch : string) (w : World) :
  last layerFolders = Some scratch →
  scsiLocations_locked (uvm w) = false →
  let file := filepath_Join scratch "sandbox.vhdx" in
  ∃ err w' entries,
    Unmount_scsi layerFolders uvm_Container None w = Ret err w' ∧
    uvm w' = with_hostPath (scsiLocations_hostPath (uvm w')) (uvm w) ∧
    logs w' = logs w ++ entries ∧
    match attached_slot w file with
    | None =>
        err = None ∧
        scsiLocations_hostPath (uvm w') = scsiLocations_hostPath (uvm w) ∧
        history w' = history w ++ teardown_requests scratch ∧
        (WarnLevel, "sandbox " +:+ file +:+ " is not attached to SCSI - cannot remove!")
          ∈ entries
    | Some (controller, lun) =>
        let remove := sandbox_remove_request scratch controller lun in
        history w' = history w ++ teardown_requests scratch ++ [remove] ∧
        match respond (history w ++ teardown_requests scratch) remove with
        | Done _ =>
            err = None ∧
            table_set (scsiLocations_hostPath (uvm w))
              (Z.of_nat controller) (Z.of_nat lun) ""
              = Some (scsiLocations_hostPath (uvm w'))
        | Failed x =>
            err = Some ("failed to remove SCSI " +:+ file +:+ ": " +:+ x) ∧
            scsiLocations_hostPath (uvm w') = scsiLocations_hostPath (uvm w)
        end
    end.
Proof.
  intros Hlast Hsl file.
  unfold Unmount_scsi, teardown_requests, sandbox_remove_request, layer_guid.
  mstep ltac:(apply (parent_layers_last layerFolders scratch), Hlast).
  destruct (filepath_Split scratch) as [dir sandboxPath]. cbn [snd].
  fold file.
  pose proof (attached_slot_get w file) as Hget.
  unfold attached_slot in *.
  destruct w as [[cid vl g sl t] h lg]. cbn in Hsl, Hget. subst sl.
  destruct (NameToGuid sandboxPath) as [guid [e|]]; cbn [fst].
  all: unfold Modify, removeSCSI, Modify, findSCSIAttachment, store_hostPath,
         scsiLocations_Lock, scsiLocations_Unlock, accumulate; munfold; cbn.
  all: try destruct (respond h (CallModify (combined_layers_request RequestTypeRemove _)))
         as [v0|x0]; cbn.
  all: destruct (first_slot (λ hp, hp = file) t 0) as [[c l]|] eqn:Hslot; cbn.
  all: try (destruct (table_set_get _ _ _ file "" (Hget c l eq_refl)) as (t' & Hset & _)).
  all: try rewrite app_nil_r.
  all: try match goal with
       | |- context [respond ?hh (CallModify (scsi_remove_request ?a ?b ?c))] =>
           destruct (respond hh (CallModify (scsi_remove_request a b c))) as [v1|x1]; cbn
       end.
  all: try rewrite Hset; cbn.
  all: eexists _, _, _; split; [reflexivity|]; cbn.
  all: split; [reflexivity|].
  all: split; [first [reflexivity | (rewrite <- app_assoc; reflexivity)
                     | (symmetry; apply app_nil_r)]|].
  all: rewrite <- ?app_assoc; cbn [app].
  all: repeat split; try reflexivity.
  all: rewrite !elem_of_cons; auto.
Qed.

(** The utility-VM unmount with the operation [UnmountOperationSCSI] runs
    the sandbox section and nothing else. *)
Lemma Unmount_hosted_SCSI_is_scsi (layerFolders : list string)
    (hostingSystem : Container) (sv : SchemaVersion) (w : World) err w' :
  vm_hosted hostingSystem sv →
  (2 ≤ length layerFolders)%nat →
  Unmount_scsi layerFolders uvm_Container None w = Ret err w' →
  Unmount layerFolders hostingSystem sv UnmountOperationSCSI w = Ret err w'.
Proof.
  intros (Hs & H10 & H20 & ->) Hlen Hrun.
  unfold Unmount. rewrite Hs, H10, H20. cbn [orb andb is_nil deref].
  destruct (Nat.ltb_spec (length layerFolders) 2); [lia|].
  change (Z.lor UnmountOperationSCSI UnmountOperationSCSI =? UnmountOperationSCSI)
    with true.
  change (Z.lor UnmountOperationSCSI UnmountOperationVSMB =? UnmountOperationVSMB)
    with false.
  rewrite andb_false_r.
  mstep ltac:(reflexivity).
  mstep ltac:(exact Hrun).
  reflexivity.
Qed.

End UnmountSandbox.
(** ** The attachment table, slot by slot *)

Lemma table_set_frame (t t' : list (list string)) (controller lun : Z) (v : string) :
  table_set t controller lun v = Some t' →
  ∀ controller' lun',
    table_get t' controller' lun' =
      if decide (controller' = controller ∧ lun' = lun) then Some v
      else table_get t controller' lun'.
Proof.
  unfold table_set, table_get. intros Hset c' l'.
  destruct (Z.leb_spec 0 controller); [|done].
  destruct (Z.leb_spec 0 lun); [|done]. cbn [andb] in Hset.
  destruct (t !! Z.to_nat controller) as [luns|] eqn:Ht; [|done].
  destruct (Z.ltb_spec lun (Z.of_nat (length luns))); [|done].
  injection Hset as <-.
  destruct (decide (c' = controller ∧ l' = lun)) as [[-> ->]|Hne].
  - destruct (Z.leb_spec 0 controller); [|lia].
    destruct (Z.leb_spec 0 lun); [|lia]. cbn [andb].
    rewrite list_lookup_insert_eq by (apply lookup_lt_Some in Ht; lia). cbn.
    apply list_lookup_insert_eq. lia.
  - destruct (Z.leb_spec 0 c'); [|done].
    destruct (Z.leb_spec 0 l'); [|done]. cbn [andb].
    destruct (decide (Z.to_nat c' = Z.to_nat controller)) as [Hc|Hc].
    + rewrite Hc, Ht.
      rewrite list_lookup_insert_eq by (apply lookup_lt_Some in Ht; lia). cbn.
      apply list_lookup_insert_ne. intros Hl. apply Hne. split; lia.
    + by rewrite list_lookup_insert_ne.
Qed.

(** A host path stored in the table where it did not occur is the slot
    the reverse lookup finds. *)
Lemma first_slot_stored (hostPath : string) (t : list (list string)) :
  ∀ (k controller lun : nat) (luns : list string),
    first_slot (λ hp, hp = hostPath) t k = None →
    t !! controller = Some luns →
    (lun < length luns)%nat →
    first_slot (λ hp, hp = hostPath)
      (<[controller := <[lun := hostPath]> luns]> t) k = Some ((k + controller)%nat, lun).
Proof.
  induction t as [|row t IH]; intros k controller lun luns Hnone Ht Hlun; [done|].
  cbn [first_slot] in Hnone.
  destruct (list_find (λ hp, hp = hostPath) row) as [[i x]|] eqn:Hrow; [done|].
  destruct controller as [|controller]; cbn in Ht |- *.
  - injection Ht as ->.
    assert (Hfind : list_find (λ hp, hp = hostPath) (<[lun := hostPath]> luns)
                    = Some (lun, hostPath)).
    { apply list_find_Some. split; [by apply list_lookup_insert_eq|]. split; [done|].
      intros j y Hj Hlt. rewrite list_lookup_insert_ne in Hj by lia.
      apply list_find_None in Hrow. rewrite Forall_forall in Hrow.
      apply Hrow. apply list_elem_of_lookup. by exists j. }
    rewrite Hfind. by rewrite Nat.add_0_r.
  - rewrite Hrow.
    transitivity (Some ((S k + controller)%nat, lun));
      [exact (IH (S k) controller lun luns Hnone Ht Hlun) | do 2 f_equal; lia].
Qed.

(** ** Unmount: the outcomes of detaching the sandbox *)

Section UnmountSandboxOutcomes.
Context `{P : Platform}.

(** X5. When the sandbox disk of the stack is attached and the host accepts its
    removal, a utility-VM unmount with [UnmountOperationSCSI] returns nil
    and frees exactly that slot: every other slot, the share map and both
    mutexes are as before.  It sends the removal of the combined layers
    (when the sandbox name has a GUID) and then the removal of the disk. *)
Theorem Unmount_SCSI_detaches (layerFolders : list string) (scratch v : string)
    (controller lun : nat) (hostingSystem : Container) (sv : SchemaVersion) (w : World) :
  vm_hosted hostingSystem sv →
  (2 ≤ length layerFolders)%nat →
  last layerFolders = Some scratch →
  scsiLocations_locked (uvm w) = false →
  let file := filepath_Join scratch "sandbox.vhdx" in
  let remove := sandbox_remove_request scratch controller lun in
  attached_slot w file = Some (controller, lun) →
  respond (history w ++ teardown_requests scratch) remove = Done v →
  ∃ w',
    Unmount layerFolders hostingSystem sv UnmountOperationSCSI w = Ret None w' ∧
    slot_free w' (Z.of_nat controller) (Z.of_nat lun) ∧
    (∀ controller' lun',
       ¬ (controller' = Z.of_nat controller ∧ lun' = Z.of_nat lun) →
       table_get (scsiLocations_hostPath (uvm w')) controller' lun' =
         table_get (scsiLocations_hostPath (uvm w)) controller' lun') ∧
    vsmbShares_guids (uvm w') = vsmbShares_guids (uvm w) ∧
    vsmbShares_locked (uvm w') = vsmbShares_locked (uvm w) ∧
    scsiLocations_locked (uvm w') = false ∧
    history w' = history w ++ teardown_requests scratch ++ [remove].
Proof.
  intros Hvm Hlen Hlast Hsl file remove Hslot Hr.
  destruct (Unmount_scsi_runs layerFolders scratch w Hlast Hsl)
    as (err & w' & entries & Hrun & Hu & _ & Hcase).
  fold file in Hcase. rewrite Hslot in Hcase. cbv zeta in Hcase.
  fold remove in Hcase. destruct Hcase as [Hh Hcase]. rewrite Hr in Hcase.
  destruct Hcase as [-> Hset].
  exists w'. split; [by apply Unmount_hosted_SCSI_is_scsi|].
  pose proof (table_set_frame _ _ _ _ _ Hset) as Hframe.
  split; [|split; [|split; [|split; [|split]]]].
  - unfold slot_free. rewrite Hframe. by rewrite decide_True.
  - intros c' l' Hne. rewrite Hframe. by rewrite decide_False.
  - by rewrite Hu.
  - by rewrite Hu.
  - rewrite Hu. exact Hsl.
  - exact Hh.
Qed.

(** X6. When the sandbox disk of the stack is not in the attachment table, a
    utility-VM unmount with [UnmountOperationSCSI] still returns nil: the
    miss is only a warning in the log, the utility VM is as before, and no
    disk removal is sent. *)
Theorem Unmount_SCSI_not_attached (layerFolders : list string) (scratch : string)
    (hostingSystem : Container) (sv : SchemaVersion) (w : World) :
  vm_hosted hostingSystem sv →
  (2 ≤ length layerFolders)%nat →
  last layerFolders = Some scratch →
  scsiLocations_locked (uvm w) = false →
  let file := filepath_Join scratch "sandbox.vhdx" in
  attached_slot w file = None →
  ∃ w' entries,
    Unmount layerFolders hostingSystem sv UnmountOperationSCSI w = Ret None w' ∧
    uvm w' = uvm w ∧
    history w' = history w ++ teardown_requests scratch ∧
    logs w' = logs w ++ entries ∧
    (WarnLevel, "sandbox " +:+ file +:+ " is not attached to SCSI - cannot remove!")
      ∈ entries.
Proof.
  intros Hvm Hlen Hlast Hsl file Hslot.
  destruct (Unmount_scsi_runs layerFolders scratch w Hlast Hsl)
    as (err & w' & entries & Hrun & Hu & Hlog & Hcase).
  fold file in Hcase. rewrite Hslot in Hcase.
  destruct Hcase as (-> & Ht & Hh & Hwarn).
  exists w', entries. split; [by apply Unmount_hosted_SCSI_is_scsi|].
  split; [|done].
  rewrite Hu, Ht. by destruct (uvm w).
Qed.

(** X7. When the host refuses the removal of the sandbox disk, a utility-VM
    unmount with [UnmountOperationSCSI] returns an error that names the
    disk and carries the refusal, and the utility VM is as before: the slot
    still holds the disk. *)
Theorem Unmount_SCSI_refused_keeps_slot (layerFolders : list string) (scratch x : string)
    (controller lun : nat) (hostingSystem : Container) (sv : SchemaVersion) (w : World) :
  vm_hosted hostingSystem sv →
  (2 ≤ length layerFolders)%nat →
  last layerFolders = Some scratch →
  scsiLocations_locked (uvm w) = false →
  let file := filepath_Join scratch "sandbox.vhdx" in
  let remove := sandbox_remove_request scratch controller lun in
  attached_slot w file = Some (controller, lun) →
  respond (history w ++ teardown_requests scratch) remove = Failed x →
  ∃ w',
    Unmount layerFolders hostingSystem sv UnmountOperationSCSI w =
      Ret (Some ("failed to remove SCSI " +:+ file +:+ ": " +:+ x)) w' ∧
    uvm w' = uvm w ∧
    table_get (scsiLocations_hostPath (uvm w')) (Z.of_nat controller) (Z.of_nat lun)
      = Some file ∧
    history w' = history w ++ teardown_requests scratch ++ [remove].
Proof.
  intros Hvm Hlen Hlast Hsl file remove Hslot Hr.
  destruct (Unmount_scsi_runs layerFolders scratch w Hlast Hsl)
    as (err & w' & entries & Hrun & Hu & _ & Hcase).
  fold file in Hcase. rewrite Hslot in Hcase. cbv zeta in Hcase.
  fold remove in Hcase. destruct Hcase as [Hh Hcase]. rewrite Hr in Hcase.
  destruct Hcase as [-> Ht].
  assert (Huvm : uvm w' = uvm w) by (rewrite Hu, Ht; by destruct (uvm w)).
  exists w'. split; [by apply Unmount_hosted_SCSI_is_scsi|].
  split; [exact Huvm|]. split; [|exact Hh].
  rewrite Huvm. by apply attached_slot_get.
Qed.

End UnmountSandboxOutcomes.
(** ** Mounting and unmounting a stack *)

Section RoundTrip.
Context `{P : Platform}.

Lemma answers_done_all_accepted (cs : list Call) :
  answers_done → ∀ h, all_accepted h cs.
Proof.
  intros Hdone. induction cs as [|c cs IH]; intros h; [done|].
  split; [apply Hdone | apply IH].
Qed.

(** Unmounting, in order, the layers a run of acquisitions was made for
    gives the map back. *)
Lemma unmount_all_acquire_all (layers : list string) :
  ∀ g, layers_have_guids layers →
       bounded_counts (length layers) g →
       foldl layer_unmounted (acquire_all g (layer_ids layers)) layers = g.
Proof.
  induction layers as [|lp layers IH]; intros g Hguids Hb; [done|].
  apply Forall_cons in Hguids as [Hlp Hguids].
  cbn [layer_ids fmap list_fmap acquire_all foldl].
  fold (layer_ids layers).
  fold (acquire_all (share_acquired (layer_guid lp).1 g) (layer_ids layers)).
  assert (Hlen : length (layer_ids layers) = length layers)
    by (unfold layer_ids; by rewrite length_fmap).
  destruct (release_after_acquire_all (layer_guid lp).1 (layer_ids layers) g)
    as (n & Hn & Hrange & _ & Hrel); [by rewrite Hlen|].
  unfold layer_unmounted at 2.
  destruct (layer_guid lp) as [id e] eqn:Hlg. cbn in Hlp, Hn, Hrel |- *. subst e.
  rewrite share_unmounted_released, Hrel.
  - apply IH; [done|]. eapply bounded_counts_weaken; [|exact Hb]. cbn. lia.
  - intros n' Hn'. rewrite Hn in Hn'. by injection Hn' as <-.
Qed.

(** The share section of [Unmount] run on its own. *)
Lemma Unmount_hosted_VSMB_runs (layerFolders : list string) (hostingSystem : Container)
    (sv : SchemaVersion) (w : World) :
  vm_hosted hostingSystem sv →
  (2 ≤ length layerFolders)%nat →
  vsmbShares_locked (uvm w) = false →
  let parents := take (length layerFolders - 1) layerFolders in
  ∃ err w' cs,
    Unmount layerFolders hostingSystem sv UnmountOperationVSMB w = Ret err w' ∧
    uvm w' = with_guids (foldl layer_unmounted (vsmbShares_guids (uvm w)) parents) (uvm w) ∧
    history w' = history w ++ cs ∧
    (err = None ↔ all_accepted (history w) cs).
Proof.
  intros (Hs & H10 & H20 & ->) Hlen Hl parents.
  destruct (Unmount_layers_post parents None (set_vsmb_lock true w))
    as (err & w2 & Hrun & Hu & cs & entries & Hh & Hlog & He & _).
  exists err, (set_vsmb_lock false w2), cs.
  split; [|split; [|split]].
  - unfold Unmount. rewrite Hs, H10, H20. cbn [orb andb is_nil deref].
    destruct (Nat.ltb_spec (length layerFolders) 2) as [|_]; [lia|].
    destruct (Nat.ltb_spec 1 (length layerFolders)) as [_|]; [|lia].
    change (Z.lor UnmountOperationVSMB UnmountOperationSCSI =? UnmountOperationSCSI)
      with false.
    change (Z.lor UnmountOperationVSMB UnmountOperationVSMB =? UnmountOperationVSMB)
      with true.
    cbn [andb].
    mstep ltac:(reflexivity). mstep ltac:(reflexivity).
    erewrite bind_Ret; [reflexivity|].
    unfold Unmount_vsmb.
    mstep ltac:(by apply vsmbShares_Lock_free).
    unfold parent_layers. destruct layerFolders as [|l0 ls]; [cbn in Hlen; lia|].
    mstep ltac:(reflexivity).
    mstep ltac:(exact Hrun).
    mstep ltac:(apply vsmbShares_Unlock_held; by rewrite Hu).
    reflexivity.
  - cbn [uvm set_vsmb_lock with_uvm]. rewrite Hu.
    apply container_ext; first [reflexivity | exact (eq_sym Hl)].
  - exact Hh.
  - rewrite He. cbn [history set_vsmb_lock with_uvm]. tauto.
Qed.

(** X8. When the host accepts every request, mounting a stack into a utility
    VM and then unmounting it, first with [UnmountOperationSCSI] and then
    with [UnmountOperationVSMB], succeeds at every step and leaves the
    utility VM as it was before the mount: every share count and every
    attachment slot has its old value. *)
Theorem Mount_then_Unmount_restores (layerFolders : list string) (scratch gs : string)
    (lun : nat) (hostingSystem : Container) (sv : SchemaVersion) (w : World) :
  vm_hosted hostingSystem sv →
  (2 ≤ length layerFolders)%nat →
  last layerFolders = Some scratch →
  let parents := take (length layerFolders - 1) layerFolders in
  let g := vsmbShares_guids (uvm w) in
  let file := filepath_Join scratch "sandbox.vhdx" in
  layers_have_guids parents →
  layer_guid scratch = (gs, None) →
  bounded_counts (length parents) g →
  vsmbShares_locked (uvm w) = false →
  scsiLocations_locked (uvm w) = false →
  free_slot w = Some (0%nat, lun) →
  attached_slot w file = None →
  answers_done →
  ∃ layers w1 w2 w3,
    Mount layerFolders hostingSystem sv w = Ret (MountedLayers layers, None) w1 ∧
    Unmount layerFolders hostingSystem sv UnmountOperationSCSI w1 = Ret None w2 ∧
    Unmount layerFolders hostingSystem sv UnmountOperationVSMB w2 = Ret None w3 ∧
    uvm w3 = uvm w.
Proof.
  intros Hvm Hlen Hlast parents g file Hguids Hgs Hb Hvl Hsl Hfree Hnone Hdone.
  set (ids := layer_ids parents).
  set (requests := share_adds g parents ++ sandbox_requests scratch gs ids (Z.of_nat lun)).
  destruct (Mount_hosted_runs layerFolders scratch gs lun hostingSystem sv w
              Hvm Hlast Hguids Hgs Hvl Hsl Hfree
              (answers_done_all_accepted _ Hdone _)) as (t' & Hset & Hmount).
  fold parents g ids requests in Hmount. fold file in Hset.
  set (w1 := set_hostPath t' (set_guids (acquire_all g ids) (push_calls requests w)))
    in Hmount.
  (* the sandbox section *)
  assert (Hslot : attached_slot w1 file = Some (0%nat, lun)).
  { unfold attached_slot in *.
    change (scsiLocations_hostPath (uvm w1)) with t'.
    revert Hset. unfold table_set.
    destruct (Z.leb_spec 0 (Z.of_nat lun)); [|lia].
    change ((0 <=? 0) && true) with true. change (Z.to_nat 0) with 0%nat. cbv iota.
    destruct (scsiLocations_hostPath (uvm w) !! 0%nat) as [luns|] eqn:Ht; [|done].
    destruct (Z.ltb_spec (Z.of_nat lun) (Z.of_nat (length luns))); [|done].
    intros [= <-]. rewrite Nat2Z.id.
    apply (first_slot_stored file _ 0 0 lun luns Hnone Ht). lia. }
  destruct (Unmount_scsi_runs layerFolders scratch w1 Hlast Hsl)
    as (err2 & w2 & entries2 & Hrun2 & Hu2 & _ & Hcase).
  fold file in Hcase. rewrite Hslot in Hcase. cbv zeta in Hcase.
  destruct Hcase as [_ Hcase].
  destruct (Hdone (history w1 ++ teardown_requests scratch)
              (sandbox_remove_request scratch 0 lun)) as [v Hr].
  rewrite Hr in Hcase. destruct Hcase as [-> Hclear].
  change (scsiLocations_hostPath (uvm w1)) with t' in Hclear.
  rewrite (table_set_restore _ _ _ _ _ _ (free_slot_get w 0 lun Hfree) Hset) in Hclear.
  injection Hclear as Ht2.
  (* the share section *)
  assert (Hvl2 : vsmbShares_locked (uvm w2) = false) by (rewrite Hu2; exact Hvl).
  destruct (Unmount_hosted_VSMB_runs layerFolders hostingSystem sv w2 Hvm Hlen Hvl2)
    as (err3 & w3 & cs & Hrun3 & Hu3 & _ & He3).
  fold parents in Hu3.
  assert (err3 = None) as -> by (apply He3; by apply answers_done_all_accepted).
  exists (combined_layers gs ids), w1, w2, w3.
  split; [exact Hmount|].
  split; [by apply Unmount_hosted_SCSI_is_scsi|].
  split; [exact Hrun3|].
  rewrite Hu3, Hu2, <- Ht2.
  change (vsmbShares_guids _) with (acquire_all g ids).
  unfold ids. rewrite unmount_all_acquire_all by done.
  apply container_ext; first [reflexivity | exact (eq_sym Hvl) | exact (eq_sym Hsl)].
Qed.

End RoundTrip.
(** ** A mount that fails before the sandbox is attached *)

Section MountBeforeAttach.
Context `{P : Platform}.

Lemma allocateSCSI_exhausted (hostPath containerPath : string) (w : World) :
  scsiLocations_locked (uvm w) = false →
  free_slot w = None →
  allocateSCSI hostPath containerPath w = Ret (-1, -1, Some "ResourceExhausted") w.
Proof.
  unfold free_slot, allocateSCSI. intros Hsl Hfree.
  mstep ltac:(by apply scsiLocations_Lock_free).
  mstep ltac:(reflexivity).
  change (scsiLocations_hostPath (uvm (set_scsi_lock true w)))
    with (scsiLocations_hostPath (uvm w)).
  rewrite Hfree.
  mstep ltac:(by apply scsiLocations_Unlock_held).
  unfold mret, M_ret. f_equal.
  apply World_ext; try reflexivity.
  apply container_ext; first [reflexivity | exact (eq_sym Hsl)].
Qed.

(** Once every share of the stack is acquired, [Mount] goes on with the
    sandbox. *)
Lemma Mount_hosted_reaches_sandbox (layerFolders : list string) (scratch : string)
    (hostingSystem : Container) (sv : SchemaVersion) (w : World) :
  vm_hosted hostingSystem sv →
  last layerFolders = Some scratch →
  let parents := take (length layerFolders - 1) layerFolders in
  let g := vsmbShares_guids (uvm w) in
  let ids := layer_ids parents in
  layers_have_guids parents →
  vsmbShares_locked (uvm w) = false →
  all_accepted (history w) (share_adds g parents) →
  Mount layerFolders hostingSystem sv w =
    Mount_sandbox layerFolders uvm_Container ids
      (set_guids (acquire_all g ids) (push_calls (share_adds g parents) w)).
Proof.
  intros (Hs & H10 & H20 & ->) Hlast parents g ids Hguids Hvl Hacc.
  unfold Mount. rewrite Hs, H10, H20. cbn [orb andb is_nil deref].
  mstep ltac:(reflexivity).
  mstep ltac:(by apply vsmbShares_Lock_free).
  mstep ltac:(apply (parent_layers_last layerFolders scratch), Hlast).
  fold parents.
  mstep ltac:(apply Mount_layers_acquire_all; [exact Hguids | exact Hacc]).
  cbn [app]. fold ids.
  change (vsmbShares_guids (uvm (set_vsmb_lock true w))) with g.
  mstep ltac:(by apply vsmbShares_Unlock_held).
  f_equal. apply World_ext; try reflexivity.
  apply container_ext; first [reflexivity | exact (eq_sym Hvl)].
Qed.

(** X4. When the name of the sandbox folder has no GUID, or no attachment slot
    is free, the utility-VM mount returns the error after every share of
    the stack was acquired, and releases them all again: the utility VM is
    as before the call, and nothing was sent for the sandbox. *)
Theorem Mount_without_slot_rolls_back (layerFolders : list string) (scratch gs e : string)
    (hostingSystem : Container) (sv : SchemaVersion) (w : World) :
  vm_hosted hostingSystem sv →
  last layerFolders = Some scratch →
  let parents := take (length layerFolders - 1) layerFolders in
  let g := vsmbShares_guids (uvm w) in
  let ids := layer_ids parents in
  layers_have_guids parents →
  bounded_counts (length parents) g →
  vsmbShares_locked (uvm w) = false →
  scsiLocations_locked (uvm w) = false →
  all_accepted (history w) (share_adds g parents) →
  layer_guid scratch = (gs, Some e) ∨
  (layer_guid scratch = (gs, None) ∧ free_slot w = None ∧ e = "ResourceExhausted") →
  ∃ w' entries,
    Mount layerFolders hostingSystem sv w = Ret (NoResult, Some e) w' ∧
    uvm w' = uvm w ∧
    history w' =
      history w ++ share_adds g parents ++ release_requests (acquire_all g ids) ids ∧
    logs w' = logs w ++ entries ∧
    Forall (λ entry, entry.1 = WarnLevel) entries.
Proof.
  intros Hvm Hlast parents g ids Hguids Hb Hvl Hsl Hacc Hcase.
  assert (Hlen : length ids = length parents)
    by (unfold ids, layer_ids; by rewrite length_fmap).
  set (w2 := set_guids (acquire_all g ids) (push_calls (share_adds g parents) w)).
  destruct (removeVSMBOnFailure_state ids w2 Hvl)
    as (w' & entries & Hroll & Hu & Hh & Hlog & Hwarn).
  exists w', entries.
  split; [|split; [|split; [|split]]]; [| | | exact Hlog | exact Hwarn].
  - rewrite (Mount_hosted_reaches_sandbox layerFolders scratch hostingSystem sv w
               Hvm Hlast Hguids Hvl Hacc).
    fold parents g ids w2. unfold Mount_sandbox.
    mstep ltac:(apply (parent_layers_last layerFolders scratch), Hlast).
    unfold layer_guid in Hcase. destruct (filepath_Split scratch) as [dir sandboxPath].
    cbn [snd] in Hcase.
    destruct Hcase as [Hgs|(Hgs & Hfree & ->)]; rewrite Hgs.
    + mstep ltac:(exact Hroll). reflexivity.
    + mstep ltac:(by apply allocateSCSI_exhausted).
      mstep ltac:(exact Hroll). reflexivity.
  - rewrite Hu. apply container_ext; try reflexivity.
    cbn. fold g. apply release_all_acquire_all. by rewrite Hlen.
  - rewrite Hh. subst w2. autorewrite with world_history.
    by rewrite <- !app_assoc.
Qed.

End MountBeforeAttach.
(** ** The direct branch: layer driver calls *)

Section DirectMode.
Context `{P : Platform}.

(** X9. A direct mount (schema v1, or v2 without a hosting system) of a stack
    of at least two layers undoes every driver step that succeeded before
    a step fails: Deactivate after a failed Prepare, Unprepare and then
    Deactivate after a failed GetLayerMountPath.  The error returned is the
    one of the failed step, whatever the cleanup calls answer, and the
    state of the utility VM is not touched. *)
Theorem Mount_direct_undoes_failed_steps (layerFolders : list string) (scratch : string)
    (hostingSystem : Container) (sv : SchemaVersion) (w : World) :
  direct_mode hostingSystem sv →
  (2 ≤ length layerFolders)%nat →
  last layerFolders = Some scratch →
  let di := {| HomeDir := filepath_Dir scratch |} in
  let id := filepath_Base scratch in
  let activate := CallActivateLayer di id in
  let prepare :=
    CallPrepareLayer di id (take (length layerFolders - 1) layerFolders) in
  let get := CallGetLayerMountPath di id in
  let unprepare := CallUnprepareLayer di id in
  let deactivate := CallDeactivateLayer di id in
  ∃ r w' cs,
    Mount layerFolders hostingSystem sv w = Ret r w' ∧
    uvm w' = uvm w ∧
    history w' = history w ++ cs ∧
    match respond (history w) activate with
    | Failed e => r = (NoResult, Some e) ∧ cs = [activate]
    | Done _ =>
        match respond (history w ++ [activate]) prepare with
        | Failed e => r = (NoResult, Some e) ∧ cs = [activate; prepare; deactivate]
        | Done _ =>
            match respond (history w ++ [activate; prepare]) get with
            | Failed e =>
                r = (NoResult, Some e) ∧
                cs = [activate; prepare; get; unprepare; deactivate]
            | Done mountPath =>
                r = (MountPath mountPath, None) ∧ cs = [activate; prepare; get]
            end
        end
    end.
Proof.
  intros (Hs & Hd) Hlen Hlast di id activate prepare get unprepare deactivate.
  pose proof (λ w, proj1 (parent_layers_last layerFolders scratch w Hlast)) as Hp.
  pose proof (λ w, proj2 (parent_layers_last layerFolders scratch w Hlast)) as Hl.
  unfold Mount. rewrite Hs, Hd. unfold Mount_direct.
  destruct (Nat.ltb_spec (length layerFolders) 2) as [|_]; [lia|].
  unfold ActivateLayer, PrepareLayer, GetLayerMountPath, UnprepareLayer, DeactivateLayer.
  munfold. rewrite Hl. cbv beta iota. fold di id activate get unprepare deactivate.
  cbn [history uvm logs].
  destruct (respond (history w) activate) as [v1|e1]; cbn [reply_error].
  2: { eexists _, _, _. split; [reflexivity|]. done. }
  rewrite Hp. cbv beta iota. fold prepare. cbn [history uvm logs].
  destruct (respond (history w ++ [activate]) prepare) as [v2|e2]; cbn [reply_error].
  2: { destruct (respond _ deactivate); cbn [reply_error].
       all: eexists _, _, _; split; [reflexivity|]; cbn [history uvm logs].
       all: split; [done|]; split; [by rewrite <- ?app_assoc|]; done. }
  cbn [history uvm logs]. rewrite <- !app_assoc. cbn [app].
  destruct (respond (history w ++ [activate; prepare]) get) as [v3|e3].
  { eexists _, _, _. split; [reflexivity|]. cbn [history uvm logs].
    split; [done|]. split; [by rewrite <- ?app_assoc|]. done. }
  cbn [history uvm logs].
  destruct (respond _ unprepare); cbn [reply_error history uvm logs].
  all: destruct (respond _ deactivate); cbn [reply_error].
  all: eexists _, _, _; split; [reflexivity|]; cbn [history uvm logs].
  all: split; [done|]; split; [by rewrite <- ?app_assoc|]; done.
Qed.

(** X10. A direct unmount accepts only [UnmountOperationAll], and checks that
    before it looks at the layers.  With that operation it needs one layer
    only; it unprepares the sandbox layer and, only when that succeeded,
    deactivates it: after a failed Unprepare no Deactivate is sent and the
    error of Unprepare is returned. *)
Theorem Unmount_direct_outcomes (layerFolders : list string) (hostingSystem : Container)
    (sv : SchemaVersion) (op : Z) (w : World) :
  direct_mode hostingSystem sv →
  (op ≠ UnmountOperationAll →
   Unmount layerFolders hostingSystem sv op w =
     Ret (Some "Only UnmountOperationAll is supported in the v1 schema, or for v2 schema argons")
         w) ∧
  (op = UnmountOperationAll → layerFolders = [] →
   Unmount layerFolders hostingSystem sv op w =
     Ret (Some "need at least one layer for Unmount") w) ∧
  (op = UnmountOperationAll →
   ∀ scratch, last layerFolders = Some scratch →
     let di := {| HomeDir := filepath_Dir scratch |} in
     let id := filepath_Base scratch in
     let unprepare := CallUnprepareLayer di id in
     let deactivate := CallDeactivateLayer di id in
     match respond (history w) unprepare with
     | Failed e =>
         Unmount layerFolders hostingSystem sv op w = Ret (Some e) (push_call unprepare w)
     | Done _ =>
         Unmount layerFolders hostingSystem sv op w =
           Ret (reply_error (respond (history w ++ [unprepare]) deactivate))
               (push_calls [unprepare; deactivate] w)
     end).
Proof.
  intros (Hs & Hd). unfold Unmount. rewrite Hs, Hd. unfold Unmount_direct.
  split; [|split].
  - intros Hop. by destruct (Z.eqb_spec op UnmountOperationAll).
  - intros -> ->. reflexivity.
  - intros -> scratch Hlast.
    set (di := {| HomeDir := filepath_Dir scratch |}).
    set (id := filepath_Base scratch).
    set (unprepare := CallUnprepareLayer di id).
    set (deactivate := CallDeactivateLayer di id).
    pose proof (λ w, proj2 (parent_layers_last layerFolders scratch w Hlast)) as Hl.
    rewrite Z.eqb_refl. cbn [negb].
    destruct layerFolders as [|l0 ls]; [done|]. cbn [length Nat.ltb Nat.leb].
    unfold UnprepareLayer, DeactivateLayer. munfold. rewrite Hl. cbv beta iota.
    fold di id unprepare deactivate. cbn [history].
    destruct (respond (history w) unprepare); cbn [reply_error]; [|reflexivity].
    unfold push_calls. cbn [history uvm logs]. by rewrite <- app_assoc.
Qed.

End DirectMode.
(** ** The rollback of an attachment *)

Section AttachmentRollback.
Context `{P : Platform}.

(** X25. The rollback of an attachment sends one removal for the slot,
    without hosted settings, whatever the host answers.  When the removal
    is accepted the slot is free afterwards; when it is refused the table
    is as before and the refusal is a warning in the log.  Either way the
    mutex is free again and the shares are untouched.  Called with the
    mutex held, it blocks. *)
Theorem removeSCSIOnFailure_outcome (controller lun : Z) (hostPath : string) (w : World) :
  table_get (scsiLocations_hostPath (uvm w)) controller lun = Some hostPath →
  let request := scsi_remove_request controller lun "" in
  (scsiLocations_locked (uvm w) = false →
   ∃ w',
     removeSCSIOnFailure uvm_Container controller lun w = Ret tt w' ∧
     HostedSettings request = NoSettings ∧
     history w' = history w ++ [CallModify request] ∧
     uvm w' = with_hostPath (scsiLocations_hostPath (uvm w')) (uvm w) ∧
     match respond (history w) (CallModify request) with
     | Done _ => slot_free w' controller lun ∧ logs w' = logs w
     | Failed e =>
         scsiLocations_hostPath (uvm w') = scsiLocations_hostPath (uvm w) ∧
         logs w' = logs w ++
           [(WarnLevel, "Possibly leaked SCSI disk on error removal path: " +:+ e)]
     end) ∧
  (scsiLocations_locked (uvm w) = true →
   removeSCSIOnFailure uvm_Container controller lun w = Blocked w).
Proof.
  intros Hget request. split.
  - intros Hl.
    destruct (table_set_get _ _ _ hostPath "" Hget) as (t' & Hset & Hget').
    unfold removeSCSIOnFailure. cbn [deref].
    destruct (respond (history w) (CallModify request)) as [v|e] eqn:Hr.
    + eexists. split.
      { mstep ltac:(reflexivity).
        mstep ltac:(by apply scsiLocations_Lock_free).
        erewrite defer_Ret;
          [|mstep ltac:(apply (removeSCSI_done controller lun "" v t');
                        [exact Hr | exact Hset]);
            reflexivity].
        mstep ltac:(by apply scsiLocations_Unlock_held).
        reflexivity. }
      split; [reflexivity|]. split; [reflexivity|].
      split; [|split; [exact Hget' | reflexivity]].
      apply container_ext; first [reflexivity | exact (eq_sym Hl)].
    + eexists. split.
      { mstep ltac:(reflexivity).
        mstep ltac:(by apply scsiLocations_Lock_free).
        erewrite defer_Ret;
          [|mstep ltac:(apply (removeSCSI_failed controller lun "" e); exact Hr);
            reflexivity].
        mstep ltac:(by apply scsiLocations_Unlock_held).
        reflexivity. }
      split; [reflexivity|]. split; [reflexivity|].
      split; [|split; reflexivity].
      apply container_ext; first [reflexivity | exact (eq_sym Hl)].
  - intros Hl. unfold removeSCSIOnFailure. cbn [deref].
    unfold scsiLocations_Lock. munfold. by rewrite Hl.
Qed.

(** A slot outside the table makes [removeSCSI] panic once the host has
    accepted the removal; the deferred [Unlock] still runs, so the panic
    leaves the mutex free. *)
Lemma removeSCSIOnFailure_panic_unlocks (controller lun : Z) (v : string) (w : World) :
  scsiLocations_locked (uvm w) = false →
  respond (history w) (CallModify (scsi_remove_request controller lun "")) = Done v →
  table_set (scsiLocations_hostPath (uvm w)) controller lun "" = None →
  ∃ w',
    removeSCSIOnFailure uvm_Container controller lun w = Panic w' ∧
    scsiLocations_locked (uvm w') = false ∧
    uvm w' = uvm w ∧
    history w' = history w ++ [CallModify (scsi_remove_request controller lun "")] ∧
    logs w' = logs w.
Proof.
  intros Hl Hr Hset. eexists. split.
  - unfold removeSCSIOnFailure. cbn [deref].
    mstep ltac:(reflexivity).
    mstep ltac:(by apply scsiLocations_Lock_free).
    unfold defer, removeSCSI, Modify, store_hostPath. munfold. cbn.
    rewrite Hr. cbn. rewrite Hset. reflexivity.
  - cbn. split; [reflexivity|]. split; [|done].
    apply container_ext; first [reflexivity | exact (eq_sym Hl)].
Qed.

End AttachmentRollback.
(** ** Layers shared with other containers *)

Section SharedLayers.
Context `{P : Platform}.

Lemma Unmount_layer_shared (retError : option string) (lp id : string) (n : Z) (w : World) :
  layer_guid lp = (id, None) →
  vsmbShares_guids (uvm w) !! id = Some n →
  1 < n ≤ max_int →
  Unmount_layer uvm_Container retError lp w =
    Ret retError (set_guids (<[id := n - 1]> (vsmbShares_guids (uvm w))) w).
Proof.
  unfold layer_guid, Unmount_layer. intros Hg Hid Hn.
  destruct (filepath_Split lp) as [dir filename]. cbn [snd] in Hg. rewrite Hg.
  mstep ltac:(reflexivity). rewrite Hid.
  rewrite wrap_int_id by (unfold max_int in *; lia).
  mstep ltac:(reflexivity).
  destruct (Z.ltb_spec 0 (n - 1)); [reflexivity | lia].
Qed.

Lemma Unmount_layers_shared (layers : list string) :
  ∀ (retError : option string) (w : World),
    layers_have_guids layers →
    (∀ id, id ∈ layer_ids layers →
       ∃ n, vsmbShares_guids (uvm w) !! id = Some n ∧
            occurrences id (layer_ids layers) < n ≤ max_int) →
    ∃ g',
      Unmount_layers uvm_Container retError layers w = Ret retError (set_guids g' w) ∧
      ∀ id, g' !! id =
              (λ n, n - occurrences id (layer_ids layers)) <$> (vsmbShares_guids (uvm w) !! id).
Proof.
  induction layers as [|lp layers IH]; intros retError w Hguids Hcounts.
  - exists (vsmbShares_guids (uvm w)). split.
    + cbn. unfold mret, M_ret. f_equal. symmetry. apply set_guids_same.
    + intros id. destruct (vsmbShares_guids (uvm w) !! id) as [n|]; cbn; [|done].
      f_equal. unfold occurrences. cbn. lia.
  - apply Forall_cons in Hguids as [Hlp Hguids].
    pose proof (layer_guid_pair lp Hlp) as Hlg.
    set (id0 := (layer_guid lp).1) in *.
    change (layer_ids (lp :: layers)) with (id0 :: layer_ids layers) in *.
    destruct (Hcounts id0) as (n0 & Hn0 & Hocc0); [apply list_elem_of_here|].
    rewrite occurrences_cons, decide_True in Hocc0 by done.
    pose proof (occurrences_nonneg id0 (layer_ids layers)) as Hnn.
    set (w1 := set_guids (<[id0 := n0 - 1]> (vsmbShares_guids (uvm w))) w).
    destruct (IH retError w1 Hguids) as (g' & Hrun & Hlook).
    { intros id Hin. cbn [w1 uvm set_guids with_uvm vsmbShares_guids with_guids].
      destruct (decide (id = id0)) as [->|Hne].
      - rewrite lookup_insert_eq. exists (n0 - 1). split; [done | lia].
      - rewrite lookup_insert_ne by done.
        destruct (Hcounts id) as (n & Hn & Hocc); [by apply list_elem_of_further|].
        rewrite occurrences_cons, decide_False in Hocc by done.
        exists n. split; [done | lia]. }
    exists g'. split.
    + cbn [Unmount_layers].
      mstep ltac:(apply (Unmount_layer_shared retError lp id0 n0 w Hlg Hn0); lia).
      fold w1. rewrite Hrun. reflexivity.
    + intros id. rewrite Hlook, occurrences_cons.
      cbn [w1 uvm set_guids with_uvm vsmbShares_guids with_guids].
      destruct (decide (id0 = id)) as [<-|Hne].
      * rewrite lookup_insert_eq, Hn0. cbn. f_equal. lia.
      * rewrite lookup_insert_ne by done.
        destruct (vsmbShares_guids (uvm w) !! id); cbn; [f_equal; lia | done].
Qed.

(** X26. Layers that other containers still use stay shared.  When every
    read-only layer of the stack has more references than the stack itself
    holds, a utility-VM unmount with [UnmountOperationVSMB] returns nil
    without sending any request and without a log entry: it only takes the
    references of this stack off the counts, and no share is removed. *)
Theorem Unmount_shared_layers_keeps_shares (layerFolders : list string)
    (hostingSystem : Container) (sv : SchemaVersion) (w : World) :
  vm_hosted hostingSystem sv →
  (2 ≤ length layerFolders)%nat →
  vsmbShares_locked (uvm w) = false →
  let parents := take (length layerFolders - 1) layerFolders in
  let g := vsmbShares_guids (uvm w) in
  let ids := layer_ids parents in
  layers_have_guids parents →
  (∀ id, id ∈ ids → ∃ n, g !! id = Some n ∧ occurrences id ids < n ≤ max_int) →
  ∃ w',
    Unmount layerFolders hostingSystem sv UnmountOperationVSMB w = Ret None w' ∧
    history w' = history w ∧ logs w' = logs w ∧
    uvm w' = with_guids (vsmbShares_guids (uvm w')) (uvm w) ∧
    (∀ id, vsmbShares_guids (uvm w') !! id = (λ n, n - occurrences id ids) <$> (g !! id)) ∧
    (∀ id, id ∈ ids → ∃ n, vsmbShares_guids (uvm w') !! id = Some n ∧ 1 ≤ n).
Proof.
  intros (Hs & H10 & H20 & ->) Hlen Hl parents g ids Hguids Hcounts.
  destruct (Unmount_layers_shared parents None (set_vsmb_lock true w) Hguids Hcounts)
    as (g' & Hrun & Hlook).
  exists (set_guids g' w).
  split; [|split; [reflexivity|split; [reflexivity|split; [|split]]]].
  - unfold Unmount. rewrite Hs, H10, H20. cbn [orb andb is_nil deref].
    destruct (Nat.ltb_spec (length layerFolders) 2) as [|_]; [lia|].
    destruct (Nat.ltb_spec 1 (length layerFolders)) as [_|]; [|lia].
    change (Z.lor UnmountOperationVSMB UnmountOperationSCSI =? UnmountOperationSCSI)
      with false.
    change (Z.lor UnmountOperationVSMB UnmountOperationVSMB =? UnmountOperationVSMB)
      with true.
    cbn [andb].
    mstep ltac:(reflexivity). mstep ltac:(reflexivity).
    erewrite bind_Ret; [reflexivity|].
    unfold Unmount_vsmb.
    mstep ltac:(by apply vsmbShares_Lock_free).
    unfold parent_layers. destruct layerFolders as [|l0 ls]; [cbn in Hlen; lia|].
    mstep ltac:(reflexivity).
    mstep ltac:(exact Hrun).
    mstep ltac:(by apply vsmbShares_Unlock_held).
    unfold mret, M_ret. f_equal.
    apply World_ext; try reflexivity.
    apply container_ext; first [reflexivity | exact (eq_sym Hl)].
  - apply container_ext; reflexivity.
  - exact Hlook.
  - intros id Hin. destruct (Hcounts id Hin) as (n & Hn & Hocc).
    exists (n - occurrences id ids). split; [|lia].
    change (vsmbShares_guids (uvm (set_guids g' w))) with g'.
    rewrite Hlook. change (vsmbShares_guids (uvm (set_vsmb_lock true w))) with g.
    by rewrite Hn.
Qed.

End SharedLayers.
(** * The utility VM image, the utility VM and the container document *)

(** ** UVMFolderFromLayerFolders *)

Section ImageFolder.
Context `{P : Platform} `{H : !Host}.

Lemma UVMFolder_search_skips (below rest : list string) :
  Forall has_no_image below →
  UVMFolder_search (below ++ rest) = UVMFolder_search rest.
Proof.
  induction 1 as [|lf below (e & Hstat & Hne) _ IH]; [done|].
  cbn. by rewrite Hstat, Hne.
Qed.

Lemma UVMFolder_search_inv (layerFolders : list string) :
  (Forall has_no_image layerFolders ∧ UVMFolder_search layerFolders = inl "") ∨
  ∃ below lf above,
    layerFolders = below ++ lf :: above ∧ Forall has_no_image below ∧
    ((has_image lf ∧ UVMFolder_search layerFolders = inl lf) ∨
     (∃ e, os_Stat (filepath_Join lf "UtilityVM") = Some e ∧ os_IsNotExist e = false ∧
           UVMFolder_search layerFolders = inr e)).
Proof.
  induction layerFolders as [|lf rest IH]; [left; by split|].
  cbn [UVMFolder_search].
  destruct (os_Stat (filepath_Join lf "UtilityVM")) as [e|] eqn:Hstat.
  - destruct (os_IsNotExist e) eqn:Hne.
    + assert (Hlf : has_no_image lf) by (by exists e).
      destruct IH as [[Hall Hs]|(below & lf' & above & -> & Hbelow & Hcase)].
      * left. split; [by constructor | done].
      * right. exists (lf :: below), lf', above.
        split; [done|]. split; [by constructor | done].
    + right. exists [], lf, rest. split; [done|]. split; [constructor|].
      right. by exists e.
  - right. exists [], lf, rest. split; [done|]. split; [constructor|]. by left.
Qed.

(** X11. [UVMFolderFromLayerFolders] returns a folder exactly when that
    folder is the first one of the list, counted from the base layer at
    index 0, in which [os.Stat] finds a UtilityVM folder, every folder
    before it is reported as not existing, and its name is not empty.
    The folders after it play no part. *)
Theorem UVMFolderFromLayerFolders_finds_lowest (layerFolders : list string)
    (uvmFolder : string) :
  UVMFolderFromLayerFolders layerFolders = (uvmFolder, None) ↔
  uvmFolder ≠ "" ∧
  ∃ below above,
    layerFolders = below ++ uvmFolder :: above ∧
    Forall has_no_image below ∧ has_image uvmFolder.
Proof.
  unfold UVMFolderFromLayerFolders. split.
  - destruct (UVMFolder_search_inv layerFolders)
      as [[_ ->]|(below & lf & above & -> & Hbelow & [[Himg ->]|(e & _ & _ & ->)])];
      [done| |done].
    destruct (String.eqb_spec lf ""); [done|].
    intros [= ->]. split; [done|]. by exists below, above.
  - intros (Hne & below & above & -> & Hbelow & Himg).
    rewrite UVMFolder_search_skips by done. cbn [UVMFolder_search].
    unfold has_image in Himg. rewrite Himg.
    by destruct (String.eqb_spec uvmFolder "").
Qed.

(** X12. The three ways [UVMFolderFromLayerFolders] fails.  When no folder
    has a UtilityVM folder it reports that none was found.  An error of
    [os.Stat] that is not a missing file ends the search at once with that
    error, also when a later folder has the image.  And a layer folder
    with the empty name is taken for no folder: when the image is first
    found there, the answer is again that none was found. *)
Theorem UVMFolderFromLayerFolders_errors :
  (∀ layerFolders,
     Forall has_no_image layerFolders →
     UVMFolderFromLayerFolders layerFolders = not_found) ∧
  (∀ below lf above e,
     Forall has_no_image below →
     os_Stat (filepath_Join lf "UtilityVM") = Some e → os_IsNotExist e = false →
     UVMFolderFromLayerFolders (below ++ lf :: above) = ("", Some e)) ∧
  (∀ below above,
     Forall has_no_image below → has_image "" →
     UVMFolderFromLayerFolders (below ++ "" :: above) = not_found).
Proof.
  unfold UVMFolderFromLayerFolders. split; [|split].
  - intros layerFolders Hall.
    rewrite <- (app_nil_r layerFolders), UVMFolder_search_skips by done. reflexivity.
  - intros below lf above e Hbelow Hstat Hne.
    rewrite UVMFolder_search_skips by done. cbn [UVMFolder_search].
    by rewrite Hstat, Hne.
  - intros below above Hbelow Himg.
    rewrite UVMFolder_search_skips by done. cbn [UVMFolder_search].
    unfold has_image in Himg. by rewrite Himg.
Qed.

End ImageFolder.
(** ** createWCOWv2UVM *)

Section HostingSystem.
Context `{P : Platform} `{H : !Host}.

Lemma hosting_system_spec_error_bare (spec : specs.Spec.t) (windows : specs.Windows.t) :
  hosting_system_spec_error spec windows = None ↔
  ∃ folder, bare_hosting_spec spec windows folder.
Proof.
  unfold hosting_system_spec_error, bare_hosting_spec. split.
  - destruct (specs.Windows.LayerFolders windows) as [|folder [|? ?]]; cbn; try done.
    destruct (specs.Spec.Hostname spec); cbn; [|done].
    destruct (Resources_CPU windows ≫= specs.WindowsCPUResources.Shares); cbn; [done|].
    destruct (Resources_CPU windows ≫= specs.WindowsCPUResources.Maximum); cbn; [done|].
    destruct (specs.Spec.Root spec); cbn; [done|].
    destruct (Resources_Storage windows); cbn; [done|].
    destruct (specs.Windows.CredentialSpec windows); cbn; [|done..].
    destruct (specs.Windows.Network windows); cbn; [done|].
    destruct (specs.Spec.Mounts spec); cbn; [|done].
    intros _. by exists folder.
  - intros (folder & -> & -> & -> & -> & -> & -> & -> & -> & ->). reflexivity.
Qed.

Lemma hosting_system_spec_error_prefix (spec : specs.Spec.t) (windows : specs.Windows.t)
    (e : string) :
  hosting_system_spec_error spec windows = Some e → ∃ e', e = iocis +:+ e'.
Proof.
  unfold hosting_system_spec_error.
  repeat match goal with
         | |- context [if ?b then _ else _] => destruct b
         end; intros [= <-]; eauto.
Qed.

(** X13. For a specification that names one layer folder and nothing
    else, and has a HyperV section, [createWCOWv2UVM] marshals the utility
    VM document, creates the utility VM from it and records the sandbox of
    the utility VM in slot 0:0 of its attachment table: the file recorded
    is the disk that the document attaches at 0:0, the other slots are as
    [createContainer] left them, and no later search for a free slot can
    hand out 0:0. *)
Theorem createWCOWv2UVM_creates (createOptions : CreateOptions.t) (spec : specs.Spec.t)
    (windows : specs.Windows.t) (hyperV : specs.WindowsHyperV.t)
    (folder doc old : string) (created : container) (w : World) :
  CreateOptions.Spec createOptions = Some spec →
  specs.Spec.Windows spec = Some windows →
  bare_hosting_spec spec windows folder →
  specs.Windows.HyperV windows = Some hyperV →
  let sandbox := filepath_Join folder "sandbox.vhdx" in
  let document :=
    uvm_document createOptions windows sandbox (specs.WindowsHyperV.UtilityVMPath hyperV) in
  json_Marshal_ComputeSystemV2 document = (doc, None) →
  createContainer (CreateOptions.Id createOptions) doc schemaV20 = inl created →
  table_get (scsiLocations_hostPath created) 0 0 = Some old →
  sandbox ≠ "" →
  ∃ w',
    createWCOWv2UVM createOptions w = Ret (uvm_Container, None) w' ∧
    table_set (scsiLocations_hostPath created) 0 0 sandbox
      = Some (scsiLocations_hostPath (uvm w')) ∧
    uvm w' = with_hostPath (scsiLocations_hostPath (uvm w')) created ∧
    (VirtualMachinesResourcesStorageAttachmentV2.Path <$> boot_attachment document)
      = table_get (scsiLocations_hostPath (uvm w')) 0 0 ∧
    free_slot w' ≠ Some (0%nat, 0%nat) ∧
    history w' = history w ∧ logs w' = logs w.
Proof.
  intros Hspec Hwin Hbare Hhv sandbox document Hjson Hcreate Hslot Hne.
  destruct (table_set_get _ 0 0 old sandbox Hslot) as (t' & Hset & Hget).
  exists (with_uvm (with_hostPath t' created) w).
  split; [|split; [exact Hset|split; [reflexivity|split; [|split; [|done]]]]].
  - unfold createWCOWv2UVM. rewrite Hspec, Hwin.
    rewrite (proj2 (hosting_system_spec_error_bare spec windows)) by eauto.
    destruct Hbare as (-> & _). cbn [lookup list_lookup]. rewrite Hhv.
    fold sandbox document. rewrite Hjson, Hcreate.
    unfold store_hostPath. munfold. cbn [uvm with_uvm]. by rewrite Hset.
  - cbn [uvm with_uvm scsiLocations_hostPath with_hostPath]. rewrite Hget. reflexivity.
  - intros Hfree. apply free_slot_get in Hfree.
    cbn [uvm with_uvm scsiLocations_hostPath with_hostPath] in Hfree.
    change (table_get t' 0 0 = Some "") in Hfree. congruence.
Qed.

(** X14. [createWCOWv2UVM] refuses every specification that is more than
    one layer folder: a second folder or none, a host name, CPU shares or a
    CPU maximum, a root, storage resources, a credential spec, a network or
    a mount.  The error starts with the words invalid OCI spec, nothing is
    created and the state is as before. *)
Theorem createWCOWv2UVM_rejects (createOptions : CreateOptions.t) (spec : specs.Spec.t)
    (windows : specs.Windows.t) (w : World) :
  CreateOptions.Spec createOptions = Some spec →
  specs.Spec.Windows spec = Some windows →
  (∀ folder, ¬ bare_hosting_spec spec windows folder) →
  ∃ e, createWCOWv2UVM createOptions w = Ret (nil_Container, Some (iocis +:+ e)) w.
Proof.
  intros Hspec Hwin Hnot. unfold createWCOWv2UVM. rewrite Hspec, Hwin.
  destruct (hosting_system_spec_error spec windows) as [e|] eqn:Herr.
  - destruct (hosting_system_spec_error_prefix _ _ _ Herr) as [e' ->]. by exists e'.
  - apply hosting_system_spec_error_bare in Herr as [folder Hbare].
    by destruct (Hnot folder).
Qed.

(** X15. The size of the utility VM.  Without a memory limit it starts
    with 1024 MB; a limit in bytes is turned into whole megabytes, rounded
    down, so a limit below one megabyte gives a utility VM of 0 MB, and the
    conversion to a 32-bit integer wraps from 2^51 bytes on.  Without a
    processor count it has 2 processors, or 1 on a host with one; a count
    that is given is taken as it is and not cut down to the processors of
    the host. *)
Theorem uvm_document_size (windows : specs.Windows.t) :
  (Resources_Memory windows ≫= specs.WindowsMemoryResources.Limit = None →
   uvm_memory windows = 1024) ∧
  (∀ limit,
     Resources_Memory windows ≫= specs.WindowsMemoryResources.Limit = Some limit →
     (0 ≤ limit < 2 ^ 51 →
      uvm_memory windows * 2 ^ 20 ≤ limit < (uvm_memory windows + 1) * 2 ^ 20) ∧
     (limit = 2 ^ 51 → uvm_memory windows = - 2 ^ 31)) ∧
  (Resources_CPU windows ≫= specs.WindowsCPUResources.Count = None →
   uvm_processors windows = if numCPU =? 1 then 1 else 2) ∧
  (∀ count,
     Resources_CPU windows ≫= specs.WindowsCPUResources.Count = Some count →
     0 ≤ count < 2 ^ 31 → uvm_processors windows = count).
Proof.
  unfold uvm_memory, uvm_processors. split; [|split; [|split]].
  - by intros ->.
  - intros limit ->. split.
    + intros Hl.
      rewrite (Z.quot_div_nonneg limit 1024) by lia.
      rewrite Z.quot_div_nonneg by (try apply Z.div_pos; lia).
      rewrite Z.div_div by lia. change (1024 * 1024) with (2 ^ 20).
      assert (0 ≤ limit `div` 2 ^ 20 < 2 ^ 31).
      { split; [apply Z.div_pos; lia|]. apply Z.div_lt_upper_bound; lia. }
      unfold int32. rewrite Z.mod_small by lia.
      pose proof (Z.mul_div_le limit (2 ^ 20) ltac:(lia)).
      pose proof (Z.mul_succ_div_gt limit (2 ^ 20) ltac:(lia)). lia.
    + by intros ->.
  - by intros ->.
  - intros count -> Hc. unfold int32. rewrite Z.mod_small by lia. lia.
Qed.

(** X16. The checks of [createWCOWv2UVM] do not cover a missing section:
    without a specification, without its Windows section, or with a
    specification that passes every check but has no HyperV section, the
    function panics. *)
Theorem createWCOWv2UVM_missing_section_panics (createOptions : CreateOptions.t)
    (w : World) :
  (CreateOptions.Spec createOptions = None →
   createWCOWv2UVM createOptions w = Panic w) ∧
  (∀ spec,
     CreateOptions.Spec createOptions = Some spec →
     specs.Spec.Windows spec = None →
     createWCOWv2UVM createOptions w = Panic w) ∧
  (∀ spec windows folder,
     CreateOptions.Spec createOptions = Some spec →
     specs.Spec.Windows spec = Some windows →
     bare_hosting_spec spec windows folder →
     specs.Windows.HyperV windows = None →
     createWCOWv2UVM createOptions w = Panic w).
Proof.
  unfold createWCOWv2UVM. split; [|split].
  - by intros ->.
  - by intros spec -> ->.
  - intros spec windows folder -> -> Hbare Hhv.
    rewrite (proj2 (hosting_system_spec_error_bare spec windows)) by eauto.
    destruct Hbare as (-> & _). cbn [lookup list_lookup]. by rewrite Hhv.
Qed.

End HostingSystem.
(** ** CreateHCSContainerDocument *)

Section ContainerDocument.
Context `{P : Platform} `{H : !Host}.

Lemma document_cpu_count_runs (cpu : option specs.WindowsCPUResources.t) (w : World) :
  ∃ n entries,
    document_cpu_count cpu w =
      Ret n {| uvm := uvm w; history := history w; logs := logs w ++ entries |} ∧
    match cpu ≫= specs.WindowsCPUResources.Count with
    | None => n = 0 ∧ entries = []
    | Some cpuCount =>
        n = uint32 (Z.min cpuCount (uint64 numCPU)) ∧
        entries = if uint64 numCPU <? cpuCount then [cpu_count_warning cpuCount] else []
    end.
Proof.
  unfold document_cpu_count.
  destruct (cpu ≫= specs.WindowsCPUResources.Count) as [cpuCount|].
  - destruct (Z.ltb_spec (uint64 numCPU) cpuCount).
    + eexists _, [_]. split; [reflexivity|]. split; [|reflexivity].
      by rewrite Z.min_r by lia.
    + exists (uint32 cpuCount), []. rewrite app_nil_r.
      split; [by destruct w|]. split; [|reflexivity].
      by rewrite Z.min_l by lia.
  - exists 0, []. rewrite app_nil_r. split; [by destruct w|]. done.
Qed.

(** The accumulators of the loop over the mounts, list by list. *)
Lemma document_mounts_inv (mounts : list specs.Mount.t) :
  ∀ acc maps,
    document_mounts mounts acc = inl maps →
    Forall (λ m, specs.Mount.Type_ m = "") mounts ∧
    mdsv1 maps = mdsv1 acc ++
      ((λ m, {| MappedDir.HostPath := specs.Mount.Source m;
                MappedDir.ContainerPath := specs.Mount.Destination m;
                MappedDir.ReadOnly := mount_ReadOnly (specs.Mount.Options m) |})
         <$> filter (λ m, is_pipe m = false) mounts) ∧
    mpsv1 maps = mpsv1 acc ++
      ((λ m, {| MappedPipe.HostPath := specs.Mount.Source m;
                MappedPipe.ContainerPipeName :=
                  string_drop (String.length pipePrefix) (specs.Mount.Destination m) |})
         <$> filter (λ m, is_pipe m = true) mounts) ∧
    (mdsv2 acc = MappedDir_v2 <$> mdsv1 acc → mdsv2 maps = MappedDir_v2 <$> mdsv1 maps) ∧
    (mpsv2 acc = MappedPipe_v2 <$> mpsv1 acc → mpsv2 maps = MappedPipe_v2 <$> mpsv1 maps).
Proof.
  induction mounts as [|m mounts IH]; intros acc maps Hrun.
  - injection Hrun as <-. rewrite !app_nil_r. done.
  - cbn [document_mounts] in Hrun.
    destruct (String.eqb_spec (specs.Mount.Type_ m) "") as [Hty|]; [|done].
    cbn [negb] in Hrun.
    change (String.prefix pipePrefix (specs.Mount.Destination m)) with (is_pipe m) in Hrun.
    destruct (is_pipe m) eqn:Hpipe.
    + apply IH in Hrun as (Hall & Hd & Hp & Hd2 & Hp2). cbn in Hd, Hp, Hd2, Hp2.
      rewrite (filter_cons_False (λ m, is_pipe m = false)) by (by rewrite Hpipe).
      rewrite (filter_cons_True (λ m, is_pipe m = true)) by done.
      split; [by constructor|]. split; [exact Hd|].
      split; [by rewrite Hp, <- app_assoc|].
      split; [exact Hd2|].
      intros Hacc. apply Hp2. by rewrite Hacc, fmap_app.
    + apply IH in Hrun as (Hall & Hd & Hp & Hd2 & Hp2). cbn in Hd, Hp, Hd2, Hp2.
      rewrite (filter_cons_True (λ m, is_pipe m = false)) by done.
      rewrite (filter_cons_False (λ m, is_pipe m = true)) by (by rewrite Hpipe).
      split; [by constructor|]. split; [by rewrite Hd, <- app_assoc|].
      split; [exact Hp|].
      split; [|exact Hp2].
      intros Hacc. apply Hd2. by rewrite Hacc, fmap_app.
Qed.

Lemma document_layers_inv (layers : list string) :
  ∀ v1Layers v2Layers v1Layers' v2Layers',
    document_layers layers v1Layers v2Layers = inl (v1Layers', v2Layers') →
    layers_have_guids layers ∧
    v1Layers' = v1Layers ++
      ((λ lp, {| Layer.ID := (layer_guid lp).1; Layer.Path := lp |}) <$> layers) ∧
    (v2Layers = Layer_v2 <$> v1Layers → v2Layers' = Layer_v2 <$> v1Layers').
Proof.
  induction layers as [|lp layers IH]; intros a b a' b' Hrun.
  - injection Hrun as <- <-. rewrite app_nil_r. by split; [constructor|].
  - cbn [document_layers] in Hrun.
    assert (Hlg : layer_guid lp = NameToGuid (filepath_Split lp).2) by reflexivity.
    destruct (filepath_Split lp) as [dir filename]. cbn [snd] in Hlg.
    destruct (NameToGuid filename) as [g [e|]]; [done|].
    apply IH in Hrun as (Hall & Ha & Hb).
    split; [constructor; [by rewrite Hlg | done]|].
    split; [rewrite Ha, fmap_cons, <- app_assoc; cbn [app]; by rewrite Hlg|].
    intros Hacc. apply Hb. by rewrite Hacc, fmap_app.
Qed.

Lemma document_root_inv (spec : specs.Spec.t) (w w' : World)
    (volumePath rootPath : string) :
  document_root spec w = Ret (inl (volumePath, rootPath)) w' →
  w' = w ∧
  ∃ root c,
    specs.Spec.Root spec = Some root ∧
    (regexp_MatchString volumeGUIDRegex (specs.Root.Path root)).2 = None ∧
    last_char (specs.Root.Path root) = Some c ∧
    rootPath = (if Ascii.eqb c backslash then specs.Root.Path root
                else specs.Root.Path root +:+ "\") ∧
    volumePath = drop_last_char rootPath.
Proof.
  unfold document_root. destruct (specs.Spec.Root spec) as [root|]; [|done].
  destruct (regexp_MatchString volumeGUIDRegex (specs.Root.Path root)).2 eqn:Hre; [done|].
  destruct (last_char (specs.Root.Path root)) as [c|] eqn:Hc; [|done].
  intros [= <- <- <-]. split; [done|]. by exists root, c.
Qed.

(** What the documents are when [HCSContainerDocuments] returns them. *)
Lemma HCSContainerDocuments_inv (createOptions : CreateOptions.t) (w w' : World)
    (v1 : ContainerConfig.t) (v2 : ComputeSystemV2.t) :
  HCSContainerDocuments createOptions w = Ret (inl (v1, v2)) w' →
  ∃ spec windows storage n entries layerFolderPath volumePath storagePath
    hvPartition hvRuntime v1Layers v2Layers maps,
    let hostingSystem := CreateOptions.HostingSystem createOptions in
    let layerFolders := specs.Windows.LayerFolders windows in
    let cpu := Resources_CPU windows in
    let shares := cpu ≫= specs.WindowsCPUResources.Shares in
    let maximum := cpu ≫= specs.WindowsCPUResources.Maximum in
    let limit := Resources_Memory windows ≫= specs.WindowsMemoryResources.Limit in
    let bps := Resources_Storage windows ≫= specs.WindowsStorageResources.Bps in
    let iops := Resources_Storage windows ≫= specs.WindowsStorageResources.Iops in
    let network := specs.Windows.Network windows in
    CreateOptions.Spec createOptions = Some spec ∧
    specs.Spec.Windows spec = Some windows ∧
    document_storage createOptions = inl storage ∧
    w' = {| uvm := uvm w; history := history w; logs := logs w ++ entries |} ∧
    match cpu ≫= specs.WindowsCPUResources.Count with
    | None => n = 0 ∧ entries = []
    | Some cpuCount =>
        n = uint32 (Z.min cpuCount (uint64 numCPU)) ∧
        entries = if uint64 numCPU <? cpuCount then [cpu_count_warning cpuCount] else []
    end ∧
    (∀ root, specs.Spec.Root spec = Some root → specs.Root.Readonly root = false) ∧
    document_mounts (specs.Spec.Mounts spec)
      {| mdsv1 := []; mpsv1 := []; mdsv2 := []; mpsv2 := [] |} = inl maps ∧
    (0 <? length (mpsv1 maps))%nat && (GetOSVersion_Build <? 16299) = false ∧
    (if is_nil hostingSystem then
       last layerFolders = Some layerFolderPath ∧
       document_layers (take (length layerFolders - 1) layerFolders) []
         (ContainersResourcesStorageV2.Layers storage) = inl (v1Layers, v2Layers) ∧
       match specs.Windows.HyperV windows with
       | None =>
           hvPartition = false ∧ hvRuntime = None ∧
           ∃ root c,
             specs.Spec.Root spec = Some root ∧
             (regexp_MatchString volumeGUIDRegex (specs.Root.Path root)).2 = None ∧
             last_char (specs.Root.Path root) = Some c ∧
             storagePath = (if Ascii.eqb c backslash then specs.Root.Path root
                            else specs.Root.Path root +:+ "\") ∧
             volumePath = drop_last_char storagePath
       | Some hyperV =>
           document_hyperv createOptions spec windows hyperV
             = inl (hvPartition, hvRuntime) ∧
           volumePath = "" ∧
           storagePath = ContainersResourcesStorageV2.Path storage
       end ∧
       ComputeSystemV2.Container v2 = v2_container v2 ∧
       ComputeSystemV2.HostedSystem v2 = None ∧
       ComputeSystemV2.HostingSystemId v2 = ""
     else
       hostingSystem = uvm_Container ∧
       layerFolderPath = "" ∧ volumePath = "" ∧
       storagePath = ContainersResourcesStorageV2.Path storage ∧
       hvPartition = false ∧ hvRuntime = None ∧
       v1Layers = [] ∧ v2Layers = ContainersResourcesStorageV2.Layers storage ∧
       ComputeSystemV2.Container v2 = None ∧
       HostedSystemV2.SchemaVersion_ <$> ComputeSystemV2.HostedSystem v2
         = Some schemaV20 ∧
       ComputeSystemV2.HostingSystemId v2 = container_id (uvm w)) ∧
    ComputeSystemV2.Owner v2 = CreateOptions.Owner createOptions ∧
    ComputeSystemV2.SchemaVersion_ v2 = schemaV20 ∧
    ComputeSystemV2.ShouldTerminateOnLastHandleClosed v2 = true ∧
    ComputeSystemV2.VirtualMachine v2 = None ∧
    v1 =
      {| ContainerConfig.SystemType := "Container";
         ContainerConfig.Name := CreateOptions.Id createOptions;
         ContainerConfig.Owner := CreateOptions.Owner createOptions;
         ContainerConfig.HvPartition := hvPartition;
         ContainerConfig.IgnoreFlushesDuringBoot :=
           specs.Windows.IgnoreFlushesDuringBoot windows;
         ContainerConfig.HostName := specs.Spec.Hostname spec;
         ContainerConfig.ProcessorCount := n;
         ContainerConfig.ProcessorWeight :=
           match shares with Some s => uint64 s | None => 0 end;
         ContainerConfig.ProcessorMaximum :=
           match maximum with Some m => int64 m | None => 0 end;
         ContainerConfig.MemoryMaximumInMB :=
           match limit with
           | Some l => Z.quot (Z.quot (int64 l) 1024) 1024
           | None => 0
           end;
         ContainerConfig.StorageBandwidthMaximum :=
           match bps with Some b => b | None => 0 end;
         ContainerConfig.StorageIOPSMaximum :=
           match iops with Some i => i | None => 0 end;
         ContainerConfig.EndpointList :=
           match network with
           | Some n => specs.WindowsNetwork.EndpointList n
           | None => []
           end;
         ContainerConfig.AllowUnqualifiedDNSQuery :=
           match network with
           | Some n => specs.WindowsNetwork.AllowUnqualifiedDNSQuery n
           | None => false
           end;
         ContainerConfig.DNSSearchList :=
           match network ≫= specs.WindowsNetwork.DNSSearchList with
           | Some l => strings_Join l ","
           | None => ""
           end;
         ContainerConfig.NetworkSharedContainerName :=
           match network with
           | Some n => specs.WindowsNetwork.NetworkSharedContainerName n
           | None => ""
           end;
         ContainerConfig.Credentials :=
           match specs.Windows.CredentialSpec windows with
           | string_value cs => cs
           | _ => ""
           end;
         ContainerConfig.LayerFolderPath := layerFolderPath;
         ContainerConfig.VolumePath := volumePath;
         ContainerConfig.HvRuntime := hvRuntime;
         ContainerConfig.Layers := v1Layers;
         ContainerConfig.MappedDirectories := mdsv1 maps;
         ContainerConfig.MappedPipes := mpsv1 maps |} ∧
    v2_container v2 = Some
      {| ContainerV2.Storage :=
           {| ContainersResourcesStorageV2.Layers := v2Layers;
              ContainersResourcesStorageV2.Path := storagePath;
              ContainersResourcesStorageV2.StorageQoS :=
                if isset bps || isset iops
                then Some {| ContainersResourcesStorageQoSV2.IOPSMaximum :=
                               match iops with Some i => i | None => 0 end;
                             ContainersResourcesStorageQoSV2.BandwidthMaximum :=
                               match bps with Some b => b | None => 0 end |}
                else ContainersResourcesStorageV2.StorageQoS storage |};
         ContainerV2.GuestOS :=
           if negb (String.eqb (specs.Spec.Hostname spec) "")
           then Some {| GuestOsV2.HostName := specs.Spec.Hostname spec |} else None;
         ContainerV2.Processor :=
           if isset (cpu ≫= specs.WindowsCPUResources.Count) || isset shares || isset maximum
           then Some {| ContainersResourcesProcessorV2.Count := n;
                        ContainersResourcesProcessorV2.Weight :=
                          match shares with Some s => uint64 s | None => 0 end;
                        ContainersResourcesProcessorV2.Maximum :=
                          match maximum with
                          | Some _ =>
                              uint64 match maximum with Some m => int64 m | None => 0 end
                          | None => 0
                          end |}
           else None;
         ContainerV2.Memory :=
           match limit with
           | Some _ =>
               Some {| ContainersResourcesMemoryV2.Maximum :=
                         uint64 match limit with
                                | Some l => Z.quot (Z.quot (int64 l) 1024) 1024
                                | None => 0
                                end |}
           | None => None
           end;
         ContainerV2.Networking :=
           match network with
           | Some _ =>
               Some {| ContainersResourcesNetworkingV2.NetworkAdapters :=
                         match network with
                         | Some n => specs.WindowsNetwork.EndpointList n
                         | None => []
                         end;
                       ContainersResourcesNetworkingV2.AllowUnqualifiedDnsQuery :=
                         match network with
                         | Some n => specs.WindowsNetwork.AllowUnqualifiedDNSQuery n
                         | None => false
                         end;
                       ContainersResourcesNetworkingV2.DNSSearchList :=
                         match network ≫= specs.WindowsNetwork.DNSSearchList with
                         | Some l => strings_Join l ","
                         | None => ""
                         end;
                       ContainersResourcesNetworkingV2.NetworkSharedContainerName :=
                         match network with
                         | Some n => specs.WindowsNetwork.NetworkSharedContainerName n
                         | None => ""
                         end |}
           | None => None
           end;
         ContainerV2.MappedDirectories := mdsv2 maps;
         ContainerV2.MappedPipes := mpsv2 maps |}.
Proof.
  intros Hrun. unfold HCSContainerDocuments in Hrun.
  destruct (CreateOptions.Spec createOptions) as [spec|] eqn:Hspec; [|discriminate].
  destruct (specs.Spec.Windows spec) as [windows|] eqn:Hwin; [|discriminate].
  cbv zeta in Hrun.
  unfold mbind at 1, M_bind at 1, mret at 1, M_ret at 1 in Hrun.
  destruct (document_storage createOptions) as [storage|e] eqn:Hstorage; [|discriminate].
  unfold mbind at 1, M_bind at 1 in Hrun.
  destruct (document_cpu_count_runs (Resources_CPU windows) w) as (n & entries & Hcpu & Hn).
  rewrite Hcpu in Hrun.
  set (w1 := {| uvm := uvm w; history := history w; logs := logs w ++ entries |}) in *.
  unfold mbind at 1, M_bind at 1 in Hrun.
  assert (Hro : ∀ b : bool,
            b = match specs.Spec.Root spec with
                | Some root => specs.Root.Readonly root
                | None => false
                end →
            b = false →
            ∀ root, specs.Spec.Root spec = Some root → specs.Root.Readonly root = false).
  { intros b -> Hb root Hroot. by rewrite Hroot in Hb. }
  destruct (is_nil (CreateOptions.HostingSystem createOptions)) eqn:Hnil.
  - (* not hosted *)
    unfold last_layer, parent_layers in Hrun.
    destruct (last (specs.Windows.LayerFolders windows)) as [scratch|] eqn:Hlast;
      [|discriminate].
    unfold mbind at 1, M_bind at 1, mret at 1, M_ret at 1 in Hrun.
    assert (Hblock :
      ∃ volumePath storagePath hvPartition hvRuntime,
        match specs.Windows.HyperV windows with
        | None =>
            hvPartition = false ∧ hvRuntime = None ∧
            ∃ root c,
              specs.Spec.Root spec = Some root ∧
              (regexp_MatchString volumeGUIDRegex (specs.Root.Path root)).2 = None ∧
              last_char (specs.Root.Path root) = Some c ∧
              storagePath = (if Ascii.eqb c backslash then specs.Root.Path root
                             else specs.Root.Path root +:+ "\") ∧
              volumePath = drop_last_char storagePath
        | Some hyperV =>
            document_hyperv createOptions spec windows hyperV
              = inl (hvPartition, hvRuntime) ∧
            volumePath = "" ∧
            storagePath = ContainersResourcesStorageV2.Path storage
        end ∧
        match specs.Windows.HyperV windows with
        | Some hyperV =>
            mret (document_hyperv createOptions spec windows hyperV)
            ≫= λ r : bool * option HvRuntime.t + string,
                 match r with
                 | inl (hvPartition, hvRuntime) =>
                     mret (inl (scratch, "", ContainersResourcesStorageV2.Path storage,
                                hvPartition, hvRuntime))
                 | inr e => mret (inr e)
                 end
        | None =>
            document_root spec
            ≫= λ r : string * string + string,
                 match r with
                 | inl (volumePath, rootPath) =>
                     mret (inl (scratch, volumePath, rootPath, false, None))
                 | inr e => mret (inr e)
                 end
        end w1 = Ret (inl (scratch, volumePath, storagePath, hvPartition, hvRuntime)) w1).
    { destruct (specs.Windows.HyperV windows) as [hyperV|].
      - unfold mbind at 1, M_bind at 1, mret at 1, M_ret at 1 in Hrun.
        unfold mbind at 1, M_bind at 1, mret at 1, M_ret at 1.
        destruct (document_hyperv createOptions spec windows hyperV)
          as [[hvPartition hvRuntime]|e]; [|discriminate].
        by exists "", (ContainersResourcesStorageV2.Path storage), hvPartition, hvRuntime.
      - unfold mbind at 1, M_bind at 1 in Hrun. unfold mbind at 1, M_bind at 1.
        destruct (document_root spec w1) as [[[volumePath rootPath]|e] w2|w2|w2] eqn:Hroot;
          try discriminate.
        apply document_root_inv in Hroot as (-> & Hroot).
        exists volumePath, rootPath, false, None. done. }
    destruct Hblock as (volumePath & storagePath & hvPartition & hvRuntime & Hblock & Heq).
    rewrite Heq in Hrun. clear Heq.
    destruct (match specs.Spec.Root spec with
              | Some root => specs.Root.Readonly root
              | None => false
              end) eqn:Hreadonly; [discriminate|].
    unfold mbind at 1, M_bind at 1 in Hrun.
    destruct (specs.Windows.LayerFolders windows) as [|l0 ls] eqn:Hlf; [discriminate|].
    unfold mbind at 1, M_bind at 1, mret at 1 2, M_ret at 1 2 in Hrun.
    destruct (document_layers _ _ _) as [[v1Layers v2Layers]|e] eqn:Hlayers in Hrun;
      [|discriminate].
    unfold mbind at 1, M_bind at 1, mret at 1, M_ret at 1 in Hrun.
    destruct (document_mounts _ _) as [maps|e] eqn:Hmounts in Hrun; [|discriminate].
    destruct ((0 <? length (mpsv1 maps))%nat && (GetOSVersion_Build <? 16299)) eqn:Hpipes;
      [discriminate|].
    injection Hrun as <- <- <-.
    exists spec, windows, storage, n, entries, scratch, volumePath, storagePath,
      hvPartition, hvRuntime, v1Layers, v2Layers, maps.
    cbv zeta. rewrite Hnil, Hlf.
    repeat match goal with |- _ ∧ _ => split end;
      first [done | by eapply Hro | exact Hblock].
  - (* hosted *)
    unfold mret at 1, M_ret at 1 in Hrun.
    destruct (match specs.Spec.Root spec with
              | Some root => specs.Root.Readonly root
              | None => false
              end) eqn:Hreadonly; [discriminate|].
    unfold mbind at 1, M_bind at 1, mret at 1, M_ret at 1 in Hrun.
    unfold mbind at 1, M_bind at 1, mret at 1, M_ret at 1 in Hrun.
    destruct (document_mounts _ _) as [maps|e] eqn:Hmounts in Hrun; [|discriminate].
    destruct ((0 <? length (mpsv1 maps))%nat && (GetOSVersion_Build <? 16299)) eqn:Hpipes;
      [discriminate|].
    destruct (CreateOptions.HostingSystem createOptions) eqn:Hhs; [done|].
    unfold deref in Hrun. munfold. injection Hrun as <- <- <-.
    exists spec, windows, storage, n, entries, "", "",
      (ContainersResourcesStorageV2.Path storage), false, None, [],
      (ContainersResourcesStorageV2.Layers storage), maps.
    cbv zeta. rewrite Hnil.
    repeat match goal with |- _ ∧ _ => split end;
      first [done | by eapply Hro].
Qed.

End ContainerDocument.
(** ** The documents of a container *)

Lemma last_char_app (s : string) (a : Ascii.ascii) :
  last_char (s +:+ String a "") = Some a.
Proof.
  induction s as [|b s IH]; [done|].
  change (String b s +:+ String a "") with (String b (s +:+ String a "")).
  cbn [last_char]. rewrite IH. by destruct s.
Qed.

Lemma drop_last_char_app (s : string) (a : Ascii.ascii) :
  drop_last_char (s +:+ String a "") = s.
Proof.
  induction s as [|b s IH]; [done|].
  change (String b s +:+ String a "") with (String b (s +:+ String a "")).
  cbn [drop_last_char]. rewrite IH. by destruct s.
Qed.

Lemma drop_last_char_restore (s : string) (c : Ascii.ascii) :
  last_char s = Some c → drop_last_char s +:+ String c "" = s.
Proof.
  induction s as [|b s IH]; [done|].
  destruct s as [|b' s']; [by intros [= ->]|].
  intros Hc. change (last_char (String b' s') = Some c) in Hc.
  change (String b (drop_last_char (String b' s') +:+ String c "") = String b (String b' s')).
  by rewrite IH.
Qed.

Lemma mount_ReadOnly_true `{P : Platform} `{H : !Host} (options : list string) :
  mount_ReadOnly options = true ↔ ∃ o, o ∈ options ∧ strings_ToLower o = "ro".
Proof.
  unfold mount_ReadOnly.
  assert (Hgen : ∀ b,
            foldl (λ readOnly o, if String.eqb (strings_ToLower o) "ro" then true else readOnly)
              b options = true ↔
            b = true ∨ ∃ o, o ∈ options ∧ strings_ToLower o = "ro").
  { induction options as [|o options IH]; intros b; cbn [foldl].
    - split; [by left | intros [|(? & []%elem_of_nil & _)]; done].
    - rewrite IH. destruct (String.eqb_spec (strings_ToLower o) "ro") as [Ho|Ho].
      + split; [|by left]. intros _. right. exists o. split; [apply list_elem_of_here | done].
      + split.
        * intros [->|(o' & Hin & Ho')]; [by left|].
          right. exists o'. split; [by apply list_elem_of_further | done].
        * intros [->|(o' & Hin & Ho')]; [by left|].
          apply elem_of_cons in Hin as [->|Hin]; [done|]. right. by exists o'. }
  rewrite Hgen. split; [intros [|]; done | by right].
Qed.

Section ContainerDocumentRuns.
Context `{P : Platform} `{H : !Host}.

Lemma document_layers_runs (layers : list string) :
  layers_have_guids layers →
  ∀ v1Layers v2Layers, ∃ r, document_layers layers v1Layers v2Layers = inl r.
Proof.
  induction 1 as [|lp layers Hlp _ IH]; intros a b; [by eexists|].
  cbn [document_layers]. unfold layer_guid in Hlp.
  destruct (filepath_Split lp) as [dir filename]. cbn [snd] in Hlp.
  destruct (NameToGuid filename) as [g e]. cbn in Hlp. subst e. apply IH.
Qed.

Lemma document_mounts_runs (mounts : list specs.Mount.t) :
  Forall (λ m, specs.Mount.Type_ m = "") mounts →
  ∀ acc, ∃ maps, document_mounts mounts acc = inl maps.
Proof.
  induction 1 as [|m mounts Hm _ IH]; intros acc; [by eexists|].
  cbn [document_mounts]. rewrite Hm. cbn [String.eqb negb].
  destruct (String.prefix pipePrefix (specs.Mount.Destination m)); apply IH.
Qed.

(** The first mount that has a type ends [CreateHCSContainerDocument]. *)
Lemma document_mounts_typed (before after : list specs.Mount.t) (m : specs.Mount.t) :
  Forall (λ m, specs.Mount.Type_ m = "") before →
  specs.Mount.Type_ m ≠ "" →
  ∀ acc,
    document_mounts (before ++ m :: after) acc =
      inr ("invalid container spec - Mount.Type '" +:+ specs.Mount.Type_ m +:+
           "' must not be set").
Proof.
  induction 1 as [|m0 before Hm _ IH]; intros Hty acc.
  - cbn [app document_mounts].
    by destruct (String.eqb_spec (specs.Mount.Type_ m) "").
  - cbn [app document_mounts]. rewrite Hm. cbn [String.eqb negb].
    destruct (String.prefix pipePrefix (specs.Mount.Destination m0)); by apply IH.
Qed.

End ContainerDocumentRuns.
Section ContainerDocumentKinds.
Context `{P : Platform} `{H : !Host}.

Lemma mounts_allowed_pipes (spec : specs.Spec.t) (maps : mapped) :
  mounts_allowed spec →
  document_mounts (specs.Spec.Mounts spec)
    {| mdsv1 := []; mpsv1 := []; mdsv2 := []; mpsv2 := [] |} = inl maps →
  (0 <? length (mpsv1 maps))%nat && (GetOSVersion_Build <? 16299) = false.
Proof.
  intros [_ [Hnone|Hbuild]] Hmaps.
  - apply document_mounts_inv in Hmaps as (_ & _ & -> & _). cbn [app mpsv1].
    replace (filter (λ m, is_pipe m = true) (specs.Spec.Mounts spec)) with (@nil specs.Mount.t);
      [done|].
    symmetry. induction Hnone as [|m ms Hm _ IH]; [done|].
    rewrite filter_cons_False by (by rewrite Hm). exact IH.
  - destruct (Z.ltb_spec GetOSVersion_Build 16299); [lia|]. apply andb_false_r.
Qed.

(** A process-isolated container gets its documents. *)
Lemma process_isolated_runs (createOptions : CreateOptions.t) (spec : specs.Spec.t)
    (windows : specs.Windows.t) (root : specs.Root.t) (scratch : string)
    (c : Ascii.ascii) (w : World) :
  process_isolated createOptions spec windows root scratch →
  (regexp_MatchString volumeGUIDRegex (specs.Root.Path root)).2 = None →
  last_char (specs.Root.Path root) = Some c →
  specs.Root.Readonly root = false →
  layers_have_guids (read_only_layers windows) →
  mounts_allowed spec →
  ∃ v1 v2 w', HCSContainerDocuments createOptions w = Ret (inl (v1, v2)) w'.
Proof.
  intros (Hspec & Hwin & Hhs & Hhv & Hroot & Hlast) Hre Hc Hro Hguids Hmounts.
  unfold HCSContainerDocuments. rewrite Hspec, Hwin. cbv zeta.
  unfold document_storage. rewrite Hhs. cbn [is_nil].
  unfold mbind at 1, M_bind at 1, mret at 1, M_ret at 1.
  destruct (document_cpu_count_runs (Resources_CPU windows) w) as (n & entries & Hcpu & _).
  unfold mbind at 1, M_bind at 1. rewrite Hcpu.
  unfold last_layer, parent_layers, read_only_layers in *. rewrite Hlast, Hhv.
  unfold document_root. rewrite Hroot, Hre, Hc, Hro.
  destruct (specs.Windows.LayerFolders windows) as [|l0 ls]; [done|].
  destruct (document_layers_runs _ Hguids [] []) as [[v1Layers v2Layers] Hlayers].
  destruct (document_mounts_runs _ (proj1 Hmounts)
              {| mdsv1 := []; mpsv1 := []; mdsv2 := []; mpsv2 := [] |}) as [maps Hmaps].
  pose proof (mounts_allowed_pipes spec maps Hmounts Hmaps) as Hpipes.
  munfold. cbn [ContainersResourcesStorageV2.Layers]. rewrite Hlayers, Hmaps, Hpipes.
  by eexists _, _, _.
Qed.

(** A hosted container gets its documents. *)
Lemma hosted_runs (createOptions : CreateOptions.t) (spec : specs.Spec.t)
    (windows : specs.Windows.t) (mountedLayers : ContainersResourcesStorageV2.t)
    (w : World) :
  hosted createOptions spec windows mountedLayers →
  root_writable spec →
  mounts_allowed spec →
  ∃ v1 v2 w', HCSContainerDocuments createOptions w = Ret (inl (v1, v2)) w'.
Proof.
  intros (Hspec & Hwin & Hhs & Hml) Hro Hmounts.
  unfold HCSContainerDocuments. rewrite Hspec, Hwin. cbv zeta.
  unfold document_storage. rewrite Hhs, Hml. cbn [is_nil].
  unfold mbind at 1, M_bind at 1, mret at 1, M_ret at 1.
  destruct (document_cpu_count_runs (Resources_CPU windows) w) as (n & entries & Hcpu & _).
  unfold mbind at 1, M_bind at 1. rewrite Hcpu.
  assert (Hreadonly : match specs.Spec.Root spec with
                      | Some root => specs.Root.Readonly root
                      | None => false
                      end = false).
  { destruct (specs.Spec.Root spec) as [root|] eqn:Hroot; [by apply Hro | done]. }
  destruct (document_mounts_runs _ (proj1 Hmounts)
              {| mdsv1 := []; mpsv1 := []; mdsv2 := []; mpsv2 := [] |}) as [maps Hmaps].
  pose proof (mounts_allowed_pipes spec maps Hmounts Hmaps) as Hpipes.
  munfold. rewrite Hreadonly, Hmaps, Hpipes.
  by eexists _, _, _.
Qed.

End ContainerDocumentKinds.
Lemma last_char_nonempty (s : string) : s ≠ "" → ∃ c, last_char s = Some c.
Proof.
  induction s as [|a s IH]; [done|]. intros _.
  destruct s as [|b s']; [by exists a|]. destruct IH as [c Hc]; [done|]. by exists c.
Qed.

Section ContainerDocumentProperties.
Context `{P : Platform} `{H : !Host}.

(** X17. The root of a process-isolated container (not hosted, no HyperV
    section).  Any root path that is not empty is taken, whether or not it
    matches the volume GUID pattern: only an error of the matcher itself
    would refuse it.  The path is written to the v2 document with exactly
    one backslash added when it does not end in one, and to the v1
    document as the same path without its final backslash.  The folder of
    the sandbox is the last layer folder. *)
Theorem process_isolated_root_path (createOptions : CreateOptions.t) (spec : specs.Spec.t)
    (windows : specs.Windows.t) (root : specs.Root.t) (scratch : string)
    (matched : bool) (w : World) :
  process_isolated createOptions spec windows root scratch →
  regexp_MatchString volumeGUIDRegex (specs.Root.Path root) = (matched, None) →
  specs.Root.Path root ≠ "" →
  specs.Root.Readonly root = false →
  layers_have_guids (read_only_layers windows) →
  mounts_allowed spec →
  ∃ v1 v2 container w',
    HCSContainerDocuments createOptions w = Ret (inl (v1, v2)) w' ∧
    ComputeSystemV2.Container v2 = Some container ∧
    let rootPath :=
      ContainersResourcesStorageV2.Path (ContainerV2.Storage container) in
    last_char rootPath = Some backslash ∧
    (last_char (specs.Root.Path root) = Some backslash → rootPath = specs.Root.Path root) ∧
    (last_char (specs.Root.Path root) ≠ Some backslash →
     rootPath = specs.Root.Path root +:+ "\") ∧
    ContainerConfig.VolumePath v1 +:+ "\" = rootPath ∧
    ContainerConfig.LayerFolderPath v1 = scratch ∧
    ContainerConfig.HvPartition v1 = false ∧
    ContainerConfig.HvRuntime v1 = None.
Proof.
  intros Hkind Hre Hne Hro Hguids Hmounts.
  destruct (last_char_nonempty _ Hne) as [c Hc].
  destruct (process_isolated_runs createOptions spec windows root scratch c w Hkind)
    as (v1 & v2 & w' & Hrun); try done; [by rewrite Hre|].
  destruct Hkind as (Hspec & Hwin & Hhs & Hhv & Hroot & Hlast).
  destruct (HCSContainerDocuments_inv _ _ _ _ _ Hrun)
    as (spec' & windows' & storage & n & entries & lfp & vp & sp & hvp & hvr & l1 & l2 &
        maps & Hspec' & Hwin' & _ & _ & _ & _ & _ & _ & Hmode & _ & _ & _ & _ & Hv1 & Hv2).
  cbv zeta in *. rewrite Hspec in Hspec'. injection Hspec' as <-.
  rewrite Hwin in Hwin'. injection Hwin' as <-.
  rewrite Hhs in Hmode. cbn [is_nil] in Hmode. rewrite Hhv, Hlast in Hmode.
  destruct Hmode as ([= <-] & _ & (-> & -> & root' & c' & Hroot' & _ & Hc' & Hsp & Hvp)
                     & Hcont & _).
  rewrite Hroot in Hroot'. injection Hroot' as <-.
  rewrite Hc in Hc'. injection Hc' as <-.
  rewrite <- Hcont in Hv2.
  eexists v1, v2, _, w'. split; [exact Hrun|]. split; [exact Hv2|].
  cbn [ContainerV2.Storage ContainersResourcesStorageV2.Path]. rewrite Hv1.
  cbn [ContainerConfig.VolumePath ContainerConfig.LayerFolderPath
       ContainerConfig.HvPartition ContainerConfig.HvRuntime].
  assert (Hend : last_char sp = Some backslash).
  { rewrite Hsp. destruct (Ascii.eqb_spec c backslash) as [->|]; [done|].
    apply last_char_app. }
  split; [exact Hend|].
  split; [|split; [|split; [|done]]].
  - rewrite Hc. intros [= ->]. by rewrite Hsp, Ascii.eqb_refl.
  - rewrite Hc. intros Hnb. rewrite Hsp.
    destruct (Ascii.eqb_spec c backslash) as [->|]; done.
  - rewrite Hvp. by apply drop_last_char_restore.
Qed.

(** X18. Two inputs on which [CreateHCSContainerDocument] panics instead
    of returning an error, for a container that is not hosted: a
    specification without layer folders, and, when there is no HyperV
    section, a root whose path is the empty string (which the matcher did
    not refuse). *)
Theorem HCSContainerDocuments_panics (createOptions : CreateOptions.t)
    (spec : specs.Spec.t) (windows : specs.Windows.t) (w : World) :
  CreateOptions.Spec createOptions = Some spec →
  specs.Spec.Windows spec = Some windows →
  CreateOptions.HostingSystem createOptions = nil_Container →
  (specs.Windows.LayerFolders windows = [] →
   ∃ w', HCSContainerDocuments createOptions w = Panic w') ∧
  (∀ root scratch,
     last (specs.Windows.LayerFolders windows) = Some scratch →
     specs.Windows.HyperV windows = None →
     specs.Spec.Root spec = Some root →
     specs.Root.Path root = "" →
     (regexp_MatchString volumeGUIDRegex "").2 = None →
     ∃ w', HCSContainerDocuments createOptions w = Panic w').
Proof.
  intros Hspec Hwin Hhs.
  destruct (document_cpu_count_runs (Resources_CPU windows) w) as (n & entries & Hcpu & _).
  split.
  - intros Hlf.
    unfold HCSContainerDocuments. rewrite Hspec, Hwin. cbv zeta.
    unfold document_storage. rewrite Hhs. cbn [is_nil].
    unfold mbind at 1, M_bind at 1, mret at 1, M_ret at 1.
    unfold mbind at 1, M_bind at 1. rewrite Hcpu.
    unfold last_layer. rewrite Hlf. cbn [last].
    unfold mbind at 1 2, M_bind at 1 2, panic. by eexists.
  - intros root scratch Hlast Hhv Hroot Hpath Hre.
    unfold HCSContainerDocuments. rewrite Hspec, Hwin. cbv zeta.
    unfold document_storage. rewrite Hhs. cbn [is_nil].
    unfold mbind at 1, M_bind at 1, mret at 1, M_ret at 1.
    unfold mbind at 1, M_bind at 1. rewrite Hcpu.
    unfold last_layer, document_root. rewrite Hlast, Hhv, Hroot, Hpath, Hre.
    cbn [last_char].
    unfold mbind at 1 2 3, M_bind at 1 2 3, mret at 1, M_ret at 1, panic. by eexists.
Qed.

(** X19. When [CreateHCSContainerDocument] gets as far as its documents,
    the mounts of the specification are split in two without loss and in
    their order: the ones whose destination starts with the pipe prefix
    are the mapped pipes, named by the rest of the destination, and the
    others are the mapped directories.  None of them has a type, and pipes
    are only there on build 16299 or later.  A directory is read-only
    exactly when one of its options is ro once put in lower case. *)
Theorem HCSContainerDocuments_mounts (createOptions : CreateOptions.t) (w w' : World)
    (v1 : ContainerConfig.t) (v2 : ComputeSystemV2.t) :
  HCSContainerDocuments createOptions w = Ret (inl (v1, v2)) w' →
  ∃ spec,
    CreateOptions.Spec createOptions = Some spec ∧
    let mounts := specs.Spec.Mounts spec in
    Forall (λ m, specs.Mount.Type_ m = "") mounts ∧
    ContainerConfig.MappedDirectories v1 =
      ((λ m, {| MappedDir.HostPath := specs.Mount.Source m;
                MappedDir.ContainerPath := specs.Mount.Destination m;
                MappedDir.ReadOnly := mount_ReadOnly (specs.Mount.Options m) |})
         <$> filter (λ m, is_pipe m = false) mounts) ∧
    ContainerConfig.MappedPipes v1 =
      ((λ m, {| MappedPipe.HostPath := specs.Mount.Source m;
                MappedPipe.ContainerPipeName :=
                  string_drop (String.length pipePrefix) (specs.Mount.Destination m) |})
         <$> filter (λ m, is_pipe m = true) mounts) ∧
    (ContainerConfig.MappedPipes v1 = [] ∨ 16299 ≤ GetOSVersion_Build) ∧
    (∀ options,
       mount_ReadOnly options = true ↔ ∃ o, o ∈ options ∧ strings_ToLower o = "ro").
Proof.
  intros Hrun.
  destruct (HCSContainerDocuments_inv _ _ _ _ _ Hrun)
    as (spec & windows & storage & n & entries & lfp & vp & sp & hvp & hvr & l1 & l2 &
        maps & Hspec & _ & _ & _ & _ & _ & Hmaps & Hpipes & _ & _ & _ & _ & _ & Hv1 & _).
  cbv zeta in *. exists spec. split; [exact Hspec|].
  apply document_mounts_inv in Hmaps as (Hall & Hd & Hp & _).
  rewrite Hv1. cbn [ContainerConfig.MappedDirectories ContainerConfig.MappedPipes].
  split; [exact Hall|]. split; [exact Hd|]. split; [exact Hp|].
  split; [|apply mount_ReadOnly_true].
  apply andb_false_iff in Hpipes as [Hlen|Hbuild].
  - left. destruct (mpsv1 maps); [done|]. cbn in Hlen. discriminate.
  - right. by destruct (Z.ltb_spec GetOSVersion_Build 16299).
Qed.

(** X20. The two documents describe the same container.  Whenever both
    are built, the v2 container has exactly the sections the specification
    asks for, and every setting of a section repeats the v1 document: the
    owner and the host name; the processor section (present when a count,
    a weight or a maximum is given) with the v1 count, weight and maximum;
    the memory section (present when a limit is given) with the v1 maximum;
    the network section (present when the specification has one) with the
    v1 endpoints and DNS settings; the mapped directories and pipes; the
    storage limits (present when a bandwidth or an IOPS limit is given,
    otherwise those of the storage object the caller supplied); and, for a
    container that is not hosted, the layers.  Where a section is absent
    the v1 document holds the zero values. *)
Theorem HCSContainerDocuments_agree (createOptions : CreateOptions.t) (w w' : World)
    (v1 : ContainerConfig.t) (v2 : ComputeSystemV2.t) :
  HCSContainerDocuments createOptions w = Ret (inl (v1, v2)) w' →
  ∃ spec windows storage c,
    let cpu := Resources_CPU windows in
    let count := cpu ≫= specs.WindowsCPUResources.Count in
    let shares := cpu ≫= specs.WindowsCPUResources.Shares in
    let maximum := cpu ≫= specs.WindowsCPUResources.Maximum in
    let limit := Resources_Memory windows ≫= specs.WindowsMemoryResources.Limit in
    let bps := Resources_Storage windows ≫= specs.WindowsStorageResources.Bps in
    let iops := Resources_Storage windows ≫= specs.WindowsStorageResources.Iops in
    CreateOptions.Spec createOptions = Some spec ∧
    specs.Spec.Windows spec = Some windows ∧
    document_storage createOptions = inl storage ∧
    v2_container v2 = Some c ∧
    ComputeSystemV2.Owner v2 = ContainerConfig.Owner v1 ∧
    ContainerV2.GuestOS c =
      (if String.eqb (ContainerConfig.HostName v1) "" then None
       else Some {| GuestOsV2.HostName := ContainerConfig.HostName v1 |}) ∧
    ContainerV2.Processor c =
      (if isset count || isset shares || isset maximum then
         Some {| ContainersResourcesProcessorV2.Count := ContainerConfig.ProcessorCount v1;
                 ContainersResourcesProcessorV2.Weight :=
                   ContainerConfig.ProcessorWeight v1;
                 ContainersResourcesProcessorV2.Maximum :=
                   uint64 (ContainerConfig.ProcessorMaximum v1) |}
       else None) ∧
    (ContainerV2.Processor c = None →
     ContainerConfig.ProcessorCount v1 = 0 ∧
     ContainerConfig.ProcessorWeight v1 = 0 ∧
     ContainerConfig.ProcessorMaximum v1 = 0) ∧
    ContainerV2.Memory c =
      (if isset limit then
         Some {| ContainersResourcesMemoryV2.Maximum :=
                   uint64 (ContainerConfig.MemoryMaximumInMB v1) |}
       else None) ∧
    (ContainerV2.Memory c = None → ContainerConfig.MemoryMaximumInMB v1 = 0) ∧
    ContainerV2.Networking c =
      (if isset (specs.Windows.Network windows) then
         Some {| ContainersResourcesNetworkingV2.NetworkAdapters :=
                   ContainerConfig.EndpointList v1;
                 ContainersResourcesNetworkingV2.AllowUnqualifiedDnsQuery :=
                   ContainerConfig.AllowUnqualifiedDNSQuery v1;
                 ContainersResourcesNetworkingV2.DNSSearchList :=
                   ContainerConfig.DNSSearchList v1;
                 ContainersResourcesNetworkingV2.NetworkSharedContainerName :=
                   ContainerConfig.NetworkSharedContainerName v1 |}
       else None) ∧
    (ContainerV2.Networking c = None →
     ContainerConfig.EndpointList v1 = [] ∧
     ContainerConfig.AllowUnqualifiedDNSQuery v1 = false ∧
     ContainerConfig.DNSSearchList v1 = "" ∧
     ContainerConfig.NetworkSharedContainerName v1 = "") ∧
    ContainerV2.MappedDirectories c = MappedDir_v2 <$> ContainerConfig.MappedDirectories v1 ∧
    ContainerV2.MappedPipes c = MappedPipe_v2 <$> ContainerConfig.MappedPipes v1 ∧
    ContainersResourcesStorageV2.StorageQoS (ContainerV2.Storage c) =
      (if isset bps || isset iops then
         Some {| ContainersResourcesStorageQoSV2.IOPSMaximum :=
                   ContainerConfig.StorageIOPSMaximum v1;
                 ContainersResourcesStorageQoSV2.BandwidthMaximum :=
                   ContainerConfig.StorageBandwidthMaximum v1 |}
       else ContainersResourcesStorageV2.StorageQoS storage) ∧
    (isset bps || isset iops = false →
     ContainerConfig.StorageIOPSMaximum v1 = 0 ∧
     ContainerConfig.StorageBandwidthMaximum v1 = 0) ∧
    (CreateOptions.HostingSystem createOptions = nil_Container →
     ContainersResourcesStorageV2.StorageQoS storage = None ∧
     ContainersResourcesStorageV2.Layers (ContainerV2.Storage c)
       = Layer_v2 <$> ContainerConfig.Layers v1).
Proof.
  intros Hrun.
  destruct (HCSContainerDocuments_inv _ _ _ _ _ Hrun)
    as (spec & windows & storage & n & entries & lfp & vp & sp & hvp & hvr & l1 & l2 &
        maps & Hspec & Hwin & Hstorage & _ & Hn & _ & Hmaps & _ & Hmode & Howner & _ & _ &
        _ & Hv1 & Hv2).
  cbv zeta in *. exists spec, windows, storage. eexists.
  split; [exact Hspec|]. split; [exact Hwin|]. split; [exact Hstorage|].
  split; [exact Hv2|].
  rewrite Hv1, Howner. clear Hv1 Hv2 Howner. cbn.
  apply document_mounts_inv in Hmaps as (_ & _ & _ & Hd2 & Hp2).
  split; [reflexivity|].
  split; [by destruct (String.eqb _ _)|].
  split.
  { destruct (isset _ || isset _ || isset _); [|done]. do 2 f_equal.
    by destruct (Resources_CPU windows ≫= specs.WindowsCPUResources.Maximum). }
  split.
  { destruct (Resources_CPU windows ≫= specs.WindowsCPUResources.Count);
      destruct (Resources_CPU windows ≫= specs.WindowsCPUResources.Shares);
      destruct (Resources_CPU windows ≫= specs.WindowsCPUResources.Maximum);
      cbn; try discriminate.
    intros _. by destruct Hn as [-> _]. }
  split.
  { by destruct (Resources_Memory windows ≫= specs.WindowsMemoryResources.Limit). }
  split.
  { by destruct (Resources_Memory windows ≫= specs.WindowsMemoryResources.Limit). }
  split; [by destruct (specs.Windows.Network windows)|].
  split; [by destruct (specs.Windows.Network windows)|].
  split; [by apply Hd2|]. split; [by apply Hp2|].
  split; [by destruct (isset _ || isset _)|].
  split.
  { destruct (Resources_Storage windows ≫= specs.WindowsStorageResources.Bps);
      destruct (Resources_Storage windows ≫= specs.WindowsStorageResources.Iops);
      cbn; done. }
  intros Hhs. rewrite Hhs in Hmode. cbn [is_nil] in Hmode.
  destruct Hmode as (_ & Hlayers & _).
  unfold document_storage in Hstorage. rewrite Hhs in Hstorage. cbn [is_nil] in Hstorage.
  injection Hstorage as <-. cbn in *.
  apply document_layers_inv in Hlayers as (_ & _ & Hl2).
  split; [reflexivity | by apply Hl2].
Qed.

(** X21. The processor count.  Whenever the documents are built, a count
    in the specification is written to them cut down to the number of
    processors of the host, and a count that was cut down leaves one
    warning in the log.  That warning is the only effect the function has
    on the state. *)
Theorem HCSContainerDocuments_cpu_count (createOptions : CreateOptions.t) (w w' : World)
    (v1 : ContainerConfig.t) (v2 : ComputeSystemV2.t) :
  HCSContainerDocuments createOptions w = Ret (inl (v1, v2)) w' →
  ∃ spec windows,
    CreateOptions.Spec createOptions = Some spec ∧
    specs.Spec.Windows spec = Some windows ∧
    uvm w' = uvm w ∧ history w' = history w ∧
    match Resources_CPU windows ≫= specs.WindowsCPUResources.Count with
    | None => ContainerConfig.ProcessorCount v1 = 0 ∧ logs w' = logs w
    | Some cpuCount =>
        ContainerConfig.ProcessorCount v1 = uint32 (Z.min cpuCount (uint64 numCPU)) ∧
        logs w' = logs w ++
          (if uint64 numCPU <? cpuCount then [cpu_count_warning cpuCount] else [])
    end.
Proof.
  intros Hrun.
  destruct (HCSContainerDocuments_inv _ _ _ _ _ Hrun)
    as (spec & windows & storage & n & entries & lfp & vp & sp & hvp & hvr & l1 & l2 &
        maps & Hspec & Hwin & _ & -> & Hn & _ & _ & _ & _ & _ & _ & _ & _ & Hv1 & _).
  cbv zeta in *. exists spec, windows.
  split; [exact Hspec|]. split; [exact Hwin|]. split; [done|]. split; [done|].
  rewrite Hv1. cbn [ContainerConfig.ProcessorCount logs].
  destruct (Resources_CPU windows ≫= specs.WindowsCPUResources.Count).
  - by destruct Hn as [-> ->].
  - destruct Hn as [-> ->]. by rewrite app_nil_r.
Qed.

(** X22. A hosted container.  With mounted layers, a root that is not
    read-only and mounts that are allowed, the documents are built whatever
    the layer folders and the HyperV section of the specification are: the
    layer folders are not read.  The v2 document names the utility VM of
    the state as hosting system and carries the container as hosted
    system in schema 2.0; the layers and the path of its storage are the
    mounted layers, untouched, and the v1 document has no layer, no sandbox
    folder and no volume path. *)
Theorem hosted_documents (createOptions : CreateOptions.t) (spec : specs.Spec.t)
    (windows : specs.Windows.t) (mountedLayers : ContainersResourcesStorageV2.t)
    (w : World) :
  hosted createOptions spec windows mountedLayers →
  root_writable spec →
  mounts_allowed spec →
  ∃ v1 v2 c w',
    HCSContainerDocuments createOptions w = Ret (inl (v1, v2)) w' ∧
    ComputeSystemV2.Container v2 = None ∧
    ComputeSystemV2.HostedSystem v2 =
      Some {| HostedSystemV2.SchemaVersion_ := schemaV20; HostedSystemV2.Container := c |} ∧
    ComputeSystemV2.HostingSystemId v2 = container_id (uvm w) ∧
    ContainersResourcesStorageV2.Layers (ContainerV2.Storage c)
      = ContainersResourcesStorageV2.Layers mountedLayers ∧
    ContainersResourcesStorageV2.Path (ContainerV2.Storage c)
      = ContainersResourcesStorageV2.Path mountedLayers ∧
    ContainerConfig.Layers v1 = [] ∧
    ContainerConfig.LayerFolderPath v1 = "" ∧
    ContainerConfig.VolumePath v1 = "" ∧
    ContainerConfig.HvRuntime v1 = None.
Proof.
  intros Hkind Hro Hmounts.
  destruct (hosted_runs createOptions spec windows mountedLayers w Hkind Hro Hmounts)
    as (v1 & v2 & w' & Hrun).
  destruct Hkind as (Hspec & Hwin & Hhs & Hml).
  destruct (HCSContainerDocuments_inv _ _ _ _ _ Hrun)
    as (spec' & windows' & storage & n & entries & lfp & vp & sp & hvp & hvr & l1 & l2 &
        maps & _ & _ & Hstorage & _ & _ & _ & _ & _ & Hmode & _ & _ & _ & _ & Hv1 & Hv2).
  cbv zeta in *. rewrite Hhs in Hmode. cbn [is_nil] in Hmode.
  destruct Hmode as (_ & -> & -> & -> & -> & -> & -> & -> & Hcont & Hsv & Hid).
  unfold document_storage in Hstorage. rewrite Hhs, Hml in Hstorage. cbn [is_nil] in Hstorage.
  injection Hstorage as <-.
  unfold v2_container in Hv2. rewrite Hcont in Hv2.
  destruct (ComputeSystemV2.HostedSystem v2) as [[sv c]|] eqn:Hhosted; [|done].
  cbn in Hsv, Hv2. injection Hsv as ->. injection Hv2 as ->.
  eexists v1, v2, _, w'. split; [exact Hrun|]. split; [exact Hcont|].
  split; [exact Hhosted|]. split; [exact Hid|]. by rewrite Hv1.
Qed.

(** X23. The image of a Hyper-V container in the v1 document.  For a
    container that is not hosted and has a HyperV section, the documents
    are only built when the root has no path; they have no volume path.
    With schema 1.0 the container is marked as a Hyper-V partition and its
    image is the utility VM path of the specification or, when that is
    empty, the folder [UVMFolderFromLayerFolders] finds in the layer
    folders; with another schema the v1 document carries neither. *)
Theorem hyperv_documents (createOptions : CreateOptions.t) (spec : specs.Spec.t)
    (windows : specs.Windows.t) (hyperV : specs.WindowsHyperV.t) (w w' : World)
    (v1 : ContainerConfig.t) (v2 : ComputeSystemV2.t) :
  HCSContainerDocuments createOptions w = Ret (inl (v1, v2)) w' →
  CreateOptions.Spec createOptions = Some spec →
  specs.Spec.Windows spec = Some windows →
  CreateOptions.HostingSystem createOptions = nil_Container →
  specs.Windows.HyperV windows = Some hyperV →
  (∀ root, specs.Spec.Root spec = Some root → specs.Root.Path root = "") ∧
  ContainerConfig.VolumePath v1 = "" ∧
  if IsV10 (CreateOptions.SchemaVersion_ createOptions) then
    ContainerConfig.HvPartition v1 = true ∧
    ∃ image,
      ContainerConfig.HvRuntime v1 = Some {| HvRuntime.ImagePath := image |} ∧
      (specs.WindowsHyperV.UtilityVMPath hyperV ≠ "" →
       image = specs.WindowsHyperV.UtilityVMPath hyperV) ∧
      (specs.WindowsHyperV.UtilityVMPath hyperV = "" →
       UVMFolderFromLayerFolders (specs.Windows.LayerFolders windows) = (image, None))
  else
    ContainerConfig.HvPartition v1 = false ∧ ContainerConfig.HvRuntime v1 = None.
Proof.
  intros Hrun Hspec Hwin Hhs Hhv.
  destruct (HCSContainerDocuments_inv _ _ _ _ _ Hrun)
    as (spec' & windows' & storage & n & entries & lfp & vp & sp & hvp & hvr & l1 & l2 &
        maps & Hspec' & Hwin' & _ & _ & _ & _ & _ & _ & Hmode & _ & _ & _ & _ & Hv1 & _).
  cbv zeta in *. rewrite Hspec in Hspec'. injection Hspec' as <-.
  rewrite Hwin in Hwin'. injection Hwin' as <-.
  rewrite Hhs in Hmode. cbn [is_nil] in Hmode. rewrite Hhv in Hmode.
  destruct Hmode as (_ & _ & (Hdoc & -> & _) & _).
  rewrite Hv1. cbn [ContainerConfig.VolumePath ContainerConfig.HvPartition
                    ContainerConfig.HvRuntime].
  unfold document_hyperv in Hdoc.
  destruct (specs.Spec.Root spec) as [root|] eqn:Hroot.
  - destruct (String.eqb_spec (specs.Root.Path root) "") as [Hpath|]; [|done].
    cbn [negb] in Hdoc. split; [by intros ? [= <-]|]. split; [done|].
    destruct (IsV10 _); [|by injection Hdoc as <- <-].
    destruct (String.eqb_spec (specs.WindowsHyperV.UtilityVMPath hyperV) "") as [Hu|Hu];
      cbn [negb] in Hdoc.
    + destruct (UVMFolderFromLayerFolders _) as [image [e|]] eqn:Hfind; [done|].
      injection Hdoc as <- <-. split; [done|]. exists image. by repeat split.
    + injection Hdoc as <- <-. split; [done|]. eexists. by repeat split.
  - split; [done|]. split; [done|].
    destruct (IsV10 _); [|by injection Hdoc as <- <-].
    destruct (String.eqb_spec (specs.WindowsHyperV.UtilityVMPath hyperV) "") as [Hu|Hu];
      cbn [negb] in Hdoc.
    + destruct (UVMFolderFromLayerFolders _) as [image [e|]] eqn:Hfind; [done|].
      injection Hdoc as <- <-. split; [done|]. exists image. by repeat split.
    + injection Hdoc as <- <-. split; [done|]. eexists. by repeat split.
Qed.

(** X24. [CreateHCSContainerDocument] for a hosted container, from its
    input alone.  The call always returns (it never panics and never
    blocks: neither the layer folders nor the path of the root is indexed),
    sends nothing to the compute service and leaves the utility VM as it
    was.  Its checks come in this order, and the first that fails decides
    the error, whatever the later ones would say: mounted layers are
    missing; the root is read-only; a mount has a type; there is a named
    pipe on a build before 16299.  The warning for a processor count above
    the host's is logged before the root is looked at, so it is in the log
    even when a later check fails.  When every check passes, the result is
    [json.Marshal] of the v1 document for schema 1.0 and of the v2 document
    otherwise; that v2 document has no container of its own, names the
    utility VM of the state, and carries the container as hosted system.
    Every error comes with the empty string. *)
Theorem CreateHCSContainerDocument_hosted (createOptions : CreateOptions.t)
    (spec : specs.Spec.t) (windows : specs.Windows.t) (w : World) :
  CreateOptions.Spec createOptions = Some spec →
  specs.Spec.Windows spec = Some windows →
  CreateOptions.HostingSystem createOptions = uvm_Container →
  ∃ doc err entries,
    let w' := {| uvm := uvm w; history := history w; logs := logs w ++ entries |} in
    CreateHCSContainerDocument createOptions w = Ret (doc, err) w' ∧
    (isset err = true → doc = "") ∧
    match CreateOptions.MountedLayers createOptions with
    | None =>
        err = Some "v2 schema call for a hosted container must supply mounted layers" ∧
        entries = []
    | Some mountedLayers =>
        entries =
          match Resources_CPU windows ≫= specs.WindowsCPUResources.Count with
          | Some cpuCount =>
              if uint64 numCPU <? cpuCount then [cpu_count_warning cpuCount] else []
          | None => []
          end ∧
        if match specs.Spec.Root spec with
           | Some root => specs.Root.Readonly root
           | None => false
           end
        then err = Some "invalid container spec - readonly is not supported"
        else
          match document_mounts (specs.Spec.Mounts spec)
                  {| mdsv1 := []; mpsv1 := []; mdsv2 := []; mpsv2 := [] |} with
          | inr e => err = Some e
          | inl maps =>
              if (0 <? length (mpsv1 maps))%nat && (GetOSVersion_Build <? 16299)
              then err = Some "named pipe mounts are not supported on this version of Windows"
              else
                ∃ v1 v2 c b,
                  HCSContainerDocuments createOptions w = Ret (inl (v1, v2)) w' ∧
                  (if IsV10 (CreateOptions.SchemaVersion_ createOptions)
                   then json_Marshal_ContainerConfig v1
                   else json_Marshal_ComputeSystemV2 v2) = (b, err) ∧
                  (err = None → doc = b) ∧
                  v2 = {| ComputeSystemV2.Owner := CreateOptions.Owner createOptions;
                          ComputeSystemV2.SchemaVersion_ := schemaV20;
                          ComputeSystemV2.ShouldTerminateOnLastHandleClosed := true;
                          ComputeSystemV2.VirtualMachine := None;
                          ComputeSystemV2.Container := None;
                          ComputeSystemV2.HostingSystemId := container_id (uvm w);
                          ComputeSystemV2.HostedSystem :=
                            Some {| HostedSystemV2.SchemaVersion_ := schemaV20;
                                    HostedSystemV2.Container := c |} |} ∧
                  ContainersResourcesStorageV2.Layers (ContainerV2.Storage c)
                    = ContainersResourcesStorageV2.Layers mountedLayers ∧
                  ContainersResourcesStorageV2.Path (ContainerV2.Storage c)
                    = ContainersResourcesStorageV2.Path mountedLayers ∧
                  ContainerV2.MappedDirectories c = mdsv2 maps ∧
                  ContainerV2.MappedPipes c = mpsv2 maps ∧
                  ContainerConfig.SystemType v1 = "Container" ∧
                  ContainerConfig.Name v1 = CreateOptions.Id createOptions ∧
                  ContainerConfig.Owner v1 = CreateOptions.Owner createOptions ∧
                  ContainerConfig.Layers v1 = [] ∧
                  ContainerConfig.MappedDirectories v1 = mdsv1 maps ∧
                  ContainerConfig.MappedPipes v1 = mpsv1 maps
          end
    end.
Proof.
  intros Hspec Hwin Hhs. cbv zeta.
  unfold CreateHCSContainerDocument. unfold mbind at 1, M_bind at 1.
  remember (HCSContainerDocuments createOptions w) as r eqn:Hdocs.
  unfold HCSContainerDocuments in Hdocs.
  rewrite Hspec, Hwin in Hdocs. cbv zeta in Hdocs.
  unfold document_storage in Hdocs. rewrite Hhs in Hdocs. cbn [is_nil] in Hdocs.
  destruct (CreateOptions.MountedLayers createOptions) as [mountedLayers|].
  2: { exists "", (Some "v2 schema call for a hosted container must supply mounted layers"), [].
       rewrite app_nil_r. subst r. split; [by destruct w|]. done. }
  destruct (document_cpu_count_runs (Resources_CPU windows) w) as (n & entries & Hcpu & Hn).
  assert (Hentries :
            entries =
              match Resources_CPU windows ≫= specs.WindowsCPUResources.Count with
              | Some cpuCount =>
                  if uint64 numCPU <? cpuCount then [cpu_count_warning cpuCount] else []
              | None => []
              end).
  { destruct (Resources_CPU windows ≫= specs.WindowsCPUResources.Count); apply Hn. }
  clear Hn.
  set (w' := {| uvm := uvm w; history := history w; logs := logs w ++ entries |}) in *.
  unfold mbind at 1, M_bind at 1, mret at 1, M_ret at 1 in Hdocs.
  unfold mbind at 1, M_bind at 1 in Hdocs. rewrite Hcpu in Hdocs.
  unfold mbind at 1, M_bind at 1, mret at 1, M_ret at 1 in Hdocs.
  destruct (match specs.Spec.Root spec with
            | Some root => specs.Root.Readonly root
            | None => false
            end) eqn:Hreadonly.
  { exists "", (Some "invalid container spec - readonly is not supported"), entries.
    subst r. done. }
  unfold mbind at 1, M_bind at 1, mret at 1, M_ret at 1 in Hdocs.
  unfold mbind at 1, M_bind at 1, mret at 1, M_ret at 1 in Hdocs.
  destruct (document_mounts _ _) as [maps|e] eqn:Hmounts.
  2: { exists "", (Some e), entries. subst r. done. }
  destruct ((0 <? length (mpsv1 maps))%nat && (GetOSVersion_Build <? 16299)) eqn:Hpipes.
  { exists "", (Some "named pipe mounts are not supported on this version of Windows"),
      entries. subst r. done. }
  unfold deref in Hdocs.
  unfold mbind at 1, M_bind at 1, mret at 1 2, M_ret at 1 2 in Hdocs.
  unfold get_container in Hdocs.
  unfold mbind at 1, M_bind at 1 in Hdocs. cbv beta iota in Hdocs.
  change (uvm w') with (uvm w) in Hdocs.
  rewrite Hdocs. cbv beta iota.
  destruct (IsV10 (CreateOptions.SchemaVersion_ createOptions)).
  - destruct (json_Marshal_ContainerConfig _) as [b [e|]] eqn:Hjson.
    + exists "", (Some e), entries. split; [done|]. split; [done|]. split; [done|].
      eexists _, _, _, b. split; [reflexivity|]. split; [exact Hjson|]. done.
    + exists b, None, entries. split; [done|]. split; [done|]. split; [done|].
      eexists _, _, _, b. split; [reflexivity|]. split; [exact Hjson|]. done.
  - destruct (json_Marshal_ComputeSystemV2 _) as [b [e|]] eqn:Hjson.
    + exists "", (Some e), entries. split; [done|]. split; [done|]. split; [done|].
      eexists _, _, _, b. split; [reflexivity|]. split; [exact Hjson|]. done.
    + exists b, None, entries. split; [done|]. split; [done|]. split; [done|].
      eexists _, _, _, b. split; [reflexivity|]. split; [exact Hjson|]. done.
Qed.

End ContainerDocumentProperties.
(** ** Examples for whole stacks *)

Lemma calm_answers_done : @answers_done calm.
Proof. intros h c. by exists "". Qed.

Lemma Mount_hosted_success_witness :
  @vm_hosted calm uvm_Container SchemaV20 ∧
  free_slot base_shared = Some (0%nat, 1%nat) ∧
  ∃ w',
    @Mount calm three_layers uvm_Container SchemaV20 base_shared =
      Ret (MountedLayers (combined_layers "guid-scratch" ["guid-base"; "guid-ro1"]), None)
          w' ∧
    vsmbShares_guids (uvm w') !! "guid-base" = Some 2 ∧
    vsmbShares_guids (uvm w') !! "guid-ro1" = Some 1 ∧
    scsiLocations_hostPath (uvm w') = table_one_attached ∧
    history w' =
      [CallModify (@vsmb_add_request calm "guid-ro1" "C:\l\ro1");
       CallModify (scsi_add_request "C:\l\scratch\sandbox.vhdx" "C:\guid-scratch" 0 1);
       CallModify (combined_layers_request RequestTypeAdd
                     (combined_layers "guid-scratch" ["guid-base"; "guid-ro1"]))].
Proof.
  assert (Hvm : @vm_hosted calm uvm_Container SchemaV20) by (repeat split).
  assert (Hfree : free_slot base_shared = Some (0%nat, 1%nat)) by reflexivity.
  split; [exact Hvm|]. split; [exact Hfree|].
  destruct (@Mount_hosted_success calm three_layers "C:\l\scratch" "guid-scratch" 1
              uvm_Container SchemaV20 base_shared Hvm eq_refl
              ltac:(repeat constructor) eq_refl eq_refl eq_refl Hfree
              ltac:(apply answers_done_all_accepted, calm_answers_done))
    as (w' & Hrun & _ & _ & Hcount & Hset & _ & _ & Hh & _).
  assert (Hb : bounded_counts 2 (vsmbShares_guids (uvm base_shared))).
  { split; [vm_compute; discriminate|].
    apply map_Forall_insert_2; [vm_compute; split; discriminate | apply map_Forall_empty]. }
  exists w'. split; [exact Hrun|].
  split; [exact (Hcount Hb "guid-base")|].
  split; [exact (Hcount Hb "guid-ro1")|].
  split; [|exact Hh].
  by injection Hset.
Defined.

Lemma Mount_share_add_refused_rolls_back_witness :
  @vm_hosted refusing_share_add uvm_Container SchemaV20 ∧
  ∃ w',
    @Mount refusing_share_add three_layers uvm_Container SchemaV20 base_shared =
      Ret (NoResult, Some "refused") w' ∧
    uvm w' = uvm base_shared ∧
    history w' = [CallModify (@vsmb_add_request refusing_share_add "guid-ro1" "C:\l\ro1")].
Proof.
  assert (Hvm : @vm_hosted refusing_share_add uvm_Container SchemaV20) by (repeat split).
  split; [exact Hvm|].
  assert (Hb : bounded_counts 1 (vsmbShares_guids (uvm base_shared))).
  { split; [vm_compute; discriminate|].
    apply map_Forall_insert_2; [vm_compute; split; discriminate | apply map_Forall_empty]. }
  destruct (@Mount_share_add_refused_rolls_back refusing_share_add three_layers
              ["C:\l\base"] [] "C:\l\ro1" "guid-ro1" "refused"
              uvm_Container SchemaV20 base_shared Hvm eq_refl
              ltac:(repeat constructor) eq_refl eq_refl
              ltac:(intros Hin; change ("guid-ro1" ∈ ["guid-base"]) in Hin;
                    apply list_elem_of_singleton in Hin; discriminate Hin)
              Hb eq_refl I eq_refl)
    as (w' & entries & Hrun & Hu & Hh & _).
  exists w'. split; [exact Hrun|]. split; [exact Hu|]. exact Hh.
Defined.

Lemma Unmount_SCSI_detaches_witness :
  @vm_hosted calm uvm_Container SchemaV20 ∧
  @attached_slot one_mounted "C:\l\scratch\sandbox.vhdx" = Some (0%nat, 1%nat) ∧
  ∃ w',
    @Unmount calm three_layers uvm_Container SchemaV20 UnmountOperationSCSI one_mounted =
      Ret None w' ∧
    slot_free w' 0 1 ∧
    table_get (scsiLocations_hostPath (uvm w')) 0 0 = Some "C:\uvm\sandbox.vhdx" ∧
    vsmbShares_guids (uvm w') = {["guid-base" := 1]} ∧
    history w' = sandbox_teardown.
Proof.
  assert (Hvm : @vm_hosted calm uvm_Container SchemaV20) by (repeat split).
  split; [exact Hvm|]. split; [reflexivity|].
  destruct (@Unmount_SCSI_detaches calm three_layers "C:\l\scratch" "" 0 1
              uvm_Container SchemaV20 one_mounted Hvm ltac:(cbn; lia)
              eq_refl eq_refl eq_refl eq_refl)
    as (w' & Hrun & Hfree & Hframe & Hg & _ & _ & Hh).
  exists w'. split; [exact Hrun|]. split; [exact Hfree|].
  split; [|split; [exact Hg | exact Hh]].
  rewrite Hframe; [reflexivity | intros [_ ?]; discriminate].
Defined.

Lemma Unmount_SCSI_not_attached_witness :
  @vm_hosted calm uvm_Container SchemaV20 ∧
  @attached_slot base_shared "C:\l\scratch\sandbox.vhdx" = None ∧
  ∃ w',
    @Unmount calm three_layers uvm_Container SchemaV20 UnmountOperationSCSI base_shared =
      Ret None w' ∧
    uvm w' = uvm base_shared ∧
    history w' =
      [CallModify (combined_layers_request RequestTypeRemove
                     {| ContainerRootPath := "C:\guid-scratch"; Layers := [] |})].
Proof.
  assert (Hvm : @vm_hosted calm uvm_Container SchemaV20) by (repeat split).
  split; [exact Hvm|]. split; [reflexivity|].
  destruct (@Unmount_SCSI_not_attached calm three_layers "C:\l\scratch"
              uvm_Container SchemaV20 base_shared Hvm ltac:(cbn; lia)
              eq_refl eq_refl eq_refl)
    as (w' & entries & Hrun & Hu & Hh & _).
  exists w'. split; [exact Hrun|]. split; [exact Hu | exact Hh].
Defined.

Lemma Unmount_SCSI_refused_keeps_slot_witness :
  @vm_hosted refusing_disk_remove uvm_Container SchemaV20 ∧
  ∃ w',
    @Unmount refusing_disk_remove three_layers uvm_Container SchemaV20
       UnmountOperationSCSI one_mounted =
      Ret (Some "failed to remove SCSI C:\l\scratch\sandbox.vhdx: refused") w' ∧
    uvm w' = uvm one_mounted ∧
    history w' = sandbox_teardown.
Proof.
  assert (Hvm : @vm_hosted refusing_disk_remove uvm_Container SchemaV20)
    by (repeat split).
  split; [exact Hvm|].
  destruct (@Unmount_SCSI_refused_keeps_slot refusing_disk_remove three_layers
              "C:\l\scratch" "refused" 0 1
              uvm_Container SchemaV20 one_mounted Hvm ltac:(cbn; lia)
              eq_refl eq_refl eq_refl eq_refl)
    as (w' & Hrun & Hu & _ & Hh).
  exists w'. split; [exact Hrun|]. split; [exact Hu | exact Hh].
Defined.

Lemma Mount_then_Unmount_restores_witness :
  @vm_hosted calm uvm_Container SchemaV20 ∧
  @answers_done calm ∧
  free_slot base_shared = Some (0%nat, 1%nat) ∧
  ∃ layers w1 w2 w3,
    @Mount calm three_layers uvm_Container SchemaV20 base_shared =
      Ret (MountedLayers layers, None) w1 ∧
    @Unmount calm three_layers uvm_Container SchemaV20 UnmountOperationSCSI w1 =
      Ret None w2 ∧
    @Unmount calm three_layers uvm_Container SchemaV20 UnmountOperationVSMB w2 =
      Ret None w3 ∧
    uvm w3 = uvm base_shared.
Proof.
  assert (Hvm : @vm_hosted calm uvm_Container SchemaV20) by (repeat split).
  split; [exact Hvm|]. split; [exact calm_answers_done|]. split; [reflexivity|].
  assert (Hb : bounded_counts 2 (vsmbShares_guids (uvm base_shared))).
  { split; [vm_compute; discriminate|].
    apply map_Forall_insert_2; [vm_compute; split; discriminate | apply map_Forall_empty]. }
  exact (@Mount_then_Unmount_restores calm three_layers "C:\l\scratch" "guid-scratch" 1
           uvm_Container SchemaV20 base_shared Hvm ltac:(cbn; lia) eq_refl
           ltac:(repeat constructor) eq_refl Hb eq_refl eq_refl eq_refl eq_refl
           calm_answers_done).
Defined.

Lemma Mount_without_slot_rolls_back_witness :
  @vm_hosted one_name_broken uvm_Container SchemaV20 ∧
  @layer_guid one_name_broken "C:\l\broken" = ("", Some "NameToGuid: invalid name") ∧
  ∃ w',
    @Mount one_name_broken ["C:\l\base"; "C:\l\ro1"; "C:\l\broken"] uvm_Container
       SchemaV20 base_shared = Ret (NoResult, Some "NameToGuid: invalid name") w' ∧
    uvm w' = uvm base_shared ∧
    history w' =
      [CallModify (@vsmb_add_request one_name_broken "guid-ro1" "C:\l\ro1");
       CallModify (vsmb_remove_request "guid-ro1")].
Proof.
  assert (Hvm : @vm_hosted one_name_broken uvm_Container SchemaV20) by (repeat split).
  split; [exact Hvm|]. split; [reflexivity|].
  assert (Hb : bounded_counts 2 (vsmbShares_guids (uvm base_shared))).
  { split; [vm_compute; discriminate|].
    apply map_Forall_insert_2; [vm_compute; split; discriminate | apply map_Forall_empty]. }
  destruct (@Mount_without_slot_rolls_back one_name_broken
              ["C:\l\base"; "C:\l\ro1"; "C:\l\broken"] "C:\l\broken" ""
              "NameToGuid: invalid name" uvm_Container SchemaV20 base_shared
              Hvm eq_refl ltac:(repeat constructor) Hb eq_refl eq_refl
              ltac:(repeat split; by exists "") ltac:(by left))
    as (w' & entries & Hrun & Hu & Hh & _).
  exists w'. split; [exact Hrun|]. split; [exact Hu | exact Hh].
Defined.

Lemma Mount_direct_undoes_failed_steps_witness :
  @direct_mode calm nil_Container SchemaV10 ∧
  ∃ w',
    @Mount calm three_layers nil_Container SchemaV10 base_shared =
      Ret (MountPath "", None) w' ∧
    uvm w' = uvm base_shared ∧
    history w' =
      [CallActivateLayer {| HomeDir := "C:\l" |} "scratch";
       CallPrepareLayer {| HomeDir := "C:\l" |} "scratch" ["C:\l\base"; "C:\l\ro1"];
       CallGetLayerMountPath {| HomeDir := "C:\l" |} "scratch"].
Proof.
  assert (Hd : @direct_mode calm nil_Container SchemaV10) by (by split).
  split; [exact Hd|].
  destruct (@Mount_direct_undoes_failed_steps calm three_layers "C:\l\scratch"
              nil_Container SchemaV10 base_shared Hd ltac:(cbn; lia) eq_refl)
    as (r & w' & cs & Hrun & Hu & Hh & Hcase).
  cbn in Hcase. destruct Hcase as [-> ->].
  exists w'. split; [exact Hrun|]. split; [exact Hu | exact Hh].
Defined.

Lemma Unmount_direct_outcomes_witness :
  @direct_mode calm nil_Container SchemaV10 ∧
  @Unmount calm three_layers nil_Container SchemaV10 UnmountOperationSCSI base_shared =
    Ret (Some "Only UnmountOperationAll is supported in the v1 schema, or for v2 schema argons")
        base_shared ∧
  @Unmount calm [] nil_Container SchemaV10 UnmountOperationAll base_shared =
    Ret (Some "need at least one layer for Unmount") base_shared ∧
  @Unmount calm three_layers nil_Container SchemaV10 UnmountOperationAll base_shared =
    Ret None
      (push_calls [CallUnprepareLayer {| HomeDir := "C:\l" |} "scratch";
                   CallDeactivateLayer {| HomeDir := "C:\l" |} "scratch"] base_shared).
Proof.
  assert (Hd : @direct_mode calm nil_Container SchemaV10) by (by split).
  split; [exact Hd|].
  split; [|split].
  - apply (@Unmount_direct_outcomes calm three_layers nil_Container SchemaV10
             UnmountOperationSCSI base_shared Hd). discriminate.
  - by apply (@Unmount_direct_outcomes calm [] nil_Container SchemaV10
                UnmountOperationAll base_shared Hd).
  - destruct (@Unmount_direct_outcomes calm three_layers nil_Container SchemaV10
                UnmountOperationAll base_shared Hd) as (_ & _ & H3).
    exact (H3 eq_refl "C:\l\scratch" eq_refl).
Defined.

Lemma removeSCSIOnFailure_outcome_witness :
  ∃ w',
    @removeSCSIOnFailure refusing_disk_remove uvm_Container 0 1 one_mounted = Ret tt w' ∧
    scsiLocations_hostPath (uvm w') = table_one_attached ∧
    logs w' = [(WarnLevel, "Possibly leaked SCSI disk on error removal path: refused")].
Proof.
  destruct (@removeSCSIOnFailure_outcome refusing_disk_remove 0 1
              "C:\l\scratch\sandbox.vhdx" one_mounted eq_refl) as [Hfree _].
  destruct (Hfree eq_refl) as (w' & Hrun & _ & _ & _ & Ht & Hlog).
  exists w'. split; [exact Hrun|]. split; [exact Ht | exact Hlog].
Defined.

Lemma Unmount_shared_layers_keeps_shares_witness :
  @vm_hosted calm uvm_Container SchemaV20 ∧
  ∃ w',
    @Unmount calm ["C:\l\base"; "C:\l\scratch"] uvm_Container SchemaV20
      UnmountOperationVSMB (sample_uvm two_shares table_idle) = Ret None w' ∧
    history w' = [] ∧
    vsmbShares_guids (uvm w') !! "guid-base" = Some 1 ∧
    vsmbShares_guids (uvm w') !! "guid-ro1" = Some 1.
Proof.
  assert (Hvm : @vm_hosted calm uvm_Container SchemaV20) by (repeat split).
  split; [exact Hvm|].
  destruct (@Unmount_shared_layers_keeps_shares calm ["C:\l\base"; "C:\l\scratch"]
              uvm_Container SchemaV20 (sample_uvm two_shares table_idle)
              Hvm ltac:(cbn; lia) eq_refl ltac:(repeat constructor))
    as (w' & Hrun & Hh & _ & _ & Hlook & _).
  { intros id Hin. change (id ∈ ["guid-base"]) in Hin.
    apply list_elem_of_singleton in Hin as ->.
    exists 2. split; [reflexivity|]. vm_compute. split; [reflexivity | discriminate]. }
  exists w'. split; [exact Hrun|]. split; [exact Hh|].
  split; [exact (Hlook "guid-base") | exact (Hlook "guid-ro1")].
Defined.
(** ** Examples for the utility VM and the documents *)

Lemma createWCOWv2UVM_creates_witness :
  bare_hosting_spec (uvm_spec "") uvm_windows "C:\uvm" ∧
  ∃ w',
    @createWCOWv2UVM calm sample_host
      (options_of "uvm1" SchemaV20 (uvm_spec "") nil_Container None) base_shared
      = Ret (uvm_Container, None) w' ∧
    container_id (uvm w') = "uvm1" ∧
    table_get (scsiLocations_hostPath (uvm w')) 0 0 = Some "C:\uvm\sandbox.vhdx" ∧
    free_slot w' ≠ Some (0%nat, 0%nat).
Proof.
  assert (Hbare : bare_hosting_spec (uvm_spec "") uvm_windows "C:\uvm")
    by (repeat split).
  split; [exact Hbare|].
  destruct (@createWCOWv2UVM_creates calm sample_host
              (options_of "uvm1" SchemaV20 (uvm_spec "") nil_Container None)
              (uvm_spec "") uvm_windows
              {| specs.WindowsHyperV.UtilityVMPath := "C:\l\base\UtilityVM" |}
              "C:\uvm" "v2 docker" "" (new_container "uvm1") base_shared
              eq_refl eq_refl Hbare eq_refl eq_refl eq_refl eq_refl ltac:(discriminate))
    as (w' & Hrun & Hset & Hu & Hboot & Hfree & _).
  exists w'. split; [exact Hrun|]. split; [by rewrite Hu|].
  split; [by rewrite <- Hboot | exact Hfree].
Defined.

Lemma createWCOWv2UVM_rejects_witness :
  ∃ e,
    @createWCOWv2UVM calm sample_host
      (options_of "uvm1" SchemaV20 (uvm_spec "host1") nil_Container None) base_shared
      = Ret (nil_Container, Some ("invalid OCI spec:" +:+ e)) base_shared.
Proof.
  apply (@createWCOWv2UVM_rejects calm sample_host
           (options_of "uvm1" SchemaV20 (uvm_spec "host1") nil_Container None)
           (uvm_spec "host1") uvm_windows base_shared eq_refl eq_refl).
  intros folder (_ & Hhost & _). discriminate Hhost.
Defined.

Lemma argon_kind :
  @process_isolated calm argon_options (container_spec container_windows (Some volume_root))
    container_windows volume_root "C:\l\scratch".
Proof. by repeat split. Qed.

Lemma sample_mounts_allowed (windows : specs.Windows.t) (root : option specs.Root.t) :
  @mounts_allowed calm sample_host (container_spec windows root).
Proof.
  split; [by repeat constructor|]. right. cbn. lia.
Qed.

Lemma process_isolated_root_path_witness :
  ∃ v1 v2 container w',
    @HCSContainerDocuments calm sample_host argon_options base_shared
      = Ret (inl (v1, v2)) w' ∧
    ComputeSystemV2.Container v2 = Some container ∧
    ContainersResourcesStorageV2.Path (ContainerV2.Storage container) = "\\?\Volume{1}\" ∧
    ContainerConfig.VolumePath v1 = "\\?\Volume{1}" ∧
    ContainerConfig.LayerFolderPath v1 = "C:\l\scratch".
Proof.
  destruct (@process_isolated_root_path calm sample_host argon_options
              (container_spec container_windows (Some volume_root))
              container_windows volume_root "C:\l\scratch" false base_shared
              argon_kind eq_refl ltac:(discriminate) eq_refl
              ltac:(repeat constructor) (sample_mounts_allowed _ _))
    as (v1 & v2 & c & w' & Hrun & Hc & _ & _ & Hadd & Hvol & Hlf & _).
  exists v1, v2, c, w'. split; [exact Hrun|]. split; [exact Hc|].
  assert (Hp : ContainersResourcesStorageV2.Path (ContainerV2.Storage c) = "\\?\Volume{1}\")
    by (apply Hadd; discriminate).
  split; [exact Hp|]. split; [|exact Hlf].
  rewrite Hp in Hvol.
  change ("\\?\Volume{1}\") with ("\\?\Volume{1}" +:+ "\") in Hvol.
  revert Hvol. generalize (ContainerConfig.VolumePath v1). intros s Hs.
  rewrite <- (drop_last_char_app s backslash), <- (drop_last_char_app "\\?\Volume{1}" backslash).
  f_equal. exact Hs.
Defined.

Lemma HCSContainerDocuments_panics_witness :
  ∃ w',
    @HCSContainerDocuments calm sample_host
      (options_of "c4" SchemaV10
         (container_spec (windows_of [] None None) (Some volume_root)) nil_Container None)
      base_shared = Panic w'.
Proof.
  by apply (@HCSContainerDocuments_panics calm sample_host
              (options_of "c4" SchemaV10
                 (container_spec (windows_of [] None None) (Some volume_root))
                 nil_Container None)
              (container_spec (windows_of [] None None) (Some volume_root))
              (windows_of [] None None) base_shared eq_refl eq_refl eq_refl).
Defined.

(** The documents of the example container, for the examples below. *)
Lemma argon_documents :
  ∃ v1 v2 w',
    @HCSContainerDocuments calm sample_host argon_options base_shared
      = Ret (inl (v1, v2)) w'.
Proof.
  apply (@process_isolated_runs calm sample_host argon_options _ _ _ _ (Ascii.ascii_of_nat 125) base_shared
           argon_kind); try done; [by repeat constructor | apply sample_mounts_allowed].
Qed.

Lemma HCSContainerDocuments_mounts_witness :
  ∃ v1 v2 w',
    @HCSContainerDocuments calm sample_host argon_options base_shared
      = Ret (inl (v1, v2)) w' ∧
    ContainerConfig.MappedDirectories v1 =
      [{| MappedDir.HostPath := "D:\data";
          MappedDir.ContainerPath := "C:\data";
          MappedDir.ReadOnly := true |}] ∧
    ContainerConfig.MappedPipes v1 =
      [{| MappedPipe.HostPath := "\\.\pipe\host";
          MappedPipe.ContainerPipeName := "docker" |}].
Proof.
  destruct argon_documents as (v1 & v2 & w' & Hrun).
  destruct (@HCSContainerDocuments_mounts calm sample_host argon_options
              base_shared w' v1 v2 Hrun)
    as (spec & Hspec & _ & Hd & Hp & _).
  injection Hspec as <-.
  exists v1, v2, w'. split; [exact Hrun|]. split; [exact Hd | exact Hp].
Defined.

Lemma HCSContainerDocuments_agree_witness :
  ∃ v1 v2 c w',
    @HCSContainerDocuments calm sample_host argon_options base_shared
      = Ret (inl (v1, v2)) w' ∧
    @v2_container calm v2 = Some c ∧
    ComputeSystemV2.Owner v2 = "docker" ∧
    ContainerConfig.Owner v1 = "docker" ∧
    ContainerV2.GuestOS c = Some {| GuestOsV2.HostName := "web" |} ∧
    ContainerConfig.HostName v1 = "web" ∧
    ContainerV2.Processor c =
      Some {| ContainersResourcesProcessorV2.Count := 4;
              ContainersResourcesProcessorV2.Weight := 0;
              ContainersResourcesProcessorV2.Maximum := 0 |} ∧
    ContainerConfig.ProcessorCount v1 = 4 ∧
    ContainerV2.Memory c = Some {| ContainersResourcesMemoryV2.Maximum := 1024 |} ∧
    ContainerConfig.MemoryMaximumInMB v1 = 1024 ∧
    ContainerV2.Networking c = None ∧
    ContainerConfig.EndpointList v1 = [] ∧
    ContainerV2.MappedDirectories c = MappedDir_v2 <$> ContainerConfig.MappedDirectories v1 ∧
    ContainerV2.MappedPipes c = MappedPipe_v2 <$> ContainerConfig.MappedPipes v1 ∧
    ContainersResourcesStorageV2.StorageQoS (ContainerV2.Storage c) = None ∧
    ContainerConfig.StorageIOPSMaximum v1 = 0 ∧
    ContainersResourcesStorageV2.Layers (ContainerV2.Storage c)
      = Layer_v2 <$> ContainerConfig.Layers v1.
Proof.
  assert (Hrun : ∃ v1 v2 w',
            @HCSContainerDocuments calm sample_host argon_options base_shared
              = Ret (inl (v1, v2)) w' ∧
            ContainerConfig.Owner v1 = "docker" ∧
            ContainerConfig.HostName v1 = "web" ∧
            ContainerConfig.ProcessorCount v1 = 4 ∧
            ContainerConfig.ProcessorWeight v1 = 0 ∧
            ContainerConfig.ProcessorMaximum v1 = 0 ∧
            ContainerConfig.MemoryMaximumInMB v1 = 1024).
  { eexists _, _, _. split; [vm_compute; reflexivity|]. by repeat split. }
  destruct Hrun as (v1 & v2 & w' & Hrun & Ho & Hh & Hc & Hw & Hm & Hmem).
  destruct (@HCSContainerDocuments_agree calm sample_host argon_options
              base_shared w' v1 v2 Hrun)
    as (spec & windows & storage & c & Hspec & Hwin & Hst & Hv2 & Howner & Hguest &
        Hproc & _ & Hmemory & _ & Hnet & Hnone & Hd & Hp & Hqos & Hzero & Hargon).
  injection Hspec as <-. injection Hwin as <-.
  destruct (Hargon eq_refl) as (Hq & Hlayers).
  exists v1, v2, c, w'. split; [exact Hrun|]. split; [exact Hv2|].
  split; [by rewrite Howner|]. split; [exact Ho|].
  split; [by rewrite Hguest, Hh|]. split; [exact Hh|].
  split; [by rewrite Hproc, Hc, Hw, Hm|]. split; [exact Hc|].
  split; [by rewrite Hmemory, Hmem|]. split; [exact Hmem|].
  split; [exact Hnet|]. split; [exact (proj1 (Hnone Hnet))|].
  split; [exact Hd|]. split; [exact Hp|].
  split; [by rewrite Hqos, Hq|]. split; [exact (proj1 (Hzero eq_refl))|].
  exact Hlayers.
Defined.

Lemma HCSContainerDocuments_cpu_count_witness :
  ∃ v1 v2 w',
    @HCSContainerDocuments calm sample_host argon_options base_shared
      = Ret (inl (v1, v2)) w' ∧
    ContainerConfig.ProcessorCount v1 = 4 ∧
    logs w' = [@cpu_count_warning calm sample_host 8].
Proof.
  destruct argon_documents as (v1 & v2 & w' & Hrun).
  destruct (@HCSContainerDocuments_cpu_count calm sample_host argon_options
              base_shared w' v1 v2 Hrun)
    as (spec & windows & Hspec & Hwin & _ & _ & Hcount).
  injection Hspec as <-. injection Hwin as <-.
  exists v1, v2, w'. split; [exact Hrun|]. exact Hcount.
Defined.

Lemma hosted_documents_witness :
  @hosted calm xenon_options (container_spec (windows_of [] None None) None)
    (windows_of [] None None) mounted ∧
  ∃ v1 v2 c w',
    @HCSContainerDocuments calm sample_host xenon_options base_shared
      = Ret (inl (v1, v2)) w' ∧
    ComputeSystemV2.HostedSystem v2 =
      Some {| HostedSystemV2.SchemaVersion_ := (SchemaV20 : @SchemaVersion calm);
              HostedSystemV2.Container := c |} ∧
    ComputeSystemV2.HostingSystemId v2 = "uvm1" ∧
    ContainersResourcesStorageV2.Layers (ContainerV2.Storage c)
      = [{| Id := "guid-base"; Path := "C:\l\base" |}] ∧
    ContainerConfig.Layers v1 = [].
Proof.
  assert (Hkind : @hosted calm xenon_options
                    (container_spec (windows_of [] None None) None)
                    (windows_of [] None None) mounted) by (by repeat split).
  split; [exact Hkind|].
  destruct (@hosted_documents calm sample_host xenon_options _ _ mounted base_shared
              Hkind ltac:(intros root Hroot; discriminate Hroot)
              (sample_mounts_allowed _ _))
    as (v1 & v2 & c & w' & Hrun & _ & Hhosted & Hid & Hlayers & _ & Hl1 & _).
  exists v1, v2, c, w'. split; [exact Hrun|]. split; [exact Hhosted|].
  split; [exact Hid|]. split; [exact Hlayers | exact Hl1].
Defined.

Lemma hyperv_documents_witness :
  ∃ v1 v2 w',
    @HCSContainerDocuments calm sample_host hyperv_options base_shared
      = Ret (inl (v1, v2)) w' ∧
    ContainerConfig.HvPartition v1 = true ∧
    ContainerConfig.HvRuntime v1 = Some {| HvRuntime.ImagePath := "C:\l\base" |}.
Proof.
  assert (Hrun : ∃ v1 v2 w',
            @HCSContainerDocuments calm sample_host hyperv_options base_shared
              = Ret (inl (v1, v2)) w') by (by eexists _, _, _).
  destruct Hrun as (v1 & v2 & w' & Hrun).
  destruct (@hyperv_documents calm sample_host hyperv_options _ _
              {| specs.WindowsHyperV.UtilityVMPath := "" |} base_shared w' v1 v2
              Hrun eq_refl eq_refl eq_refl eq_refl)
    as (_ & _ & Hpart & image & Hrt & _ & Himage).
  exists v1, v2, w'. split; [exact Hrun|]. split; [exact Hpart|].
  rewrite Hrt. specialize (Himage eq_refl). by injection Himage as <-.
Defined.

Lemma CreateHCSContainerDocument_hosted_witness :
  (∃ w',
     @CreateHCSContainerDocument calm sample_host xenon_options base_shared
       = Ret ("v2 docker", None) w' ∧
     uvm w' = uvm base_shared ∧ history w' = [] ∧ logs w' = []) ∧
  (∃ w',
     @CreateHCSContainerDocument calm sample_host xenon_readonly_options base_shared
       = Ret ("", Some "invalid container spec - readonly is not supported") w' ∧
     uvm w' = uvm base_shared ∧ history w' = [] ∧
     logs w' = [@cpu_count_warning calm sample_host 8]) ∧
  (∃ w',
     @CreateHCSContainerDocument calm sample_host xenon_unmounted_options base_shared
       = Ret ("", Some "v2 schema call for a hosted container must supply mounted layers")
             w' ∧
     uvm w' = uvm base_shared ∧ history w' = [] ∧ logs w' = []).
Proof.
  split; [|split].
  - destruct (@CreateHCSContainerDocument_hosted calm sample_host xenon_options _ _
                base_shared eq_refl eq_refl eq_refl)
      as (doc & err & entries & Hrun & _ & Hentries & Hout).
    cbv zeta in Hrun. subst entries.
    destruct Hout as (v1 & v2 & c & b & _ & Hjson & Hdoc & -> & _).
    injection Hjson as <- <-. rewrite (Hdoc eq_refl) in Hrun.
    eexists. split; [exact Hrun|]. by repeat split.
  - destruct (@CreateHCSContainerDocument_hosted calm sample_host xenon_readonly_options
                _ _ base_shared eq_refl eq_refl eq_refl)
      as (doc & err & entries & Hrun & Hempty & Hentries & Hout).
    cbv zeta in Hrun. subst entries. change (err = Some
      "invalid container spec - readonly is not supported") in Hout. subst err.
    rewrite (Hempty eq_refl) in Hrun.
    eexists. split; [exact Hrun|]. by repeat split.
  - destruct (@CreateHCSContainerDocument_hosted calm sample_host xenon_unmounted_options
                _ _ base_shared eq_refl eq_refl eq_refl)
      as (doc & err & entries & Hrun & Hempty & Hout).
    cbv zeta in Hrun. destruct Hout as (-> & ->).
    rewrite (Hempty eq_refl) in Hrun.
    eexists. split; [exact Hrun|]. by repeat split.
Defined.
